(** * fulltext-article-downloader: the resolution-and-fallback engine

    A shallow embedding of [fulltext_article_downloader/downloader.py]
    ([get_publisher_from_doi], [download_article],
    [bulk_download_articles] and the three module tables) together with
    the theorems that relate it to its specification.

    Python strings are modelled by [string]; a character is a code point
    below 256.  Everything the module reaches outside itself (the
    [requests] library, the file system, the twelve functions of
    [tools.py], [tqdm]) is a parameter of the development: an oracle over
    an abstract [World].

    The later parts embed seven functions of [tools.py] together with
    [_download_file] ([Module Tools]), the key file loader
    [__init__._load_api_keys] ([Module Keys]), [configure.main]
    ([Module Configure]) and [cli.main] ([Module Cli]), each over an
    interface of its own for what it reaches outside. *)

From Stdlib Require Import String Ascii List Bool ZArith QArith Lia.
From Stdlib Require Import DecimalString.
Import ListNotations.

Local Open Scope string_scope.
Local Open Scope list_scope.

(** ** Python built-ins used by the module *)

Module Py.

(** [s.split(sep)[0]]: the part of [s] before the first [sep], the whole
    of [s] when [sep] does not occur. *)
Fixpoint split_head (sep : ascii) (s : string) : string :=
  match s with
  | EmptyString => EmptyString
  | String c r =>
      if Ascii.eqb c sep then EmptyString else String c (split_head sep r)
  end.

(** [s.startswith(p)] *)
Definition startswith (s p : string) : bool := String.prefix p s.

(** [s.endswith(c)] for a one-character suffix. *)
Fixpoint endswith_char (s : string) (c : ascii) : bool :=
  match s with
  | EmptyString => false
  | String a EmptyString => Ascii.eqb a c
  | String _ r => endswith_char r c
  end.

(** [s.rfind(c)]: the highest index of [c] in [s], or -1. *)
Fixpoint rfind_from (c : ascii) (s : string) (i acc : Z) : Z :=
  match s with
  | EmptyString => acc
  | String a r => rfind_from c r (i + 1) (if Ascii.eqb a c then i else acc)
  end.

Definition rfind (c : ascii) (s : string) : Z := rfind_from c s 0 (-1).

(** Slices [s[i:j]] and [s[i:]] for indices within [0, len(s)]. *)
Definition slice (s : string) (i j : Z) : string :=
  substring (Z.to_nat i) (Z.to_nat (j - i)) s.

Definition slice_from (s : string) (i : Z) : string :=
  substring (Z.to_nat i) (String.length s - Z.to_nat i) s.

Fixpoint all_chars (p : ascii -> bool) (s : string) : bool :=
  match s with
  | EmptyString => true
  | String c r => p c && all_chars p r
  end.

Fixpoint map_chars (f : ascii -> ascii) (s : string) : string :=
  match s with
  | EmptyString => EmptyString
  | String c r => String (f c) (map_chars f r)
  end.

Fixpoint contains_char (c : ascii) (s : string) : bool :=
  match s with
  | EmptyString => false
  | String a r => Ascii.eqb a c || contains_char c r
  end.

(** [os.path.splitext] (posixpath): the extension starts at the last dot
    of the last path component, leading dots of that component not
    counting. *)
Definition splitext (p : string) : string * string :=
  let sepIndex := rfind "/" p in
  let dotIndex := rfind "." p in
  if (sepIndex <? dotIndex)%Z
  then
    (* the while loop: a character other than a dot between the component
       start and the last dot *)
    if all_chars (fun c => Ascii.eqb c ".") (slice p (sepIndex + 1) dotIndex)
    then (p, EmptyString)
    else (slice p 0 dotIndex, slice_from p dotIndex)
  else (p, EmptyString).

(** [os.path.join(a, b)] (posixpath, two arguments). *)
Definition path_join (a b : string) : string :=
  if startswith b "/" then b
  else if (String.eqb a EmptyString || endswith_char a "/")%bool then a ++ b
  else a ++ "/" ++ b.

(** [os.path.basename] (posixpath). *)
Definition basename (p : string) : string := slice_from p (rfind "/" p + 1).

(** *** [repr] of a string, which is what [str] of a [KeyError] shows *)

Definition hex_digit (n : N) : ascii :=
  if (n <? 10)%N then ascii_of_N (48 + n) else ascii_of_N (87 + n).

(** [str.isprintable] on one code point below 256. *)
Definition isprintable (c : ascii) : bool :=
  let n := N_of_ascii c in
  ((32 <=? n) && (n <=? 126) || (161 <=? n) && negb (n =? 173))%N.

Definition repr_char (quote c : ascii) : string :=
  let n := N_of_ascii c in
  if (Ascii.eqb c quote || Ascii.eqb c "\")%bool then String "\" (String c EmptyString)
  else if (n =? 9)%N then "\t"
  else if (n =? 10)%N then "\n"
  else if (n =? 13)%N then "\r"
  else if isprintable c then String c EmptyString
  else String "\" (String "x" (String (hex_digit (n / 16))
                                  (String (hex_digit (n mod 16)) EmptyString))).

Fixpoint repr_body (quote : ascii) (s : string) : string :=
  match s with
  | EmptyString => EmptyString
  | String c r => repr_char quote c ++ repr_body quote r
  end.

Definition dquote : ascii := ascii_of_nat 34.

Definition repr (s : string) : string :=
  let quote : ascii :=
    if (contains_char "'" s && negb (contains_char dquote s))%bool
    then dquote else "'"%char in
  String quote (repr_body quote s ++ String quote EmptyString).

(** *** Exceptions (the subclasses of [Exception]) *)

Inductive Exc : Type :=
| Exception_ (cls : string) (msg : string)  (* [cls(msg)], [str] gives [msg] *)
| KeyError (key : string).                  (* raised by a failed [d[key]]  *)

(** [str(e)], which is also what an f-string shows for [{e}]. *)
Definition str (e : Exc) : string :=
  match e with
  | Exception_ _ msg => msg
  | KeyError key => repr key
  end.

(** *** Values decoded from JSON *)

#[warnings="-register-all"]
Inductive Val : Type :=
| VNone
| VBool (b : bool)
| VNum (n : Z)
| VStr (s : string)
| VList (l : list Val)
| VDict (d : list (string * Val)).

Definition type_name (v : Val) : string :=
  match v with
  | VNone => "NoneType"
  | VBool _ => "bool"
  | VNum _ => "int"
  | VStr _ => "str"
  | VList _ => "list"
  | VDict _ => "dict"
  end.

(** Truth value of an object in a condition. *)
Definition truthy (v : Val) : bool :=
  match v with
  | VNone => false
  | VBool b => b
  | VNum n => negb (n =? 0)%Z
  | VStr s => negb (String.eqb s EmptyString)
  | VList l => match l with [] => false | _ => true end
  | VDict d => match d with [] => false | _ => true end
  end.

(** A dict with string keys, in insertion order. *)
Definition Dict (V : Type) : Type := list (string * V).

Fixpoint dict_get {V : Type} (d : Dict V) (k : string) : option V :=
  match d with
  | [] => None
  | (k', v) :: r => if String.eqb k' k then Some v else dict_get r k
  end.

(** [d[k] = v]: a present key keeps its place and takes the new value, a
    new key goes last. *)
Fixpoint dict_set {V : Type} (d : Dict V) (k : string) (v : V) : Dict V :=
  match d with
  | [] => [(k, v)]
  | (k', v') :: r =>
      if String.eqb k' k then (k', v) :: r else (k', v') :: dict_set r k v
  end.

Definition dict_keys {V : Type} (d : Dict V) : list string := map fst d.

End Py.

Import Py.

(** ** The module tables *)

(** [PUBLISHER_TOOL_MAP]: publisher name to preferred tool order. *)
Definition PUBLISHER_TOOL_MAP : Dict (list string) :=
  [ ("Elsevier BV", ["unpaywall"; "elsevier"]);
    ("Springer Science and Business Media LLC",
       ["springerpdf"; "unpaywall"; "springeropen"]);
    ("Wiley", ["wiley"; "unpaywall"]);
    ("American Chemical Society (ACS)", ["unpaywall"]);
    ("Royal Society of Chemistry (RSC)", ["unpaywall"]);
    ("American Institute of Physics (AIP)", ["unpaywall"]);
    ("American Physical Society (APS)", ["aps"; "unpaywall"]);
    ("Oxford University Press (OUP)", ["unpaywall"]);
    ("Cambridge University Press (CUP)", ["cambridge"; "unpaywall"]);
    ("Taylor & Francis", ["unpaywall"]);
    ("Public Library of Science (PLoS)", ["plos"; "unpaywall"]);
    ("bioRxiv", ["paperscraper"; "unpaywall"]);
    ("medRxiv", ["paperscraper"; "unpaywall"]);
    ("chemRxiv", ["paperscraper"; "unpaywall"]);
    ("arXiv", ["paperscraper"; "arxiv"; "unpaywall"]);
    ("eLife Sciences Publications, Ltd", ["elife"; "unpaywall"]);
    ("Institute of Electrical and Electronics Engineers (IEEE)",
       ["unpaywall"]) ].

(** [PREPRINT_SERVER_PREFIXES]: DOI prefix to preprint server. *)
Definition PREPRINT_SERVER_PREFIXES : Dict string :=
  [ ("10.1101", "bioRxiv");
    ("10.21203", "Research Square");
    ("10.31219", "OSF Preprints");
    ("10.20944", "Preprints.org");
    ("10.26434", "chemRxiv");
    ("10.22541", "medRxiv");
    ("10.31730", "EarthArXiv");
    ("10.1149", "ECSarXiv");
    ("10.3886", "SSRN");
    ("10.33774", "Cambridge Open Engage");
    ("10.2139", "SSRN");
    ("10.53731", "arXiv");
    ("10.48550", "arXiv");
    ("10.57967", "engRxiv");
    ("10.3389", "Frontiers Media SA");
    ("10.4175", "Frontiers Media SA") ].

(** The functions of [tools.py] that [TOOL_FUNCTIONS] refers to. *)
Inductive Tool : Type :=
| download_via_elsevier
| download_via_springerpdf
| download_via_wiley
| download_via_plos
| download_via_unpaywall
| download_via_springeropen
| download_via_crossref_tdm
| download_via_arxiv
| download_via_elife
| download_via_paperscraper
| download_via_aps
| download_via_cambridge.

(** [TOOL_FUNCTIONS]: tool name to function. *)
Definition TOOL_FUNCTIONS : Dict Tool :=
  [ ("elsevier", download_via_elsevier);
    ("springerpdf", download_via_springerpdf);
    ("wiley", download_via_wiley);
    ("plos", download_via_plos);
    ("unpaywall", download_via_unpaywall);
    ("springeropen", download_via_springeropen);
    ("crossref_tdm", download_via_crossref_tdm);
    ("arxiv", download_via_arxiv);
    ("elife", download_via_elife);
    ("paperscraper", download_via_paperscraper);
    ("aps", download_via_aps);
    ("cambridge", download_via_cambridge) ].

(** The list used when the publisher is unknown or has no entry. *)
Definition DEFAULT_TOOLS : list string := ["unpaywall"; "crossref_tdm"].

(** ** Effects: outcomes, events and the monad of the module *)

Inductive Outcome (A : Type) : Type :=
| Ok (a : A)
| Raise (e : Exc).

Arguments Ok {A} a.
Arguments Raise {A} e.

Inductive Level : Type := INFO | WARNING | ERROR.

(** What a run does that can be seen from outside, in the order it
    happens.  An [EvLog] is a record handed to the module logger
    ([logging.getLogger(__name__)]); an [EvRootLog] one handed to the
    root logger.  Which handlers write a record is the logging
    configuration's business. *)
Inductive Event : Type :=
| EvHttpGet (url : string)                  (* requests.get(url)            *)
| EvMakedirs (dir : string)                 (* os.makedirs(dir, exist_ok)   *)
| EvOpenLog (path : string)                 (* logging.FileHandler(path,'a') *)
| EvCall (f : Tool) (doi path : string)     (* TOOL_FUNCTIONS[tool](doi, path) *)
| EvLog (lvl : Level) (msg : string)
| EvRootLog (lvl : Level) (msg : string)
| EvPrint (msg : string)
| EvSleep (secs : Q).

(** A handler attached to the module logger. *)
Inductive Handler : Type :=
| FileHandler (baseFilename : string)
| OtherHandler.

(** A response of [requests.get]: its status code, what
    [raise_for_status] raises when the code is an error, and what
    [json()] gives. *)
Record Response : Type := mkResponse {
  status_code : Z;
  http_error : Exc;
  json : Outcome Val
}.

(** A computation reads and updates a state [S], gives a value or raises,
    and reports the events it caused. *)
Definition M (S A : Type) : Type := S -> Outcome A * S * list Event.

Definition ret {S A : Type} (a : A) : M S A := fun s => (Ok a, s, []).

Definition raise {S A : Type} (e : Exc) : M S A := fun s => (Raise e, s, []).

Definition bind {S A B : Type} (c : M S A) (k : A -> M S B) : M S B :=
  fun s =>
    match c s with
    | (Ok a, s1, ev1) =>
        match k a s1 with (r, s2, ev2) => (r, s2, ev1 ++ ev2) end
    | (Raise e, s1, ev1) => (Raise e, s1, ev1)
    end.

(** [try: c  except Exception as e: h e] *)
Definition try_except {S A : Type} (c : M S A) (h : Exc -> M S A) : M S A :=
  fun s =>
    match c s with
    | (Ok a, s1, ev1) => (Ok a, s1, ev1)
    | (Raise e, s1, ev1) =>
        match h e s1 with (r, s2, ev2) => (r, s2, ev1 ++ ev2) end
    end.

Definition emit {S : Type} (ev : Event) : M S unit := fun s => (Ok tt, s, [ev]).

Definition of_outcome {S A : Type} (o : Outcome A) : M S A :=
  fun s => (o, s, []).

Declare Scope py_scope.
Delimit Scope py_scope with py.
Notation "x <- c ;; k" := (bind c (fun x => k))
  (at level 100, c at next level, right associativity) : py_scope.
Notation "c ;; k" := (bind c (fun _ => k))
  (at level 100, right associativity) : py_scope.
Local Open Scope py_scope.

(** The result components of a run. *)
Definition outcome_of {S A : Type} (r : Outcome A * S * list Event) : Outcome A :=
  fst (fst r).
Definition state_of {S A : Type} (r : Outcome A * S * list Event) : S :=
  snd (fst r).
Definition events_of {S A : Type} (r : Outcome A * S * list Event) : list Event :=
  snd r.

(** ** The downloader *)

(** The world outside the module and the calls into it: the interface of
    the external collaborators. *)
Class Externals : Type := {
  World : Type;
  requests_get : string -> World -> Outcome Response * World;
  os_makedirs : string -> World -> Outcome unit * World;
  (** opening the file of a [logging.FileHandler] *)
  open_log_file : string -> World -> Outcome unit * World;
  (** the functions of [tools.py] *)
  run_tool : Tool -> string -> string -> World -> Outcome string * World;
  (** [os.path.abspath] for the working directory of the process *)
  abspath : string -> string;
  (** whether [from tqdm import tqdm] succeeds *)
  tqdm_installed : bool
}.

Section Downloader.

Context {X : Externals}.

(** The state a call works on: the world and the module logger. *)
Record Env : Type := mkEnv {
  world : World;
  handlers : list Handler;
  level : option Level
}.

Definition call {A : Type} (f : World -> Outcome A * World) (ev : Event)
  : M Env A :=
  fun s =>
    match f (world s) with
    | (r, w) => (r, mkEnv w (handlers s) (level s), [ev])
    end.

(** A call of the module logger: [logger.info], [logger.warning] or
    [logger.error].  Whether the call makes a record depends on the
    level of the logger ([isEnabledFor], further down). *)
Definition log (lvl : Level) (msg : string) : M Env unit := emit (EvLog lvl msg).

(** *** [get_publisher_from_doi] *)

Definition crossref_url (doi : string) : string :=
  "https://api.crossref.org/works/" ++ doi.

Definition datacite_url (doi : string) : string :=
  "https://api.datacite.org/dois/" ++ doi.

(** [r.raise_for_status()] *)
Definition raise_for_status (r : Response) : M Env unit :=
  if ((400 <=? status_code r) && (status_code r <? 600))%Z
  then raise (http_error r) else ret tt.

(** [v.get(key, default)], an [AttributeError] unless [v] is a dict. *)
Definition val_get (v : Val) (key : string) (default : Val) : M Env Val :=
  match v with
  | VDict d =>
      ret (match dict_get d key with Some x => x | None => default end)
  | _ =>
      raise (Exception_ "AttributeError"
               ("'" ++ type_name v ++ "' object has no attribute 'get'"))
  end.

Definition resolve_failed_msg (doi : string) (e : Exc) : string :=
  "Failed to resolve DOI " ++ doi ++ " to publisher: " ++ str e.

Definition get_publisher_from_doi (doi : string) : M Env Val :=
  let prefix := split_head "/" doi in
  match dict_get PREPRINT_SERVER_PREFIXES prefix with
  | Some server => ret (VStr server)
  | None =>
      try_except
        (r <- call (requests_get (crossref_url doi))
                   (EvHttpGet (crossref_url doi)) ;;
         if (status_code r =? 404)%Z
         then
           r2 <- call (requests_get (datacite_url doi))
                      (EvHttpGet (datacite_url doi)) ;;
           if (status_code r2 =? 200)%Z
           then
             data <- of_outcome (json r2) ;;
             d <- val_get data "data" (VDict []) ;;
             a <- val_get d "attributes" (VDict []) ;;
             val_get a "publisher" VNone
           else ret VNone
         else
           raise_for_status r ;;
           data <- of_outcome (json r) ;;
           m <- val_get data "message" (VDict []) ;;
           val_get m "publisher" VNone)
        (fun e =>
           emit (EvRootLog ERROR (resolve_failed_msg doi e)) ;;
           ret VNone)
  end.

(** *** [download_article] *)

(** Lines 116-135: attach a file handler for [log_file] unless one for
    the same file is attached already, and set the level to INFO. *)
Definition same_file (file_path : string) (h : Handler) : bool :=
  match h with
  | FileHandler baseFilename => String.eqb (abspath baseFilename) file_path
  | OtherHandler => false
  end.

Definition configure_logging (log_file : option string) : M Env unit :=
  match log_file with
  | None => ret tt
  | Some lf =>
      if String.eqb lf EmptyString then ret tt
      else
        let file_path := abspath lf in
        (fun s =>
           if existsb (same_file file_path) (handlers s)
           then (Ok tt, s, [])
           else
             bind (call (open_log_file file_path) (EvOpenLog file_path))
                  (fun _ s1 =>
                     (Ok tt,
                      mkEnv (world s1)
                            (handlers s1 ++ [FileHandler (abspath file_path)])
                            (level s1), []))
                  s) ;;
        (fun s => (Ok tt, mkEnv (world s) (handlers s) (Some INFO), []))
  end.

(** [PUBLISHER_TOOL_MAP.get(publisher, ["unpaywall", "crossref_tdm"])];
    a list or a dict cannot be hashed. *)
Definition tool_map_get (publisher : Val) : Outcome (list string) :=
  match publisher with
  | VStr name =>
      Ok (match dict_get PUBLISHER_TOOL_MAP name with
          | Some l => l
          | None => DEFAULT_TOOLS
          end)
  | VList _ => Raise (Exception_ "TypeError" "unhashable type: 'list'")
  | VDict _ => Raise (Exception_ "TypeError" "unhashable type: 'dict'")
  | _ => Ok DEFAULT_TOOLS
  end.

(** Lines 139-146: the list of tools to use. *)
Definition select_methods (doi : string) (tools : option (list string))
  : M Env (list string) :=
  match tools with
  | None =>
      publisher <- get_publisher_from_doi doi ;;
      if truthy publisher then of_outcome (tool_map_get publisher)
      else ret DEFAULT_TOOLS
  | Some l => ret l
  end.

(** The character class [[A-Za-z0-9._-]]. *)
Definition allowed_char (c : ascii) : bool :=
  let n := N_of_ascii c in
  ((65 <=? n) && (n <=? 90) || (97 <=? n) && (n <=? 122)
   || (48 <=? n) && (n <=? 57)
   || (n =? 46) || (n =? 95) || (n =? 45))%N.

(** [re.sub(r'[^A-Za-z0-9._-]', '_', doi)] *)
Definition sanitize (doi : string) : string :=
  map_chars (fun c => if allowed_char c then c else "_"%char) doi.

(** [".xml" if tool in ["elsevier", "springeropen"] else ".pdf"] *)
Definition tool_ext (tool : string) : string :=
  if existsb (String.eqb tool) ["elsevier"; "springeropen"]
  then ".xml" else ".pdf".

(** Lines 153-164: the file name for one tool. *)
Definition out_name (output_filename : option string) (base_name tool : string)
  : string :=
  match output_filename with
  | Some fn =>
      if String.eqb fn EmptyString then base_name ++ tool_ext tool
      else
        match splitext fn with
        | (name, ext) =>
            if String.eqb ext EmptyString then name ++ tool_ext tool else fn
        end
  | None => base_name ++ tool_ext tool
  end.

Definition attempt_msg (doi tool : string) : string :=
  "Attempting DOI " ++ doi ++ " with tool: " ++ tool.

Definition success_msg (doi tool result_path : string) : string :=
  "Success with " ++ tool ++ " for DOI " ++ doi ++ " -> " ++ result_path.

Definition failure_msg (doi tool : string) (e : Exc) : string :=
  "Tool " ++ tool ++ " failed for DOI " ++ doi ++ ": " ++ str e.

(** [TOOL_FUNCTIONS[tool]] *)
Definition lookup_tool (tool : string) : M Env Tool :=
  match dict_get TOOL_FUNCTIONS tool with
  | Some f => ret f
  | None => raise (KeyError tool)
  end.

(** Lines 167-170: the body of the [try]. *)
Definition attempt (doi tool output_path : string) : M Env string :=
  log INFO (attempt_msg doi tool) ;;
  f <- lookup_tool tool ;;
  result_path <- call (run_tool f doi output_path) (EvCall f doi output_path) ;;
  log INFO (success_msg doi tool result_path) ;;
  ret result_path.

(** Lines 151-174: the loop over [method_list].  It leaves either by the
    [return] of a tool that succeeded ([inl]) or at the end of the list,
    with the last exception caught ([inr]). *)
Fixpoint try_tools (doi output_dir : string) (output_filename : option string)
    (base_name : string) (method_list : list string)
    (last_exception : option Exc) : M Env (string + option Exc) :=
  match method_list with
  | [] => ret (inr last_exception)
  | tool :: rest =>
      let output_path :=
        path_join output_dir (out_name output_filename base_name tool) in
      r <- try_except
             (result_path <- attempt doi tool output_path ;;
              ret (inl result_path))
             (fun e =>
                log WARNING (failure_msg doi tool e) ;;
                ret (inr e)) ;;
      match r with
      | inl result_path => ret (inl result_path)
      | inr e =>
          try_tools doi output_dir output_filename base_name rest (Some e)
      end
  end.

Definition all_failed_msg (doi : string) : string :=
  "All download methods failed for DOI " ++ doi ++ ".".

(** The message of the exception raised when no tool succeeded; a caught
    exception is true in the condition [if last_exception:]. *)
Definition error_msg (doi : string) (last_exception : option Exc) : string :=
  match last_exception with
  | Some e => all_failed_msg doi ++ " Last error: " ++ str e
  | None => all_failed_msg doi
  end.

(** Lines 115-137: the logger and the output directory. *)
Definition setup (output_dir : string) (log_file : option string) : M Env unit :=
  configure_logging log_file ;;
  call (os_makedirs output_dir) (EvMakedirs output_dir).

(** Lines 115-146: everything before the loop. *)
Definition prepare (doi output_dir : string) (tools : option (list string))
    (log_file : option string) : M Env (list string) :=
  setup output_dir log_file ;;
  select_methods doi tools.

(** Lines 175-181: how the function ends once the loop is left. *)
Definition conclude (doi : string) (r : string + option Exc) : M Env string :=
  match r with
  | inl result_path => ret result_path
  | inr last_exception =>
      log ERROR (all_failed_msg doi) ;;
      raise (Exception_ "Exception" (error_msg doi last_exception))
  end.

Definition download_article (doi output_dir : string)
    (output_filename : option string) (tools : option (list string))
    (log_file : option string) : M Env string :=
  method_list <- prepare doi output_dir tools log_file ;;
  let base_name := sanitize doi in
  r <- try_tools doi output_dir output_filename base_name method_list None ;;
  conclude doi r.

(** *** [bulk_download_articles] *)

Definition download_failed_msg (doi : string) (e : Exc) : string :=
  "Failed to download " ++ doi ++ ": " ++ str e.

(** [f"ERROR: {e}"] *)
Definition error_entry (e : Exc) : string := "ERROR: " ++ str e.

Definition newline : string := String (ascii_of_nat 10) EmptyString.

(** Lines 205-217: the loop over the identifiers. *)
Fixpoint bulk_loop (use_tqdm : bool) (output_dir : string)
    (log_file : option string) (sleep : Q) (iterator : list string)
    (results : Dict string) : M Env (Dict string) :=
  match iterator with
  | [] => ret results
  | doi :: rest =>
      results1 <-
        try_except
          (path <- download_article doi output_dir None None log_file ;;
           ret (dict_set results doi path))
          (fun e =>
             (if use_tqdm then ret tt
              else emit (EvPrint (download_failed_msg doi e))) ;;
             ret (dict_set results doi (error_entry e))) ;;
      (if negb (Qle_bool sleep 0) then emit (EvSleep sleep) else ret tt) ;;
      bulk_loop use_tqdm output_dir log_file sleep rest results1
  end.

(** [res.startswith("ERROR")] *)
Definition is_error_entry (res : string) : bool := startswith res "ERROR".

(** [[d for d, res in results.items() if ... res.startswith("ERROR")]] *)
Definition failed_of (results : Dict string) : list string :=
  map fst (filter (fun item => is_error_entry (snd item)) results).

Definition summary_header : string :=
  newline ++ "The following DOIs could not be downloaded:".

Definition summary_line (d res : string) : string :=
  "  - " ++ d ++ ": " ++ res.

(** [results[d]] *)
Definition dict_index (results : Dict string) (d : string) : M Env string :=
  match dict_get results d with
  | Some v => ret v
  | None => raise (KeyError d)
  end.

Fixpoint print_failed (results : Dict string) (failed : list string)
  : M Env unit :=
  match failed with
  | [] => ret tt
  | d :: rest =>
      res <- dict_index results d ;;
      emit (EvPrint (summary_line d res)) ;;
      print_failed results rest
  end.

(** Lines 218-225: the summary of failures. *)
Definition print_summary (results : Dict string) : M Env unit :=
  let failed := failed_of results in
  match failed with
  | [] => ret tt
  | _ => emit (EvPrint summary_header) ;; print_failed results failed
  end.

Definition bulk_download_articles (dois : list string) (output_dir : string)
    (log_file : option string) (sleep : Q) : M Env (Dict string) :=
  let total := List.length dois in
  let use_tqdm := ((1 <? total)%nat && tqdm_installed)%bool in
  results <- bulk_loop use_tqdm output_dir log_file sleep dois [] ;;
  (if use_tqdm then print_summary results else ret tt) ;;
  ret results.

(** ** Notions the specification speaks in *)

(** The candidate path of one tool. *)
Definition candidate_path (doi output_dir : string)
    (output_filename : option string) (tool : string) : string :=
  path_join output_dir (out_name output_filename (sanitize doi) tool).

(** [all_fail doi dir fn l s last s' last']: every tool of [l],
    attempted in turn from state [s], fails; [s'] is the state the last
    one leaves and [last'] the exception it raised ([last] when [l] is
    empty). *)
Inductive all_fail (doi output_dir : string) (output_filename : option string)
  : list string -> Env -> option Exc -> Env -> option Exc -> Prop :=
| all_fail_nil : forall s last,
    all_fail doi output_dir output_filename [] s last s last
| all_fail_cons : forall tool rest s last e s1 ev s2 last2,
    attempt doi tool (candidate_path doi output_dir output_filename tool) s
      = (Raise e, s1, ev) ->
    all_fail doi output_dir output_filename rest s1 (Some e) s2 last2 ->
    all_fail doi output_dir output_filename (tool :: rest) s last s2 last2.

(** An attempt-started log entry. *)
Definition is_attempt_entry (ev : Event) : bool :=
  match ev with
  | EvLog INFO msg => startswith msg "Attempting DOI "
  | _ => false
  end.

(** The entry that starts the attempt of [tool]. *)
Definition attempt_entry (doi tool : string) : Event :=
  EvLog INFO (attempt_msg doi tool).

Definition is_call (ev : Event) : bool :=
  match ev with EvCall _ _ _ => true | _ => false end.

(** A request of the classifier to a metadata registry. *)
Definition is_http (ev : Event) : bool :=
  match ev with EvHttpGet _ => true | _ => false end.

(** The invocation that attempting [tool] makes, none when the name is
    not in [TOOL_FUNCTIONS]. *)
Definition call_of (doi output_dir : string) (output_filename : option string)
    (tool : string) : list Event :=
  match dict_get TOOL_FUNCTIONS tool with
  | Some f =>
      [EvCall f doi (candidate_path doi output_dir output_filename tool)]
  | None => []
  end.

(** The function from some point of the loop on: the tools still to
    try, then the end of the function. *)
Definition resume (doi output_dir : string) (output_filename : option string)
    (method_list : list string) (last_exception : option Exc) : M Env string :=
  r <- try_tools doi output_dir output_filename (sanitize doi) method_list
         last_exception ;;
  conclude doi r.

(** The events of the preparation: opening the log file, creating the
    directory, the requests of the classifier and its error report. *)
Definition is_setup (ev : Event) : bool :=
  match ev with
  | EvOpenLog _ | EvMakedirs _ | EvHttpGet _ | EvRootLog _ _ => true
  | _ => false
  end.

(** The file-system part of the preparation. *)
Definition is_fs (ev : Event) : bool :=
  match ev with
  | EvOpenLog _ | EvMakedirs _ => true
  | _ => false
  end.

Definition no_http (ev : Event) : bool := negb (is_http ev).

(** Every event of the computation satisfies [P], from whatever state. *)
Definition emits {A : Type} (P : Event -> bool) (c : M Env A) : Prop :=
  forall s, forallb P (events_of (c s)) = true.

(** A tool invocation whose output path has a base name made of allowed
    characters only; any other event. *)
Definition safe_call_path (ev : Event) : bool :=
  match ev with
  | EvCall _ _ p => all_chars allowed_char (basename p)
  | _ => true
  end.

(** [if output_filename:] *)
Definition filename_given (output_filename : option string) : bool :=
  match output_filename with
  | Some fn => negb (String.eqb fn EmptyString)
  | None => false
  end.

(** [sub in s] *)
Fixpoint str_in (sub s : string) : bool :=
  (String.prefix sub s ||
   match s with
   | EmptyString => false
   | String _ r => str_in sub r
   end)%bool.

(** What the batch stores for one identifier. *)
Definition entry_of (o : Outcome string) : string :=
  match o with
  | Ok path => path
  | Raise e => error_entry e
  end.

(** The outcomes of resolving the identifiers one after the other, each
    in the state the previous one left, whatever that one's outcome. *)
Fixpoint per_item_outcomes (output_dir : string) (log_file : option string)
    (dois : list string) (s : Env) : list (string * Outcome string) * Env :=
  match dois with
  | [] => ([], s)
  | doi :: rest =>
      match download_article doi output_dir None None log_file s with
      | (o, s1, _) =>
          match per_item_outcomes output_dir log_file rest s1 with
          | (l, s2) => ((doi, o) :: l, s2)
          end
      end
  end.

Definition store (results : Dict string) (item : string * Outcome string)
  : Dict string :=
  dict_set results (fst item) (entry_of (snd item)).

(** The lines of the end-of-run summary for a result mapping. *)
Definition summary_events (results : Dict string) : list Event :=
  match filter (fun item => is_error_entry (snd item)) results with
  | [] => []
  | l =>
      EvPrint summary_header
        :: map (fun item => EvPrint (summary_line (fst item) (snd item))) l
  end.

End Downloader.

(** ** A scripted world, for running the model on concrete inputs

    The world is the list of what the next tool invocations will do:
    [None] lets the tool write its file and return the path it was given,
    as every function of [tools.py] does on success; [Some e] makes it
    raise [e].  The registries know two identifiers and cannot be
    reached for any other. *)

Definition scripted_tool (f : Tool) (doi output_path : string)
    (w : list (option Exc)) : Outcome string * list (option Exc) :=
  match w with
  | [] => (Raise (Exception_ "Exception" "no more scripted outcomes"), [])
  | None :: w' => (Ok output_path, w')
  | Some e :: w' => (Raise e, w')
  end.

Definition scripted_get (url : string) (w : list (option Exc))
  : Outcome Response * list (option Exc) :=
  if String.eqb url "https://api.crossref.org/works/10.5555/unmapped"
  then (Ok (mkResponse 200 (Exception_ "HTTPError" EmptyString)
              (Ok (VDict [("message",
                           VDict [("publisher", VStr "Unmapped Press")])]))),
        w)
  else if String.eqb url "https://api.crossref.org/works/10.1002/advs.1"
  then (Ok (mkResponse 200 (Exception_ "HTTPError" EmptyString)
              (Ok (VDict [("message", VDict [("publisher", VStr "Wiley")])]))),
        w)
  else (Raise (Exception_ "ConnectionError" "network is unreachable"), w).

Definition scripted_makedirs (dir : string) (w : list (option Exc))
  : Outcome unit * list (option Exc) :=
  if String.eqb dir "/proc/forbidden"
  then (Raise (Exception_ "PermissionError"
                 "[Errno 13] Permission denied: '/proc/forbidden'"), w)
  else (Ok tt, w).

Definition scripted_open (path : string) (w : list (option Exc))
  : Outcome unit * list (option Exc) := (Ok tt, w).

Definition scripted_abspath (p : string) : string :=
  if startswith p "/" then p else "/work/" ++ p.

Definition scripted : Externals := {|
  World := list (option Exc);
  requests_get := scripted_get;
  os_makedirs := scripted_makedirs;
  open_log_file := scripted_open;
  run_tool := scripted_tool;
  abspath := scripted_abspath;
  tqdm_installed := true
|}.

(** A fresh process: no handler on the module logger, no level set. *)
Definition fresh (w : list (option Exc)) : @Env scripted :=
  @mkEnv scripted w [] None.

Definition not_found : Exc :=
  Exception_ "Exception" "No open-access PDF found for DOI: 10.1234/a.b".

(** ** Further notions on runs *)

Section RunNotions.

Context {X : Externals}.

Definition is_sleep (ev : Event) : bool :=
  match ev with EvSleep _ => true | _ => false end.

(** A call of [print]. *)
Definition is_print (ev : Event) : bool :=
  match ev with EvPrint _ => true | _ => false end.

Definition is_open_log (ev : Event) : bool :=
  match ev with EvOpenLog _ => true | _ => false end.

Definition is_root_log (ev : Event) : bool :=
  match ev with EvRootLog _ _ => true | _ => false end.

(** A file handler for [log_file] is attached to the module logger. *)
Definition has_handler (log_file : string) (s : Env) : bool :=
  existsb (same_file (abspath log_file)) (handlers s).

(** The tool name is a key of [TOOL_FUNCTIONS]. *)
Definition known_tool (tool : string) : bool :=
  match dict_get TOOL_FUNCTIONS tool with
  | Some _ => true
  | None => false
  end.

(** [P] holds of the state a computation leaves whenever it holds of the
    state it starts from. *)
Definition preserves {A : Type} (P : Env -> Prop) (c : M Env A) : Prop :=
  forall s, P s -> P (state_of (c s)).

(** The identifiers whose resolution failed, with the exception caught. *)
Definition failures (outcomes : list (string * Outcome string))
  : list (string * Exc) :=
  flat_map
    (fun item =>
       match snd item with
       | Ok _ => []
       | Raise e => [(fst item, e)]
       end)
    outcomes.

End RunNotions.

(** ** A world of scripted registry answers

    The world is the list of what the next requests will get; every tool
    succeeds and [tqdm] is not installed. *)

Definition registry_get (url : string) (w : list (Outcome Response))
  : Outcome Response * list (Outcome Response) :=
  match w with
  | [] => (Raise (Exception_ "ConnectionError" "no answer scripted"), [])
  | r :: w' => (r, w')
  end.

Definition registry_world : Externals := {|
  World := list (Outcome Response);
  requests_get := registry_get;
  os_makedirs := fun _ w => (Ok tt, w);
  open_log_file := fun _ w => (Ok tt, w);
  run_tool := fun _ _ output_path w => (Ok output_path, w);
  abspath := scripted_abspath;
  tqdm_installed := false
|}.

Definition registry_env (w : list (Outcome Response)) : @Env registry_world :=
  @mkEnv registry_world w [] None.

(** An answer with the given status and JSON body. *)
Definition answer (status : Z) (body : Val) : Outcome Response :=
  Ok (mkResponse status
        (Exception_ "HTTPError" "Server Error for url") (Ok body)).

Section RunInvariants.

Context {X : Externals}.

(** From a state that satisfies [I] the computation leaves a state that
    satisfies [I], and each of its events satisfies [P]. *)
Definition emits_under {A : Type} (I : Env -> Prop) (P : Event -> bool)
    (c : M Env A) : Prop :=
  forall s, I s -> I (state_of (c s)) /\ forallb P (events_of (c s)) = true.

(** The logger is as given. *)
Definition logger_is (h : list Handler) (lv : option Level) (s : Env) : Prop :=
  handlers s = h /\ level s = lv.

Definition not_open_log (ev : Event) : bool := negb (is_open_log ev).

Definition any_event (ev : Event) : bool := true.

(** An invariant on which the world has no bearing. *)
Definition world_blind (I : Env -> Prop) : Prop :=
  forall s w, I s -> I (mkEnv w (handlers s) (level s)).

End RunInvariants.

Definition no_print_no_sleep (ev : Event) : bool :=
  negb (is_print ev) && negb (is_sleep ev).

(** The line printed at once for a failure when [tqdm] is not in use. *)
Definition failure_line (f : string * Exc) : Event :=
  EvPrint ("Failed to download " ++ fst f ++ ": " ++ str (snd f)).

(** * The tools of [tools.py]

    The functions that need nothing but [requests], the environment and
    the file system: [_download_file] and the Elsevier, Springer PDF,
    Wiley, PLOS, Unpaywall, CrossRef and arXiv tools.  The other five
    rest on third-party parsers and clients (BeautifulSoup, sprynger,
    paperscraper, browser_cookie3) and are left as the oracle [run_tool]
    above. *)

Module Tools.

(** [str] of an [int], as an f-string shows a status code. *)
Definition str_int (n : Z) : string := NilZero.string_of_int (Z.to_int n).

(** [s.split(sep)[-1]]: the part of [s] after the last [sep]. *)
Fixpoint last_segment (sep : ascii) (s : string) : string :=
  match s with
  | EmptyString => EmptyString
  | String c r => if contains_char sep s then last_segment sep r else s
  end.

(** [c.lower()] on a code point below 256. *)
Definition lower_char (c : ascii) : ascii :=
  let n := N_of_ascii c in
  if ((65 <=? n) && (n <=? 90)
      || (192 <=? n) && (n <=? 222) && negb (n =? 215))%N
  then ascii_of_N (n + 32) else c.

Definition lower (s : string) : string := map_chars lower_char s.

(** [s[n:]] *)
Fixpoint drop (n : nat) (s : string) : string :=
  match n, s with
  | O, _ => s
  | S n', String _ r => drop n' r
  | S _, EmptyString => EmptyString
  end.

(** A response of [requests.get]: the status code, the body as
    [content] gives it, the body as [iter_content] yields it (chunks,
    then possibly an exception) and what [json()] gives. *)
Record HttpResponse : Type := mkHttpResponse {
  r_status : Z;
  r_content : string;
  r_chunks : list string;
  r_stream_error : option Exc;
  r_json : Outcome Val
}.

(** What a tool does that can be seen from outside. *)
Inductive ToolEvent : Type :=
| TGet (url : string) (headers params : option (Dict string)) (stream : bool)
| TOpen (path : string)                   (* open(path, "wb")  *)
| TWrite (path : string) (data : string). (* f.write(data)     *)

(** The world of the tools. *)
Class ToolWorld : Type := {
  TW : Type;
  (** [os.getenv] *)
  getenv : string -> TW -> option string;
  (** [requests.get(url, headers=..., params=..., stream=...)] *)
  http_get : string -> option (Dict string) -> option (Dict string) -> bool ->
             TW -> Outcome HttpResponse * TW;
  open_wb : string -> TW -> Outcome unit * TW;
  write_bytes : string -> string -> TW -> Outcome unit * TW;
  (** the exception [requests.get] raises, before any traffic, for a URL
      that is not a string *)
  invalid_url : Val -> Exc;
  (** [str] of a value that is not a string, as an f-string shows it *)
  str_val : Val -> string
}.

Section Functions.

Context {W : ToolWorld}.

Definition T (A : Type) : Type := TW -> Outcome A * TW * list ToolEvent.

Definition tret {A : Type} (a : A) : T A := fun w => (Ok a, w, []).

Definition traise {A : Type} (e : Exc) : T A := fun w => (Raise e, w, []).

Definition tbind {A B : Type} (c : T A) (k : A -> T B) : T B :=
  fun w =>
    match c w with
    | (Ok a, w1, ev1) =>
        match k a w1 with (r, w2, ev2) => (r, w2, ev1 ++ ev2) end
    | (Raise e, w1, ev1) => (Raise e, w1, ev1)
    end.

(** [try: c  except Exception as e: h e] *)
Definition ttry {A : Type} (c : T A) (h : Exc -> T A) : T A :=
  fun w =>
    match c w with
    | (Ok a, w1, ev1) => (Ok a, w1, ev1)
    | (Raise e, w1, ev1) =>
        match h e w1 with (r, w2, ev2) => (r, w2, ev1 ++ ev2) end
    end.

Definition tcall {A : Type} (f : TW -> Outcome A * TW) (ev : ToolEvent) : T A :=
  fun w => match f w with (r, w1) => (r, w1, [ev]) end.

Definition t_of_outcome {A : Type} (o : Outcome A) : T A := fun w => (o, w, []).

Definition read_env (name : string) : T (option string) :=
  fun w => (Ok (getenv name w), w, []).

Declare Scope tool_scope.
Notation "x <- c ;; k" := (tbind c (fun x => k))
  (at level 100, c at next level, right associativity) : tool_scope.
Notation "c ;; k" := (tbind c (fun _ => k))
  (at level 100, right associativity) : tool_scope.
Local Open Scope tool_scope.

Definition get (url : string) (headers params : option (Dict string))
    (stream : bool) : T HttpResponse :=
  tcall (http_get url headers params stream) (TGet url headers params stream).

Definition exception (msg : string) : Exc := Exception_ "Exception" msg.

(** The loop [for chunk in response.iter_content(...): if chunk:
    f.write(chunk)]. *)
Fixpoint write_chunks (path : string) (chunks : list string) : T unit :=
  match chunks with
  | [] => tret tt
  | chunk :: rest =>
      (if String.eqb chunk EmptyString then tret tt
       else tcall (write_bytes path chunk) (TWrite path chunk)) ;;
      write_chunks path rest
  end.

(** [_download_file(url, output_path, headers)]; the [session] argument
    is passed by the APS tool only. *)
Definition _download_file (url output_path : string)
    (headers : option (Dict string)) : T string :=
  response <-
    ttry (get url headers None true)
         (fun e => traise (exception ("Request error for " ++ url ++ ": " ++ str e))) ;;
  if negb (r_status response =? 200)%Z
  then traise (exception ("Failed to download " ++ url ++ " (status code: "
                            ++ str_int (r_status response) ++ ")"))
  else
    ttry (tcall (open_wb output_path) (TOpen output_path) ;;
          write_chunks output_path (r_chunks response) ;;
          match r_stream_error response with
          | Some e => traise e
          | None => tret tt
          end)
         (fun e => traise (exception ("Error writing to file " ++ output_path
                                        ++ ": " ++ str e))) ;;
    tret output_path.

(** [if not value:] on what [os.getenv] gave. *)
Definition unset (v : option string) : bool :=
  match v with
  | Some s => String.eqb s EmptyString
  | None => true
  end.

Definition env_value (v : option string) : string :=
  match v with Some s => s | None => EmptyString end.

Definition download_via_elsevier (doi output_path : string) : T string :=
  api_key <- read_env "ELSEVIER_API_KEY" ;;
  if unset api_key
  then traise (exception "ELSEVIER_API_KEY is not set. Please configure your Elsevier API key.")
  else
    let url := ("https://api.elsevier.com/content/article/doi/" ++ doi)%string in
    let headers := [("X-ELS-APIKey", env_value api_key); ("Accept", "text/xml")] in
    let params := [("view", "FULL")] in
    response <-
      ttry (get url (Some headers) (Some params) false)
           (fun e => traise (exception ("Error connecting to Elsevier API: " ++ str e))) ;;
    if (r_status response =? 200)%Z
    then
      tcall (open_wb output_path) (TOpen output_path) ;;
      tcall (write_bytes output_path (r_content response))
            (TWrite output_path (r_content response)) ;;
      tret output_path
    else if (r_status response =? 403)%Z
    then traise (exception "Access denied by Elsevier API. Verify API key and access rights.")
    else if (r_status response =? 404)%Z
    then traise (exception "DOI not found in Elsevier API.")
    else traise (exception ("Elsevier API request failed (status code "
                              ++ str_int (r_status response) ++ ").")).

Definition download_via_springerpdf (doi output_path : string) : T string :=
  let pdf_url :=
    ("https://link.springer.com/content/pdf/" ++ doi ++ ".pdf")%string in
  let headers :=
    [("User-Agent", "Mozilla/5.0");
     ("Referer", ("https://link.springer.com/article/" ++ doi)%string)] in
  _download_file pdf_url output_path (Some headers).

Definition download_via_wiley (doi output_path : string) : T string :=
  api_key <- read_env "WILEY_API_KEY" ;;
  if unset api_key
  then traise (exception "WILEY_API_KEY is not set. Please configure your Wiley API key.")
  else
    let base_url := "https://api.wiley.com/onlinelibrary/tdm/v1/articles/" in
    let url := (base_url ++ doi)%string in
    let headers := [("Wiley-TDM-Client-Token", env_value api_key)] in
    ttry (_download_file url output_path (Some headers))
         (fun e =>
            traise (exception ("Wiley API download failed: " ++ str e
                      ++ ". Ensure your API key is correct and you have access rights."))).

Definition download_via_plos (doi output_path : string) : T string :=
  let base_url := "https://journals.plos.org/plosone/article/file" in
  ttry (let pdf_url := (base_url ++ "?id=" ++ doi ++ "&type=printable")%string in
        _download_file pdf_url output_path None)
       (fun e => traise (exception ("PLOS download failed: " ++ str e))).

(** The arXiv identifier of a DOI: its last segment, without a leading
    "arXiv." and a leading "arXiv:" in any letter case. *)
Definition arxiv_id (doi : string) : string :=
  let id0 := last_segment "/" doi in
  let id1 := if startswith (lower id0) "arxiv." then drop 6 id0 else id0 in
  if startswith (lower id1) "arxiv:" then drop 6 id1 else id1.

Definition download_via_arxiv (doi output_path : string) : T string :=
  let pdf_url := ("https://arxiv.org/pdf/" ++ arxiv_id doi ++ ".pdf")%string in
  _download_file pdf_url output_path None.

(** [_download_file] on a URL taken from JSON. *)
Definition download_from (url : Val) (output_path : string) : T string :=
  match url with
  | VStr u => _download_file u output_path None
  | v =>
      traise (exception ("Request error for " ++ str_val v ++ ": "
                           ++ str (invalid_url v)))
  end.

Definition attribute_error (v : Val) (attr : string) : Exc :=
  Exception_ "AttributeError"
    ("'" ++ type_name v ++ "' object has no attribute '" ++ attr ++ "'").

(** [v.get(key, default)] *)
Definition get_item (v : Val) (key : string) (default : Val) : T Val :=
  match v with
  | VDict d =>
      tret (match dict_get d key with Some x => x | None => default end)
  | _ => traise (attribute_error v "get")
  end.

Definition download_via_unpaywall (doi output_path : string) : T string :=
  email <- read_env "UNPAYWALL_EMAIL" ;;
  if unset email
  then traise (exception "UNPAYWALL_EMAIL is not set. Please set this to use Unpaywall.")
  else
    let api_url := ("https://api.unpaywall.org/v2/" ++ doi ++ "?email="
                      ++ env_value email)%string in
    r <- ttry (get api_url None None false)
              (fun e => traise (exception ("Error connecting to Unpaywall API: " ++ str e))) ;;
    if negb (r_status r =? 200)%Z
    then traise (exception ("Unpaywall API request failed (status code "
                              ++ str_int (r_status r) ++ ")"))
    else
      data <- t_of_outcome (r_json r) ;;
      location <- get_item data "best_oa_location" VNone ;;
      pdf_url <- (if truthy location
                  then get_item location "url_for_pdf" VNone
                  else tret VNone) ;;
      if negb (truthy pdf_url)
      then traise (exception ("No open-access PDF found for DOI: " ++ doi))
      else download_from pdf_url output_path.

(** The loop over [links]: the URL of the first link whose content type
    starts with "application/pdf", [None] if there is none. *)
Fixpoint first_pdf_link (links : list Val) : T Val :=
  match links with
  | [] => tret VNone
  | link :: rest =>
      content_type <- get_item link "content-type" (VStr EmptyString) ;;
      match content_type with
      | VStr ct =>
          if startswith ct "application/pdf"
          then get_item link "URL" VNone
          else first_pdf_link rest
      | v => traise (attribute_error v "startswith")
      end
  end.

Definition one_char_strings (s : string) : list Val :=
  map (fun c => VStr (String c EmptyString)) (list_ascii_of_string s).

(** [for link in links]: what iterating over the value gives. *)
Definition iterate (links : Val) : T (list Val) :=
  match links with
  | VList l => tret l
  | VDict d => tret (map (fun item => VStr (fst item)) d)
  | VStr s => tret (one_char_strings s)
  | v => traise (Exception_ "TypeError"
                   ("'" ++ type_name v ++ "' object is not iterable"))
  end.

Definition download_via_crossref_tdm (doi output_path : string) : T string :=
  let api_url := ("https://api.crossref.org/works/" ++ doi)%string in
  r <- ttry (get api_url None None false)
            (fun e => traise (exception ("Error connecting to CrossRef API: " ++ str e))) ;;
  if negb (r_status r =? 200)%Z
  then traise (exception ("CrossRef API request failed (status "
                            ++ str_int (r_status r) ++ ")"))
  else
    body <- t_of_outcome (r_json r) ;;
    data <- get_item body "message" (VDict []) ;;
    links <- get_item data "link" (VList []) ;;
    items <- iterate links ;;
    pdf_link <- first_pdf_link items ;;
    if negb (truthy pdf_link)
    then traise (exception ("No PDF link found via CrossRef for DOI " ++ doi))
    else download_from pdf_link output_path.

(** ** Notions on the runs of a tool *)

Definition is_get (ev : ToolEvent) : bool :=
  match ev with TGet _ _ _ _ => true | _ => false end.

Definition is_file_op (ev : ToolEvent) : bool :=
  match ev with TOpen _ | TWrite _ _ => true | _ => false end.

Definition nonempty (s : string) : bool := negb (String.eqb s EmptyString).

End Functions.

End Tools.

(** The modelled tool behind a function of [TOOL_FUNCTIONS], if any. *)
Definition modelled {W : Tools.ToolWorld} (f : Tool)
  : option (string -> string -> Tools.T string) :=
  match f with
  | download_via_elsevier => Some Tools.download_via_elsevier
  | download_via_springerpdf => Some Tools.download_via_springerpdf
  | download_via_wiley => Some Tools.download_via_wiley
  | download_via_plos => Some Tools.download_via_plos
  | download_via_unpaywall => Some Tools.download_via_unpaywall
  | download_via_crossref_tdm => Some Tools.download_via_crossref_tdm
  | download_via_arxiv => Some Tools.download_via_arxiv
  | _ => None
  end.

(** ** A scripted world for the tools: environment variables, the
    answers the next requests get, and whether writing fails. *)

Record ToolState : Type := mkToolState {
  env_vars : Dict string;
  answers : list (Outcome Tools.HttpResponse);
  disk_full : bool
}.

Definition scripted_http (w : ToolState)
  : Outcome Tools.HttpResponse * ToolState :=
  match answers w with
  | [] => (Raise (Exception_ "ConnectionError" "network is unreachable"), w)
  | r :: rest => (r, mkToolState (env_vars w) rest (disk_full w))
  end.

Definition scripted_write (w : ToolState) : Outcome unit * ToolState :=
  if disk_full w
  then (Raise (Exception_ "OSError" "[Errno 28] No space left on device"), w)
  else (Ok tt, w).

Definition scripted_tools : Tools.ToolWorld := {|
  Tools.TW := ToolState;
  Tools.getenv := fun name w => dict_get (env_vars w) name;
  Tools.http_get := fun _ _ _ _ w => scripted_http w;
  Tools.open_wb := fun _ w => (Ok tt, w);
  Tools.write_bytes := fun _ _ w => scripted_write w;
  Tools.invalid_url := fun _ => Exception_ "MissingSchema" "No scheme supplied";
  Tools.str_val := type_name
|}.

(** An answer with a status, a body in two chunks and a JSON value. *)
Definition page (status : Z) (json : Val) : Outcome Tools.HttpResponse :=
  Ok (Tools.mkHttpResponse status "PDFDATA" ["PDF"; EmptyString; "DATA"] None
        (Ok json)).

(** ** Notions on the JSON the tools read *)

(** A link object of a CrossRef record whose content type starts with
    "application/pdf". *)
Definition is_pdf_link (link : Dict Val) : bool :=
  match dict_get link "content-type" with
  | Some (VStr ct) => startswith ct "application/pdf"
  | _ => false
  end.

(** A link object whose content type, if present, is a string. *)
Definition typed_link (link : Dict Val) : bool :=
  match dict_get link "content-type" with
  | Some (VStr _) | None => true
  | Some _ => false
  end.

(** [d.get(key)] *)
Definition item_or_none (d : Dict Val) (key : string) : Val :=
  match dict_get d key with
  | Some v => v
  | None => VNone
  end.

(** The URL the Unpaywall tool takes from a record: the value at
    best_oa_location.url_for_pdf, [None] when the location is missing
    or false. *)
Definition oa_pdf_url (record : Dict Val) : Val :=
  match item_or_none record "best_oa_location" with
  | VDict location =>
      match location with
      | [] => VNone
      | _ => item_or_none location "url_for_pdf"
      end
  | _ => VNone
  end.

(** The URL the CrossRef tool takes from the link objects of a record:
    the value at URL of the first link whose content type starts with
    "application/pdf", [None] when there is no such link. *)
Definition tdm_pdf_url (links : list (Dict Val)) : Val :=
  match find is_pdf_link links with
  | Some link => item_or_none link "URL"
  | None => VNone
  end.

(** * The key file and the command line

    [__init__._load_api_keys], [configure.main] and [cli.main]. *)

(** ** Python string methods used on the lines of the key file *)

Module PyStr.

(** [c.isspace()] on a code point below 256: the characters that
    [str.strip()] removes. *)
Definition isspace (c : ascii) : bool :=
  let n := N_of_ascii c in
  ((9 <=? n) && (n <=? 13) || (28 <=? n) && (n <=? 32)
   || (n =? 133) || (n =? 160))%N.

(** [s.lstrip()] *)
Fixpoint lstrip (s : string) : string :=
  match s with
  | EmptyString => EmptyString
  | String c r => if isspace c then lstrip r else s
  end.

(** [s.rstrip()] *)
Fixpoint rstrip (s : string) : string :=
  match s with
  | EmptyString => EmptyString
  | String c r =>
      match rstrip r with
      | EmptyString => if isspace c then EmptyString else String c EmptyString
      | r' => String c r'
      end
  end.

(** [s.strip()] *)
Definition strip (s : string) : string := rstrip (lstrip s).

(** [s.split(sep, 1)]: the part before the first [sep] and, when [sep]
    occurs, the part after it. *)
Fixpoint split1 (sep : ascii) (s : string) : string * option string :=
  match s with
  | EmptyString => (EmptyString, None)
  | String c r =>
      if Ascii.eqb c sep then (EmptyString, Some r)
      else match split1 sep r with
           | (a, b) => (String c a, b)
           end
  end.

(** [a, b = parts] for what [split(sep, 1)] gave. *)
Definition unpack (parts : string * option string) : Outcome (string * string) :=
  match parts with
  | (a, Some b) => Ok (a, b)
  | (_, None) =>
      Raise (Exception_ "ValueError"
               "not enough values to unpack (expected 2, got 1)")
  end.

(** [if s:] *)
Definition nonempty (s : string) : bool := negb (String.eqb s EmptyString).

(** [k in d] *)
Definition dict_mem {V : Type} (d : Dict V) (k : string) : bool :=
  match dict_get d k with
  | Some _ => true
  | None => false
  end.

(** [not line or line.startswith('#') or '=' not in line], on the
    stripped line. *)
Definition skipped (line : string) : bool :=
  (negb (nonempty line) || startswith line "#"
   || negb (contains_char "=" line))%bool.

End PyStr.

Import PyStr.

(** ** [_load_api_keys] *)

Module Keys.

(** What reading [~/.fulltext_keys] gives: no file, an exception of
    [open], or the lines the file yields, possibly followed by an
    exception of reading on. *)
Inductive Reading : Type :=
| Missing
| Unreadable (e : Exc)
| Lines (lines : list string) (broken : option Exc).

Definition NUL : ascii := Ascii.zero.

(** [os.environ[key] = value] on POSIX; the state is [os.environ]. *)
Definition environ_set (key value : string) : M (Dict string) unit :=
  fun environ =>
    if (contains_char NUL key || contains_char NUL value)%bool
    then (Raise (Exception_ "ValueError" "embedded null byte"), environ, [])
    else if (negb (nonempty key) || contains_char "=" key)%bool
    then (Raise (Exception_ "ValueError" "illegal environment variable name"),
          environ, [])
    else (Ok tt, dict_set environ key value, []).

(** [key not in os.environ] *)
Definition environ_lacks (key : string) : M (Dict string) bool :=
  fun environ => (Ok (negb (dict_mem environ key)), environ, []).

(** The body of the loop over the lines. *)
Definition load_line (line : string) : M (Dict string) unit :=
  let line := strip line in
  if skipped line then ret tt
  else
    kv <- of_outcome (unpack (split1 "=" line)) ;;
    let key := strip (fst kv) in
    let value := strip (snd kv) in
    if (nonempty key && nonempty value)%bool
    then
      free <- environ_lacks key ;;
      if free then environ_set key value else ret tt
    else ret tt.

Fixpoint load_lines (lines : list string) : M (Dict string) unit :=
  match lines with
  | [] => ret tt
  | line :: rest => load_line line ;; load_lines rest
  end.

Definition load_warning (e : Exc) : Event :=
  EvRootLog WARNING ("Could not load API keys from config file: " ++ str e).

Definition _load_api_keys (config : Reading) : M (Dict string) unit :=
  try_except
    (match config with
     | Missing => ret tt
     | Unreadable e => raise e
     | Lines lines broken =>
         load_lines lines ;;
         match broken with
         | Some e => raise e
         | None => ret tt
         end
     end)
    (fun e => emit (load_warning e)).

(** *** Notions on the lines of the file *)

(** What a line defines for the loader: a name and a value, both not
    empty, on a line that is no comment. *)
Definition setting (line : string) : option (string * string) :=
  let line := strip line in
  if skipped line then None
  else
    match split1 "=" line with
    | (k, Some v) =>
        if (nonempty (strip k) && nonempty (strip v))%bool
        then Some (strip k, strip v) else None
    | (_, None) => None
    end.

Fixpoint settings (lines : list string) : list (string * string) :=
  match lines with
  | [] => []
  | line :: rest =>
      match setting line with
      | Some kv => kv :: settings rest
      | None => settings rest
      end
  end.

(** A setting [os.environ] accepts. *)
Definition accepted (kv : string * string) : bool :=
  negb (contains_char NUL (fst kv) || contains_char NUL (snd kv)).

End Keys.

(** ** [configure.main] *)

Module Configure.

(** What the program does that can be seen from outside. *)
Inductive CEvent : Type :=
| CPrint (line : string)
| CInput (prompt : string)       (* input(prompt)            *)
| COpen                          (* open(config_path, 'w')   *)
| CWrite (data : string).        (* f.write(data)            *)

(** The terminal and the file system. *)
Class Terminal : Type := {
  TS : Type;
  (** [os.path.expanduser("~/.fulltext_keys")] *)
  config_path : string;
  input : string -> TS -> Outcome string * TS;
  open_w : TS -> Outcome unit * TS;
  write : string -> TS -> Outcome unit * TS
}.

Section Program.

Context {U : Terminal}.

Definition C (A : Type) : Type := TS -> Outcome A * TS * list CEvent.

Definition cret {A : Type} (a : A) : C A := fun w => (Ok a, w, []).

Definition cbind {A B : Type} (c : C A) (k : A -> C B) : C B :=
  fun w =>
    match c w with
    | (Ok a, w1, ev1) =>
        match k a w1 with (r, w2, ev2) => (r, w2, ev1 ++ ev2) end
    | (Raise e, w1, ev1) => (Raise e, w1, ev1)
    end.

(** [try: c  except Exception as e: h e] *)
Definition ctry {A : Type} (c : C A) (h : Exc -> C A) : C A :=
  fun w =>
    match c w with
    | (Ok a, w1, ev1) => (Ok a, w1, ev1)
    | (Raise e, w1, ev1) =>
        match h e w1 with (r, w2, ev2) => (r, w2, ev1 ++ ev2) end
    end.

Definition ccall {A : Type} (f : TS -> Outcome A * TS) (ev : CEvent) : C A :=
  fun w => match f w with (r, w1) => (r, w1, [ev]) end.

Definition print (line : string) : C unit := fun w => (Ok tt, w, [CPrint line]).

Declare Scope configure_scope.
Notation "x <- c ;; k" := (cbind c (fun x => k))
  (at level 100, c at next level, right associativity) : configure_scope.
Notation "c ;; k" := (cbind c (fun _ => k))
  (at level 100, right associativity) : configure_scope.
Local Open Scope configure_scope.

(** The loop that reads the existing file into [existing]. *)
Fixpoint read_existing (lines : list string) (existing : Dict string)
  : Outcome unit * Dict string :=
  match lines with
  | [] => (Ok tt, existing)
  | line :: rest =>
      let line := strip line in
      if skipped line then read_existing rest existing
      else
        match unpack (split1 "=" line) with
        | Ok (key, val) =>
            read_existing rest (dict_set existing (strip key) (strip val))
        | Raise e => (Raise e, existing)
        end
  end.

Definition read_warning (e : Exc) : CEvent :=
  CPrint ("Warning: unable to read existing config file: " ++ str e).

(** Lines 7-19: [existing], and what is printed on the way. *)
Definition load_existing (config : Keys.Reading) : Dict string * list CEvent :=
  match config with
  | Keys.Missing => ([], [])
  | Keys.Unreadable e => ([], [read_warning e])
  | Keys.Lines lines broken =>
      match read_existing lines [] with
      | (Raise e, existing) => (existing, [read_warning e])
      | (Ok _, existing) =>
          match broken with
          | Some e => (existing, [read_warning e])
          | None => (existing, [])
          end
      end
  end.

Definition key_prompts : list (string * string) :=
  [ ("ELSEVIER_API_KEY", "Elsevier API Key");
    ("SPRINGER_API_KEY", "Springer API Key");
    ("WILEY_API_KEY", "Wiley API Key");
    ("UNPAYWALL_EMAIL", "Unpaywall contact email") ].

(** [key in existing and existing[key]] *)
Definition has_value (existing : Dict string) (key : string) : bool :=
  match dict_get existing key with
  | Some v => nonempty v
  | None => false
  end.

(** [existing[key]] where the key is present. *)
Definition value_of (existing : Dict string) (key : string) : string :=
  match dict_get existing key with
  | Some v => v
  | None => EmptyString
  end.

(** Lines 30-40: the loop over [key_prompts]. *)
Fixpoint ask (prompts : list (string * string)) (existing keys : Dict string)
  : C (Dict string) :=
  match prompts with
  | [] => cret keys
  | (key, description) :: rest =>
      if has_value existing key
      then
        let prompt := (description ++ " (leave blank to keep current): ")%string in
        user_input <- ccall (input prompt) (CInput prompt) ;;
        if String.eqb (strip user_input) EmptyString
        then ask rest existing (dict_set keys key (value_of existing key))
        else ask rest existing (dict_set keys key (strip user_input))
      else
        let prompt := (description ++ ": ")%string in
        user_input <- ccall (input prompt) (CInput prompt) ;;
        if negb (String.eqb (strip user_input) EmptyString)
        then ask rest existing (dict_set keys key (strip user_input))
        else ask rest existing keys
  end.

(** [f"{k}={v}\n"] *)
Definition key_line (item : string * string) : string :=
  fst item ++ "=" ++ snd item ++ String (ascii_of_nat 10) EmptyString.

(** The loop over [keys.items()]. *)
Fixpoint write_keys (items : list (string * string)) : C unit :=
  match items with
  | [] => cret tt
  | item :: rest =>
      ccall (write (key_line item)) (CWrite (key_line item)) ;;
      write_keys rest
  end.

Definition main (config : Keys.Reading) : C unit :=
  let (existing, warned) := load_existing config in
  (fun w => (Ok tt, w, warned)) ;;
  print "Configuring API keys for fulltext-article-downloader." ;;
  print "Press Enter without typing to keep an existing value or skip setting a new one." ;;
  keys <- ask key_prompts existing [] ;;
  ctry (ccall open_w COpen ;;
        write_keys keys ;;
        print ("Configuration saved to " ++ config_path))
       (fun e =>
          print ("Error: Could not write configuration file: " ++ str e)).

(** *** Notions on the runs of the program *)

(** The strings handed to [f.write], in order. *)
Fixpoint written (evs : list CEvent) : list string :=
  match evs with
  | [] => []
  | CWrite data :: rest => data :: written rest
  | _ :: rest => written rest
  end.

Definition saved (evs : list CEvent) : bool :=
  existsb (fun ev =>
             match ev with
             | CPrint line => String.eqb line ("Configuration saved to " ++ config_path)
             | _ => false
             end) evs.

End Program.

End Configure.

(** ** [cli.main] *)

Module Cli.

(** What the command does that can be seen from outside: the events of
    the downloader, among them its calls of [print] and of the loggers,
    and the calls [print(line, file=sys.stderr)] of [main].  Where the
    records of the loggers are written is the logging configuration's
    business: line 6 of [downloader.py] sends those of level WARNING
    and above to the standard output too. *)
Inductive CliEvent : Type :=
| Run (ev : Event)
| Stderr (line : string).

Section Command.

Context {X : Externals}.

(** [main] once the arguments are parsed; the result is the code of
    [sys.exit]. *)
Definition main (doi out_dir : string) (filename : option string)
  : Env -> Z * Env * list CliEvent :=
  fun s =>
    match download_article doi out_dir filename None None s with
    | (Ok output_path, s1, evs) =>
        (0%Z, s1,
         map Run evs
           ++ [Run (EvPrint ("Successfully downloaded " ++ doi ++ " to "
                               ++ output_path))])
    | (Raise e, s1, evs) =>
        (1%Z, s1,
         map Run evs
           ++ [Stderr ("Error downloading " ++ doi ++ ": " ++ str e)])
    end.

(** A call [print(line, file=sys.stderr)]. *)
Definition is_stderr (ev : CliEvent) : bool :=
  match ev with Stderr _ => true | _ => false end.

(** A call [print(line)], which writes to the standard output; a record
    of a logger is none. *)
Definition is_print_call (ev : CliEvent) : bool :=
  match ev with Run (EvPrint _) => true | _ => false end.

End Command.

End Cli.

(** ** A scripted terminal: the lines typed at the prompts; the file can
    be written. *)

Definition scripted_input (prompt : string) (typed : list string)
  : Outcome string * list string :=
  match typed with
  | [] => (Raise (Exception_ "EOFError" "EOF when reading a line"), [])
  | line :: rest => (Ok line, rest)
  end.

Definition scripted_terminal : Configure.Terminal := {|
  Configure.TS := list string;
  Configure.config_path := "/home/user/.fulltext_keys";
  Configure.input := scripted_input;
  Configure.open_w := fun typed => (Ok tt, typed);
  Configure.write := fun _ typed => (Ok tt, typed)
|}.

(** ** Which logger calls make a record

    An [EvLog] is a call of the module logger.  The call makes a record
    only if its level is enabled: the module logger has no level of its
    own until [download_article] sets INFO for a log file (line 135),
    and until then it takes the level of the root logger, which
    [logging.basicConfig(stream=sys.stdout, level=logging.WARNING)]
    (line 6) and the library's default both leave at WARNING. *)

Section Records.

Context {X : Externals}.

(** [logging.INFO], [logging.WARNING], [logging.ERROR] *)
Definition severity (lvl : Level) : Z :=
  match lvl with
  | INFO => 20
  | WARNING => 30
  | ERROR => 40
  end.

(** [logger.getEffectiveLevel()] *)
Definition getEffectiveLevel (s : Env) : Level :=
  match level s with
  | Some lvl => lvl
  | None => WARNING
  end.

(** [logger.isEnabledFor(lvl)] *)
Definition isEnabledFor (lvl : Level) (s : Env) : bool :=
  (severity (getEffectiveLevel s) <=? severity lvl)%Z.

(** A call of the module logger that makes a record while the logger is
    as in [s]. *)
Definition recorded (s : Env) (ev : Event) : bool :=
  match ev with
  | EvLog lvl _ => isEnabledFor lvl s
  | _ => false
  end.

(** An attempt-started entry that is recorded. *)
Definition is_attempt_record (s : Env) (ev : Event) : bool :=
  (is_attempt_entry ev && recorded s ev)%bool.

(** The invocation that attempting [tool] makes, with the path as the
    loop builds it (lines 153-165). *)
Definition invocation (doi output_dir : string)
    (output_filename : option string) (tool : string) : list Event :=
  match dict_get TOOL_FUNCTIONS tool with
  | Some f =>
      [EvCall f doi
         (path_join output_dir (out_name output_filename (sanitize doi) tool))]
  | None => []
  end.

End Records.

(** * Properties *)

Section Properties.

Context {X : Externals}.

(** ** Running computations *)

Lemma bind_ok {A B : Type} (c : M Env A) (k : A -> M Env B) s a s1 ev1 r s2 ev2 :
  c s = (Ok a, s1, ev1) -> k a s1 = (r, s2, ev2) ->
  bind c k s = (r, s2, ev1 ++ ev2).
Proof. intros Hc Hk. unfold bind. rewrite Hc, Hk. reflexivity. Qed.

Lemma bind_raise {A B : Type} (c : M Env A) (k : A -> M Env B) s e s1 ev1 :
  c s = (Raise e, s1, ev1) -> bind c k s = (Raise e, s1, ev1).
Proof. intros Hc. unfold bind. rewrite Hc. reflexivity. Qed.

Lemma try_ok {A : Type} (c : M Env A) (h : Exc -> M Env A) s a s1 ev1 :
  c s = (Ok a, s1, ev1) -> try_except c h s = (Ok a, s1, ev1).
Proof. intros Hc. unfold try_except. rewrite Hc. reflexivity. Qed.

Lemma try_raise {A : Type} (c : M Env A) (h : Exc -> M Env A)
    s e s1 ev1 r s2 ev2 :
  c s = (Raise e, s1, ev1) -> h e s1 = (r, s2, ev2) ->
  try_except c h s = (r, s2, ev1 ++ ev2).
Proof. intros Hc Hh. unfold try_except. rewrite Hc, Hh. reflexivity. Qed.

(** ** Strings *)

Lemma string_app_assoc (a b c : string) : ((a ++ b) ++ c = a ++ (b ++ c))%string.
Proof. induction a as [|x a IH]; cbn; [reflexivity | rewrite IH; reflexivity]. Qed.

Lemma string_app_nil_r (a : string) : (a ++ EmptyString = a)%string.
Proof. induction a as [|x a IH]; cbn; [reflexivity | rewrite IH; reflexivity]. Qed.

Lemma string_length_app (a b : string) :
  String.length (a ++ b) = (String.length a + String.length b)%nat.
Proof. induction a as [|x a IH]; cbn; [reflexivity | rewrite IH; reflexivity]. Qed.

Lemma prefix_app (p s : string) : String.prefix p (p ++ s) = true.
Proof.
  induction p as [|c p IH]; simpl.
  - destruct s; reflexivity.
  - destruct (ascii_dec c c); [exact IH | congruence].
Qed.

Lemma str_in_prefix (sub s : string) :
  String.prefix sub s = true -> str_in sub s = true.
Proof. intros H. destruct s; simpl in *; rewrite H; reflexivity. Qed.

Lemma str_in_app (a sub b : string) : str_in sub (a ++ sub ++ b) = true.
Proof.
  induction a as [|c a IH]; simpl.
  - apply str_in_prefix, prefix_app.
  - rewrite IH. apply orb_true_r.
Qed.

Lemma attempt_entry_true (doi tool : string) :
  is_attempt_entry (EvLog INFO (attempt_msg doi tool)) = true.
Proof. exact (prefix_app "Attempting DOI " _). Qed.

(** ** One attempt *)

(** What an attempt leaves in the event list, whatever its outcome: one
    attempt-started entry, the invocation if the name is known, and no
    request to a registry. *)
Lemma attempt_events (doi tool path : string) s o s1 ev :
  attempt doi tool path s = (o, s1, ev) ->
  filter is_attempt_entry ev = [attempt_entry doi tool]
  /\ filter is_call ev =
       match dict_get TOOL_FUNCTIONS tool with
       | Some f => [EvCall f doi path]
       | None => []
       end
  /\ filter is_http ev = [].
Proof.
  unfold attempt, lookup_tool, log, emit, call, bind, ret, raise.
  destruct (dict_get TOOL_FUNCTIONS tool) as [f|].
  - destruct (run_tool f doi path (world s)) as [[p|e] w];
      intros H; inversion H; subst; clear H;
      cbn [app filter is_call is_http];
      rewrite ?attempt_entry_true; repeat split; reflexivity.
  - intros H; inversion H; subst; clear H.
    cbn [app filter is_call is_http].
    rewrite ?attempt_entry_true. repeat split; reflexivity.
Qed.

(** ** The loop over the tools *)

Lemma try_tools_success_step (doi dir : string) (fn : option string)
    tool rest last s p s1 ev :
  attempt doi tool (candidate_path doi dir fn tool) s = (Ok p, s1, ev) ->
  try_tools doi dir fn (sanitize doi) (tool :: rest) last s
    = (Ok (inl p), s1, ev).
Proof.
  intros H. unfold candidate_path in H.
  cbn [try_tools]. unfold bind at 1, try_except, bind at 1.
  rewrite H. cbn. rewrite !app_nil_r. reflexivity.
Qed.

Lemma try_tools_failure_step (doi dir : string) (fn : option string)
    tool rest last s e s1 ev r s2 ev2 :
  attempt doi tool (candidate_path doi dir fn tool) s = (Raise e, s1, ev) ->
  try_tools doi dir fn (sanitize doi) rest (Some e) s1 = (r, s2, ev2) ->
  try_tools doi dir fn (sanitize doi) (tool :: rest) last s
    = (r, s2, ev ++ EvLog WARNING (failure_msg doi tool e) :: ev2).
Proof.
  intros H Hrest. unfold candidate_path in H.
  cbn [try_tools]. unfold bind at 1, try_except, bind at 1.
  rewrite H. cbn. rewrite Hrest.
  rewrite <- app_assoc. reflexivity.
Qed.

(** The loop never raises: it returns a path or the last exception. *)
Lemma try_tools_total (doi dir : string) (fn : option string) base l :
  forall last s, exists r s1 ev,
    try_tools doi dir fn base l last s = (Ok r, s1, ev).
Proof.
  induction l as [|tool rest IH]; intros last s.
  - exists (inr last), s, []. reflexivity.
  - cbn [try_tools]. unfold bind at 1, try_except, bind at 1.
    destruct (attempt doi tool _ s) as [[[p|e] s1] ev].
    + cbn. eexists _, _, _. reflexivity.
    + cbn. destruct (IH (Some e) s1) as (r & s2 & ev2 & E).
      rewrite E. eexists _, _, _. reflexivity.
Qed.

(** A prefix of failing tools is run through, and the loop goes on with
    the rest from the state and the exception the prefix leaves. *)
Lemma try_tools_all_fail (doi dir : string) (fn : option string)
    pre s last s1 last1 :
  all_fail doi dir fn pre s last s1 last1 ->
  exists evs,
    (forall rest r s2 ev2,
        try_tools doi dir fn (sanitize doi) rest last1 s1 = (r, s2, ev2) ->
        try_tools doi dir fn (sanitize doi) (pre ++ rest) last s
          = (r, s2, evs ++ ev2))
    /\ filter is_attempt_entry evs = map (attempt_entry doi) pre
    /\ filter is_call evs = flat_map (call_of doi dir fn) pre
    /\ filter is_http evs = [].
Proof.
  induction 1 as [s last | tool rest s last e s1 ev s2 last2 Hat Hall IH].
  - exists []. repeat split; try reflexivity.
    intros rest r s2 ev2 H. exact H.
  - destruct IH as (evs & Hrun & Hatt & Hcall & Hhttp).
    destruct (attempt_events _ _ _ _ _ _ _ Hat) as (A1 & A2 & A3).
    exists (ev ++ EvLog WARNING (failure_msg doi tool e) :: evs).
    repeat split.
    + intros rest' r s3 ev3 H.
      cbn [app]. rewrite <- app_assoc. cbn [app].
      eapply try_tools_failure_step; [exact Hat|].
      apply Hrun. exact H.
    + rewrite filter_app. cbn [filter is_attempt_entry map].
      rewrite A1, Hatt. reflexivity.
    + rewrite filter_app. cbn [filter is_call flat_map].
      rewrite A2, Hcall. unfold call_of at 2, candidate_path.
      destruct (dict_get TOOL_FUNCTIONS tool); reflexivity.
    + rewrite filter_app. cbn [filter is_http]. rewrite A3, Hhttp. reflexivity.
Qed.

(** ** What a computation can emit *)

Lemma emits_ret {A : Type} (P : Event -> bool) (a : A) : emits P (ret a).
Proof. intros s. reflexivity. Qed.

Lemma emits_raise {A : Type} (P : Event -> bool) (e : Exc) :
  emits P (@raise Env A e).
Proof. intros s. reflexivity. Qed.

Lemma emits_of_outcome {A : Type} (P : Event -> bool) (o : Outcome A) :
  emits P (@of_outcome Env A o).
Proof. intros s. reflexivity. Qed.

Lemma emits_emit (P : Event -> bool) (ev : Event) :
  P ev = true -> emits P (@emit Env ev).
Proof. intros H s. cbn. rewrite H. reflexivity. Qed.

Lemma emits_call {A : Type} (P : Event -> bool)
    (f : World -> Outcome A * World) (ev : Event) :
  P ev = true -> emits P (call f ev).
Proof.
  intros H s. unfold call. destruct (f (world s)) as [r w].
  cbn. rewrite H. reflexivity.
Qed.

Lemma emits_bind {A B : Type} (P : Event -> bool)
    (c : M Env A) (k : A -> M Env B) :
  emits P c -> (forall a, emits P (k a)) -> emits P (bind c k).
Proof.
  intros Hc Hk s. unfold bind. specialize (Hc s).
  destruct (c s) as [[[a|e] s1] ev1]; cbn in *.
  - specialize (Hk a s1). destruct (k a s1) as [[r s2] ev2]. cbn in *.
    rewrite forallb_app, Hc, Hk. reflexivity.
  - exact Hc.
Qed.

Lemma emits_try {A : Type} (P : Event -> bool)
    (c : M Env A) (h : Exc -> M Env A) :
  emits P c -> (forall e, emits P (h e)) -> emits P (try_except c h).
Proof.
  intros Hc Hh s. unfold try_except. specialize (Hc s).
  destruct (c s) as [[[a|e] s1] ev1]; cbn in *.
  - exact Hc.
  - specialize (Hh e s1). destruct (h e s1) as [[r s2] ev2]. cbn in *.
    rewrite forallb_app, Hc, Hh. reflexivity.
Qed.

Lemma emits_weaken {A : Type} (P Q : Event -> bool) (c : M Env A) :
  (forall ev, P ev = true -> Q ev = true) -> emits P c -> emits Q c.
Proof.
  intros HPQ Hc s. specialize (Hc s).
  rewrite forallb_forall in *. auto.
Qed.

Lemma forallb_filter_nil (P Q : Event -> bool) (l : list Event) :
  (forall ev, P ev = true -> Q ev = false) ->
  forallb P l = true -> filter Q l = [].
Proof.
  intros HPQ. induction l as [|ev l IH]; cbn; [reflexivity|].
  intros H. apply andb_true_iff in H as [H1 H2].
  rewrite (HPQ ev H1). auto.
Qed.

Ltac emits_step :=
  first
    [ apply emits_ret
    | apply emits_raise
    | apply emits_of_outcome
    | apply emits_emit; reflexivity
    | apply emits_call; reflexivity
    | apply emits_bind; [|intros ?]
    | apply emits_try; [|intros ?]
    | match goal with
      | |- emits _ (if ?b then _ else _) => destruct b
      | |- emits _ (match ?x with _ => _ end) => destruct x
      end ].

(** ** The classifier *)

Lemma get_publisher_emits (doi : string) :
  emits is_setup (get_publisher_from_doi doi).
Proof.
  unfold get_publisher_from_doi, val_get, raise_for_status.
  destruct (dict_get PREPRINT_SERVER_PREFIXES (split_head "/" doi)).
  - apply emits_ret.
  - repeat emits_step.
Qed.

(** The classifier never raises. *)
Lemma get_publisher_total (doi : string) s :
  exists v s1 ev, get_publisher_from_doi doi s = (Ok v, s1, ev).
Proof.
  unfold get_publisher_from_doi.
  destruct (dict_get PREPRINT_SERVER_PREFIXES (split_head "/" doi)).
  - eexists _, _, _. reflexivity.
  - unfold try_except.
    match goal with |- context [match ?c s with _ => _ end] =>
      destruct (c s) as [[[v|e] s1] ev] end.
    + eexists _, _, _. reflexivity.
    + cbn. eexists _, _, _. reflexivity.
Qed.

Lemma configure_logging_emits (log_file : option string) :
  emits is_fs (configure_logging log_file).
Proof.
  unfold configure_logging. destruct log_file as [lf|]; [|apply emits_ret].
  destruct (String.eqb lf EmptyString); [apply emits_ret|].
  apply emits_bind; [|intros _; intros s; reflexivity].
  intros s. destruct (existsb _ (handlers s)); [reflexivity|].
  revert s. apply emits_bind; [emits_step | intros _ s; reflexivity].
Qed.

Lemma is_fs_setup ev : is_fs ev = true -> is_setup ev = true.
Proof. destruct ev; cbn; congruence. Qed.

Lemma is_fs_no_http ev : is_fs ev = true -> no_http ev = true.
Proof. destruct ev; cbn; congruence. Qed.

Lemma setup_emits dir lf : emits is_fs (setup dir lf).
Proof.
  unfold setup.
  apply emits_bind; [apply configure_logging_emits | intros _].
  emits_step.
Qed.

Lemma prepare_emits doi dir tools lf :
  emits is_setup (prepare doi dir tools lf).
Proof.
  unfold prepare, select_methods.
  apply emits_bind;
    [eapply emits_weaken; [apply is_fs_setup | apply setup_emits]
    | intros _].
  destruct tools as [l|]; [apply emits_ret|].
  apply emits_bind; [apply get_publisher_emits | intros v].
  repeat emits_step.
Qed.

(** With an explicit list the preparation touches the file system only. *)
Lemma prepare_explicit_emits doi dir l lf :
  emits is_fs (prepare doi dir (Some l) lf).
Proof.
  unfold prepare, select_methods.
  apply emits_bind; [apply setup_emits | intros _].
  apply emits_ret.
Qed.

(** The preparation starts no attempt and invokes no tool. *)
Lemma prepare_no_attempt doi dir tools lf s o s0 ev0 :
  prepare doi dir tools lf s = (o, s0, ev0) ->
  filter is_attempt_entry ev0 = [] /\ filter is_call ev0 = [].
Proof.
  intros H. pose proof (prepare_emits doi dir tools lf s) as E.
  rewrite H in E. cbn in E.
  split; (eapply forallb_filter_nil; [|exact E]);
    intros [] Hs; cbn in *; congruence.
Qed.

Lemma emits_bind_ret {A B : Type} (P : Event -> bool) (a : A)
    (k : A -> M Env B) :
  emits P (k a) -> emits P (bind (ret a) k).
Proof.
  intros H s. specialize (H s). unfold bind, ret.
  destruct (k a s) as [[r s2] ev2]. exact H.
Qed.

Lemma emits_bind_raise {A B : Type} (P : Event -> bool) (e : Exc)
    (k : A -> M Env B) :
  emits P (bind (raise e) k).
Proof. intros s. reflexivity. Qed.

Lemma try_tools_emits (P : Event -> bool) doi dir fn base l :
  (forall lvl msg, P (EvLog lvl msg) = true) ->
  (forall tool f,
      In tool l -> dict_get TOOL_FUNCTIONS tool = Some f ->
      P (EvCall f doi (path_join dir (out_name fn base tool))) = true) ->
  forall last, emits P (try_tools doi dir fn base l last).
Proof.
  intros Hlog. induction l as [|tool rest IH]; intros Hcall last.
  - apply emits_ret.
  - cbn [try_tools].
    apply emits_bind.
    + apply emits_try.
      * apply emits_bind; [|intros ?; apply emits_ret].
        unfold attempt, lookup_tool, log.
        apply emits_bind; [apply emits_emit, Hlog | intros _].
        destruct (dict_get TOOL_FUNCTIONS tool) as [f|] eqn:E.
        -- apply emits_bind_ret.
           apply emits_bind;
             [apply emits_call, Hcall; [left; reflexivity | exact E]
             | intros p].
           apply emits_bind; [apply emits_emit, Hlog | intros _].
           apply emits_ret.
        -- apply emits_bind_raise.
      * intros e. apply emits_bind; [apply emits_emit, Hlog | intros _].
        apply emits_ret.
    + intros [p|e]; [apply emits_ret|].
      apply IH. intros t f Hin. apply Hcall. right. exact Hin.
Qed.

Lemma conclude_emits (P : Event -> bool) doi r :
  (forall lvl msg, P (EvLog lvl msg) = true) -> emits P (conclude doi r).
Proof.
  intros Hlog. destruct r as [p|last]; cbn [conclude]; [apply emits_ret|].
  apply emits_bind; [apply emits_emit, Hlog | intros _; apply emits_raise].
Qed.

(** ** The function from the loop on *)

Lemma download_article_resume doi dir fn tools lf s l s0 ev0 o s1 ev :
  prepare doi dir tools lf s = (Ok l, s0, ev0) ->
  resume doi dir fn l None s0 = (o, s1, ev) ->
  download_article doi dir fn tools lf s = (o, s1, ev0 ++ ev).
Proof.
  intros Hp Hr. unfold download_article. fold (resume doi dir fn).
  change (bind (prepare doi dir tools lf)
            (fun method_list => resume doi dir fn method_list None) s
          = (o, s1, ev0 ++ ev)).
  eapply bind_ok; eassumption.
Qed.

Lemma download_article_prepare_raise doi dir fn tools lf s e s0 ev0 :
  prepare doi dir tools lf s = (Raise e, s0, ev0) ->
  download_article doi dir fn tools lf s = (Raise e, s0, ev0).
Proof. intros Hp. unfold download_article. apply bind_raise. exact Hp. Qed.

Lemma resume_nil doi dir fn last s :
  resume doi dir fn [] last s
  = (Raise (Exception_ "Exception" (error_msg doi last)), s,
     [EvLog ERROR (all_failed_msg doi)]).
Proof. reflexivity. Qed.

Lemma resume_success_step doi dir fn tool rest last s p s1 ev :
  attempt doi tool (candidate_path doi dir fn tool) s = (Ok p, s1, ev) ->
  resume doi dir fn (tool :: rest) last s = (Ok p, s1, ev).
Proof.
  intros H. unfold resume.
  rewrite <- (app_nil_r ev).
  eapply bind_ok; [eapply try_tools_success_step; exact H | reflexivity].
Qed.

Lemma resume_failure_step doi dir fn tool rest last s e s1 ev o s2 ev2 :
  attempt doi tool (candidate_path doi dir fn tool) s = (Raise e, s1, ev) ->
  resume doi dir fn rest (Some e) s1 = (o, s2, ev2) ->
  resume doi dir fn (tool :: rest) last s
  = (o, s2, ev ++ EvLog WARNING (failure_msg doi tool e) :: ev2).
Proof.
  intros H Hr. unfold resume in *.
  destruct (try_tools_total doi dir fn (sanitize doi) rest (Some e) s1)
    as (r & s3 & ev3 & E).
  unfold bind in Hr. rewrite E in Hr.
  destruct (conclude doi r s3) as [[o' s4] ev4] eqn:Ec.
  inversion Hr; subst; clear Hr.
  replace (ev ++ EvLog WARNING (failure_msg doi tool e) :: ev3 ++ ev4)
    with ((ev ++ EvLog WARNING (failure_msg doi tool e) :: ev3) ++ ev4)
    by (rewrite <- app_assoc; reflexivity).
  eapply bind_ok; [|exact Ec].
  eapply try_tools_failure_step; eassumption.
Qed.

(** A prefix of failing tools: the function goes on with the rest. *)
Lemma resume_all_fail doi dir fn pre s last s1 last1 :
  all_fail doi dir fn pre s last s1 last1 ->
  exists evs,
    (forall rest o s2 ev2,
        resume doi dir fn rest last1 s1 = (o, s2, ev2) ->
        resume doi dir fn (pre ++ rest) last s = (o, s2, evs ++ ev2))
    /\ filter is_attempt_entry evs = map (attempt_entry doi) pre
    /\ filter is_call evs = flat_map (call_of doi dir fn) pre
    /\ filter is_http evs = [].
Proof.
  intros H. destruct (try_tools_all_fail _ _ _ _ _ _ _ _ H)
    as (evs & Hrun & Hatt & Hcall & Hhttp).
  exists evs. repeat split; try assumption.
  intros rest o s2 ev2 Hr. unfold resume in *.
  destruct (try_tools_total doi dir fn (sanitize doi) rest last1 s1)
    as (r & s3 & ev3 & E).
  unfold bind in Hr. rewrite E in Hr.
  destruct (conclude doi r s3) as [[o' s4] ev4] eqn:Ec.
  inversion Hr; subst; clear Hr.
  rewrite app_assoc.
  eapply bind_ok; [apply Hrun; exact E | exact Ec].
Qed.

(** ** The claims on [download_article] *)

(** The loop leaves the logger as it is. *)
Lemma attempt_keeps_logger doi tool path s o s1 ev :
  attempt doi tool path s = (o, s1, ev) ->
  level s1 = level s /\ handlers s1 = handlers s.
Proof.
  unfold attempt, lookup_tool, log, emit, call, bind, ret, raise.
  destruct (dict_get TOOL_FUNCTIONS tool) as [f|];
    [destruct (run_tool f doi path (world s)) as [[p|e] w]|];
    intros H; inversion H; subst; split; reflexivity.
Qed.

Lemma all_fail_keeps_level doi dir fn l s last s1 last1 :
  all_fail doi dir fn l s last s1 last1 -> level s1 = level s.
Proof.
  induction 1 as [s last | tool rest s last e s1 ev s2 last2 Hat Hall IH];
    [reflexivity|].
  rewrite IH. exact (proj1 (attempt_keeps_logger _ _ _ _ _ _ _ Hat)).
Qed.

(** With INFO enabled every attempt-started call is recorded. *)
Lemma attempt_record_enabled s ev :
  isEnabledFor INFO s = true -> is_attempt_record s ev = is_attempt_entry ev.
Proof.
  intros H. unfold is_attempt_record, recorded.
  destruct ev as [| | | |lvl msg| | |]; try reflexivity.
  destruct lvl; cbn [is_attempt_entry andb]; [|reflexivity|reflexivity].
  rewrite H. apply andb_true_r.
Qed.

Lemma attempt_record_disabled s ev :
  isEnabledFor INFO s = false -> is_attempt_record s ev = false.
Proof.
  intros H. unfold is_attempt_record, recorded.
  destruct ev as [| | | |lvl msg| | |]; try reflexivity.
  destruct lvl; cbn [is_attempt_entry andb]; [|reflexivity|reflexivity].
  rewrite H. apply andb_false_r.
Qed.

(** C2. When every tool of a non-empty list fails, [download_article]
    returns no path: it raises one exception whose message names the
    identifier and ends with the text of the exception of the last tool
    attempted. *)
Theorem all_strategies_exhausted doi dir fn tools lf s pre tool
    s0 ev0 s1 last1 e s2 ev :
  prepare doi dir tools lf s = (Ok (pre ++ [tool]), s0, ev0) ->
  all_fail doi dir fn pre s0 None s1 last1 ->
  attempt doi tool (candidate_path doi dir fn tool) s1 = (Raise e, s2, ev) ->
  exists evs msg,
    download_article doi dir fn tools lf s
      = (Raise (Exception_ "Exception" msg), s2, evs)
    /\ msg = ("All download methods failed for DOI " ++ doi
              ++ ". Last error: " ++ str e)%string
    /\ str_in doi msg = true
    /\ str_in (str e) msg = true
    /\ filter is_attempt_entry evs = map (attempt_entry doi) (pre ++ [tool]).
Proof.
  intros Hp Hall Hat.
  destruct (resume_all_fail _ _ _ _ _ _ _ _ Hall)
    as (evs & Hrun & Hatt & _ & _).
  destruct (prepare_no_attempt _ _ _ _ _ _ _ _ Hp) as (P1 & _).
  destruct (attempt_events _ _ _ _ _ _ _ Hat) as (A1 & _ & _).
  eexists _, _. split; [|split; [reflexivity|]].
  - eapply download_article_resume; [exact Hp|].
    apply Hrun. eapply resume_failure_step; [exact Hat|].
    rewrite resume_nil. unfold error_msg, all_failed_msg.
    rewrite !string_app_assoc. reflexivity.
  - repeat split.
    + apply (str_in_app "All download methods failed for DOI " doi).
    + pose proof (str_in_app
                    ("All download methods failed for DOI " ++ doi
                       ++ ". Last error: ") (str e) EmptyString) as H.
      rewrite string_app_nil_r, !string_app_assoc in H. exact H.
    + rewrite !filter_app, P1, Hatt, A1, map_app. cbn.
      reflexivity.
Qed.

Lemma prepare_explicit doi dir l lf s :
  prepare doi dir (Some l) lf s
  = match setup dir lf s with
    | (Ok _, s0, ev0) => (Ok l, s0, ev0)
    | (Raise e, s0, ev0) => (Raise e, s0, ev0)
    end.
Proof.
  unfold prepare, select_methods, bind.
  destruct (setup dir lf s) as [[[u|e] s0] ev0]; [|reflexivity].
  cbn. rewrite app_nil_r. reflexivity.
Qed.

Lemma prepare_explicit_value doi dir l lf s l' s0 ev0 :
  prepare doi dir (Some l) lf s = (Ok l', s0, ev0) -> l' = l.
Proof.
  rewrite prepare_explicit.
  destruct (setup dir lf s) as [[[u|e] s1] ev1]; intros H; inversion H.
  reflexivity.
Qed.

(** The function ends by a returned path or by the aggregated exception,
    never by an exception of a tool. *)
Lemma resume_outcome doi dir fn l last s o s1 ev :
  resume doi dir fn l last s = (o, s1, ev) ->
  (exists p, o = Ok p)
  \/ (exists last', o = Raise (Exception_ "Exception" (error_msg doi last'))).
Proof.
  unfold resume, bind.
  destruct (try_tools_total doi dir fn (sanitize doi) l last s)
    as (r & s2 & ev2 & E).
  rewrite E. destruct r as [p|last']; cbn; intros H; inversion H; subst.
  - left. eexists. reflexivity.
  - right. eexists. reflexivity.
Qed.

(** C4. With an explicitly supplied empty list, [download_article] fails
    at once with the aggregated exception: beyond the preparation the
    only event is the error entry; no attempt is started, no tool is
    invoked and no registry is asked. *)
Theorem empty_strategy_list doi dir fn lf s l s0 ev0 :
  prepare doi dir (Some []) lf s = (Ok l, s0, ev0) ->
  exists evs,
    download_article doi dir fn (Some []) lf s
      = (Raise (Exception_ "Exception"
                  ("All download methods failed for DOI " ++ doi ++ ".")),
         s0, evs)
    /\ evs = ev0 ++ [EvLog ERROR (all_failed_msg doi)]
    /\ filter is_attempt_entry evs = []
    /\ filter is_call evs = []
    /\ filter is_http evs = [].
Proof.
  intros Hp.
  pose proof (prepare_explicit_value _ _ _ _ _ _ _ _ Hp) as ->.
  destruct (prepare_no_attempt _ _ _ _ _ _ _ _ Hp) as (P1 & P2).
  pose proof (prepare_explicit_emits doi dir [] lf s) as E.
  rewrite Hp in E. cbn in E.
  eexists. split; [|split; [reflexivity|]].
  - eapply download_article_resume; [exact Hp | apply resume_nil].
  - rewrite !filter_app, P1, P2. repeat split.
    rewrite (forallb_filter_nil is_fs is_http ev0); [reflexivity| |exact E].
    intros [] H; cbn in *; congruence.
Qed.

(** C9. A name of an explicit list that is no key of [TOOL_FUNCTIONS]:
    the lookup raises [KeyError] after the attempt-started entry, no tool
    is invoked, and [download_article] goes on as after any failed
    attempt, with the [KeyError] logged as a warning and kept as the last
    error for the tools that follow.  The caller never sees the
    [KeyError] itself. *)
Theorem unknown_tool_is_ordinary_failure doi dir fn lf s pre tool rest
    s0 ev0 s1 last1 :
  dict_get TOOL_FUNCTIONS tool = None ->
  prepare doi dir (Some (pre ++ tool :: rest)) lf s
    = (Ok (pre ++ tool :: rest), s0, ev0) ->
  all_fail doi dir fn pre s0 None s1 last1 ->
  attempt doi tool (candidate_path doi dir fn tool) s1
    = (Raise (KeyError tool), s1, [attempt_entry doi tool])
  /\ exists evs,
      forall o s2 ev2,
        resume doi dir fn rest (Some (KeyError tool)) s1 = (o, s2, ev2) ->
        download_article doi dir fn (Some (pre ++ tool :: rest)) lf s
          = (o, s2,
             ev0 ++ evs ++ attempt_entry doi tool
               :: EvLog WARNING (failure_msg doi tool (KeyError tool)) :: ev2)
        /\ o <> Raise (KeyError tool).
Proof.
  intros Hk Hp Hall.
  assert (Hat : attempt doi tool (candidate_path doi dir fn tool) s1
                = (Raise (KeyError tool), s1, [attempt_entry doi tool])).
  { unfold attempt, lookup_tool, log, emit, bind, raise.
    rewrite Hk. reflexivity. }
  split; [exact Hat|].
  destruct (resume_all_fail _ _ _ _ _ _ _ _ Hall) as (evs & Hrun & _).
  exists evs. intros o s2 ev2 Hr. split.
  - eapply download_article_resume; [exact Hp|].
    apply Hrun.
    exact (resume_failure_step _ _ _ _ _ _ _ _ _ _ _ _ _ Hat Hr).
  - destruct (resume_outcome _ _ _ _ _ _ _ _ _ Hr) as [[p ->]|[l' ->]];
      congruence.
Qed.

(** ** Classification and the choice of the list *)

Lemma download_article_events_explicit doi dir fn l lf :
  emits no_http (download_article doi dir fn (Some l) lf).
Proof.
  unfold download_article.
  apply emits_bind.
  - eapply emits_weaken; [apply is_fs_no_http | apply prepare_explicit_emits].
  - intros l'. apply emits_bind.
    + apply try_tools_emits; reflexivity.
    + intros r. apply conclude_emits. reflexivity.
Qed.

(** C5. An identifier whose registrant prefix is in the static table is
    classified as the mapped source with no event at all, so without any
    request to a registry.  The two identifiers of the scenario are
    classified as arXiv and bioRxiv, and the lists derived for them start
    with paperscraper, with unpaywall after it. *)
Theorem static_prefix_classification :
  (forall doi server s,
      dict_get PREPRINT_SERVER_PREFIXES (split_head "/" doi) = Some server ->
      get_publisher_from_doi doi s = (Ok (VStr server), s, []))
  /\ (forall s,
         get_publisher_from_doi "10.48550/arXiv.2504.00812" s
         = (Ok (VStr "arXiv"), s, []))
  /\ (forall s,
         get_publisher_from_doi "10.1101/2025.01.06.631505" s
         = (Ok (VStr "bioRxiv"), s, []))
  /\ (forall s,
         select_methods "10.48550/arXiv.2504.00812" None s
         = (Ok ["paperscraper"; "arxiv"; "unpaywall"], s, []))
  /\ (forall s,
         select_methods "10.1101/2025.01.06.631505" None s
         = (Ok ["paperscraper"; "unpaywall"], s, [])).
Proof.
  assert (H : forall doi server s,
             dict_get PREPRINT_SERVER_PREFIXES (split_head "/" doi)
             = Some server ->
             get_publisher_from_doi doi s = (Ok (VStr server), s, [])).
  { intros doi server s E. unfold get_publisher_from_doi.
    rewrite E. reflexivity. }
  split; [exact H|].
  split; [intros s; apply H; reflexivity|].
  split; [intros s; apply H; reflexivity|].
  split; intros s; unfold select_methods, bind.
  - rewrite (H "10.48550/arXiv.2504.00812" "arXiv" s eq_refl). reflexivity.
  - rewrite (H "10.1101/2025.01.06.631505" "bioRxiv" s eq_refl). reflexivity.
Qed.

(** C6. Without an explicit list, an identifier that the classifier
    leaves unresolved, or resolves to a name with no entry in
    [PUBLISHER_TOOL_MAP], is tried with unpaywall and then crossref_tdm.
    With an explicit list, exactly that list is tried and the run holds
    no request to a registry: the classifier is not run. *)
Theorem default_list_and_override :
  (forall doi dir fn lf s s0 ev0 publisher s1 ev1,
      setup dir lf s = (Ok tt, s0, ev0) ->
      get_publisher_from_doi doi s0 = (Ok publisher, s1, ev1) ->
      (publisher = VNone
       \/ exists name, publisher = VStr name
                       /\ dict_get PUBLISHER_TOOL_MAP name = None) ->
      prepare doi dir None lf s
        = (Ok ["unpaywall"; "crossref_tdm"], s1, ev0 ++ ev1)
      /\ forall o s2 ev2,
          resume doi dir fn ["unpaywall"; "crossref_tdm"] None s1
            = (o, s2, ev2) ->
          download_article doi dir fn None lf s = (o, s2, (ev0 ++ ev1) ++ ev2))
  /\ (forall doi dir fn l lf s s0 ev0,
         setup dir lf s = (Ok tt, s0, ev0) ->
         prepare doi dir (Some l) lf s = (Ok l, s0, ev0)
         /\ (forall o s2 ev2,
               resume doi dir fn l None s0 = (o, s2, ev2) ->
               download_article doi dir fn (Some l) lf s = (o, s2, ev0 ++ ev2))
         /\ filter is_http
              (events_of (download_article doi dir fn (Some l) lf s)) = []).
Proof.
  split.
  - intros doi dir fn lf s s0 ev0 publisher s1 ev1 Hs Hg Hpub.
    assert (Hp : prepare doi dir None lf s
                 = (Ok ["unpaywall"; "crossref_tdm"], s1, ev0 ++ ev1)).
    { unfold prepare. eapply bind_ok; [exact Hs|].
      unfold select_methods.
      rewrite <- (app_nil_r ev1).
      eapply bind_ok; [exact Hg|].
      destruct Hpub as [-> | (name & -> & Hn)]; [reflexivity|].
      cbn [truthy tool_map_get]. rewrite Hn.
      destruct (negb (String.eqb name EmptyString)); reflexivity. }
    split; [exact Hp|].
    intros o s2 ev2 Hr. eapply download_article_resume; eassumption.
  - intros doi dir fn l lf s s0 ev0 Hs.
    assert (Hp : prepare doi dir (Some l) lf s = (Ok l, s0, ev0)).
    { rewrite prepare_explicit, Hs. reflexivity. }
    split; [exact Hp|]. split.
    + intros o s2 ev2 Hr. eapply download_article_resume; eassumption.
    + eapply forallb_filter_nil;
        [|apply (download_article_events_explicit doi dir fn l lf s)].
      intros ev. unfold no_http. destruct (is_http ev); cbn; congruence.
Qed.

(** ** File names *)

Lemma all_chars_app (p : ascii -> bool) (a b : string) :
  all_chars p (a ++ b) = all_chars p a && all_chars p b.
Proof.
  induction a as [|c a IH]; cbn; [reflexivity|].
  rewrite IH, andb_assoc. reflexivity.
Qed.

Lemma sanitize_allowed (doi : string) :
  all_chars allowed_char (sanitize doi) = true.
Proof.
  unfold sanitize. induction doi as [|c r IH]; cbn; [reflexivity|].
  rewrite IH, andb_true_r.
  destruct (allowed_char c) eqn:E; [exact E | reflexivity].
Qed.

Lemma sanitize_get (doi : string) (n : nat) :
  get n (sanitize doi)
  = option_map (fun c => if allowed_char c then c else "_"%char) (get n doi).
Proof.
  unfold sanitize. revert n.
  induction doi as [|c r IH]; intros [|n]; cbn; auto.
Qed.

Lemma tool_ext_allowed (tool : string) :
  all_chars allowed_char (tool_ext tool) = true.
Proof. unfold tool_ext. destruct (existsb _ _); reflexivity. Qed.

Lemma allowed_no_slash (b : string) :
  all_chars allowed_char b = true -> contains_char "/" b = false.
Proof.
  induction b as [|c r IH]; cbn; [reflexivity|].
  intros H. apply andb_true_iff in H as [Hc Hr].
  rewrite (IH Hr), orb_false_r.
  destruct (Ascii.eqb c "/") eqn:E; [|reflexivity].
  apply Ascii.eqb_eq in E. subst c. discriminate Hc.
Qed.

Lemma rfind_from_app (c : ascii) (x b : string) :
  forall i acc,
    rfind_from c (x ++ b) i acc
    = rfind_from c b (i + Z.of_nat (String.length x)) (rfind_from c x i acc).
Proof.
  induction x as [|a x IH]; intros i acc; cbn [append rfind_from String.length].
  - rewrite Z.add_0_r. reflexivity.
  - rewrite IH. f_equal. lia.
Qed.

Lemma rfind_from_absent (c : ascii) (b : string) :
  contains_char c b = false -> forall i acc, rfind_from c b i acc = acc.
Proof.
  induction b as [|a r IH]; cbn; [reflexivity|].
  intros H i acc. apply orb_false_iff in H as [Ha Hr].
  rewrite Ha. apply IH. exact Hr.
Qed.

Lemma rfind_from_ends (c : ascii) (x : string) :
  endswith_char x c = true ->
  forall i acc,
    rfind_from c x i acc = (i + Z.of_nat (String.length x) - 1)%Z.
Proof.
  induction x as [|a r IH]; [discriminate|].
  intros H i acc. destruct r as [|b r'].
  - cbn in *. rewrite H. lia.
  - change (endswith_char (String b r') c = true) in H.
    change (rfind_from c (String a (String b r')) i acc)
      with (rfind_from c (String b r') (i + 1)
              (if Ascii.eqb a c then i else acc)).
    rewrite (IH H). cbn [String.length]. lia.
Qed.

Lemma rfind_from_bounds (c : ascii) (s : string) :
  forall i acc, (acc < i)%Z ->
    (acc <= rfind_from c s i acc < i + Z.of_nat (String.length s))%Z.
Proof.
  induction s as [|a r IH]; intros i acc H; cbn [rfind_from String.length].
  - lia.
  - destruct (Ascii.eqb a c).
    + specialize (IH (i + 1)%Z i ltac:(lia)). lia.
    + specialize (IH (i + 1)%Z acc ltac:(lia)). lia.
Qed.

Lemma substring_skip (x b : string) (n : nat) :
  substring (String.length x) n (x ++ b) = substring 0 n b.
Proof. induction x as [|a x IH]; cbn; [reflexivity | exact IH]. Qed.

Lemma substring_all (b : string) : substring 0 (String.length b) b = b.
Proof. induction b as [|a b IH]; cbn; [reflexivity | rewrite IH; reflexivity]. Qed.

Lemma endswith_char_snoc (a : string) (c : ascii) :
  endswith_char (a ++ String c EmptyString) c = true.
Proof.
  induction a as [|x a IH]; cbn [append].
  - cbn. apply Ascii.eqb_refl.
  - destruct a as [|y a']; cbn [append] in *.
    + cbn. apply Ascii.eqb_refl.
    + exact IH.
Qed.

(** The base name of [x ++ b] is [b] when [x] is empty or ends with the
    separator and [b] holds none. *)
Lemma basename_app (x b : string) :
  x = EmptyString \/ endswith_char x "/" = true ->
  contains_char "/" b = false ->
  basename (x ++ b) = b.
Proof.
  intros Hx Hb. unfold basename, rfind, slice_from.
  rewrite rfind_from_app, (rfind_from_absent _ _ Hb).
  assert (E : (rfind_from "/" x 0 (-1) + 1
               = Z.of_nat (String.length x))%Z).
  { destruct Hx as [-> | Hx]; [reflexivity|].
    rewrite (rfind_from_ends _ _ Hx). lia. }
  rewrite E, Nat2Z.id, string_length_app.
  replace (String.length x + String.length b - String.length x)%nat
    with (String.length b) by lia.
  rewrite substring_skip. apply substring_all.
Qed.

Lemma startswith_slash (b : string) :
  contains_char "/" b = false -> startswith b "/" = false.
Proof.
  destruct b as [|c r]; [reflexivity|].
  cbn [contains_char]. intros H. apply orb_false_iff in H as [Hc _].
  change (startswith (String c r) "/")
    with (if ascii_dec "/" c then String.prefix EmptyString r else false).
  destruct (ascii_dec "/" c) as [<-|]; [|reflexivity].
  rewrite Ascii.eqb_refl in Hc. discriminate Hc.
Qed.

Lemma basename_path_join (a b : string) :
  contains_char "/" b = false -> basename (path_join a b) = b.
Proof.
  intros Hb. unfold path_join. rewrite (startswith_slash _ Hb).
  destruct (String.eqb a EmptyString) eqn:Ea; cbn [orb].
  - apply String.eqb_eq in Ea. apply basename_app; auto.
  - destruct (endswith_char a "/") eqn:Eb.
    + apply basename_app; auto.
    + rewrite <- string_app_assoc. apply basename_app; [|exact Hb].
      right. apply endswith_char_snoc.
Qed.

Lemma out_name_derived (fn : option string) (base tool : string) :
  filename_given fn = false ->
  out_name fn base tool = (base ++ tool_ext tool)%string.
Proof.
  unfold filename_given, out_name. destruct fn as [f|]; [|reflexivity].
  destruct (String.eqb f EmptyString); [reflexivity | discriminate].
Qed.

Lemma derived_basename doi dir fn tool :
  filename_given fn = false ->
  basename (candidate_path doi dir fn tool)
  = (sanitize doi ++ tool_ext tool)%string
  /\ all_chars allowed_char (basename (candidate_path doi dir fn tool)) = true.
Proof.
  intros H. unfold candidate_path. rewrite (out_name_derived _ _ _ H).
  assert (A : all_chars allowed_char (sanitize doi ++ tool_ext tool) = true).
  { rewrite all_chars_app, sanitize_allowed, tool_ext_allowed. reflexivity. }
  rewrite basename_path_join; [|apply allowed_no_slash, A].
  split; [reflexivity | exact A].
Qed.

Lemma get_lt (s : string) : forall n, (n < String.length s)%nat -> get n s <> None.
Proof.
  induction s as [|c r IH]; intros n H; cbn in H; [lia|].
  destruct n as [|n]; cbn; [discriminate|]. apply IH. lia.
Qed.

Lemma substring_nonempty (s : string) (n m : nat) :
  (n < String.length s)%nat -> (0 < m)%nat -> substring n m s <> EmptyString.
Proof.
  intros Hn Hm E.
  pose proof (substring_correct1 s n m 0 Hm) as G.
  rewrite E in G. cbn in G. symmetry in G.
  exact (get_lt s n Hn G).
Qed.

(** A file name without extension is left whole by [splitext]. *)
Lemma splitext_no_ext (p : string) :
  snd (splitext p) = EmptyString -> fst (splitext p) = p.
Proof.
  unfold splitext.
  destruct (rfind "/" p <? rfind "." p)%Z eqn:E; [|reflexivity].
  destruct (all_chars _ _); [reflexivity|].
  cbn [fst snd]. intros H. exfalso.
  apply Z.ltb_lt in E.
  pose proof (rfind_from_bounds "/" p 0 (-1) ltac:(lia)) as B1.
  pose proof (rfind_from_bounds "." p 0 (-1) ltac:(lia)) as B2.
  fold (rfind "/" p) in B1. fold (rfind "." p) in B2.
  revert H. unfold slice_from. apply substring_nonempty; lia.
Qed.

Lemma out_name_no_ext (fname base tool : string) :
  fname <> EmptyString -> snd (splitext fname) = EmptyString ->
  out_name (Some fname) base tool = (fname ++ tool_ext tool)%string.
Proof.
  intros Hne Hext. unfold out_name.
  destruct (String.eqb fname EmptyString) eqn:E.
  - apply String.eqb_eq in E. contradiction.
  - pose proof (splitext_no_ext _ Hext) as Hname.
    destruct (splitext fname) as [name ext]. cbn in *. subst.
    reflexivity.
Qed.

Lemma call_of_invocation doi dir fn tool :
  call_of doi dir fn tool = invocation doi dir fn tool.
Proof. reflexivity. Qed.

(** The invocations of the loop: those of a first part of the list,
    which is not empty unless the list is. *)
Lemma resume_calls doi dir fn l :
  forall last s,
  exists tried rest,
    l = tried ++ rest
    /\ (l <> [] -> tried <> [])
    /\ filter is_call (events_of (resume doi dir fn l last s))
       = flat_map (invocation doi dir fn) tried.
Proof.
  induction l as [|tool rest IH]; intros last s.
  - exists [], []. repeat split. intros H. exact H.
  - destruct (attempt doi tool (candidate_path doi dir fn tool) s)
      as [[[p|e] s1] ev] eqn:Hat;
      destruct (attempt_events _ _ _ _ _ _ _ Hat) as (_ & A2 & _).
    + exists [tool], rest. split; [reflexivity|]. split; [discriminate|].
      rewrite (resume_success_step _ _ _ _ rest last _ _ _ _ Hat).
      cbn [events_of snd flat_map]. rewrite app_nil_r. exact A2.
    + destruct (IH (Some e) s1) as (tried & rest' & Hl & _ & Hc).
      destruct (resume doi dir fn rest (Some e) s1) as [[o s2] ev2] eqn:Hr.
      exists (tool :: tried), rest'.
      split; [cbn [app]; rewrite <- Hl; reflexivity|].
      split; [discriminate|].
      rewrite (resume_failure_step _ _ _ _ _ last _ _ _ _ _ _ _ Hat Hr).
      cbn [events_of snd] in *. rewrite filter_app.
      cbn [filter is_call flat_map]. rewrite A2, Hc. reflexivity.
Qed.

(** C7. The paths [download_article] hands to the tools.  Once the list
    of tools is settled, the invocations of a run are those of a first
    part of the list (the tools tried, at least one unless the list is
    empty), each at the path the loop builds for its tool.  Without an
    explicit file name the base name of that path is "sanitized
    identifier + extension": every character of it is a letter, a digit,
    '.', '_' or '-', the identifier's other characters having become
    '_'.  With an explicit file name without extension the path is that
    name with ".xml" for elsevier and springeropen and ".pdf" for any
    other tool. *)
Theorem generated_file_names doi dir fn tools lf s l s0 ev0 :
  prepare doi dir tools lf s = (Ok l, s0, ev0) ->
  let evs := events_of (download_article doi dir fn tools lf s) in
  exists tried rest,
    l = tried ++ rest
    /\ (l <> [] -> tried <> [])
    /\ filter is_call evs = flat_map (invocation doi dir fn) tried
    /\ (forall tool f,
           In tool tried -> dict_get TOOL_FUNCTIONS tool = Some f ->
           let path := path_join dir (out_name fn (sanitize doi) tool) in
           In (EvCall f doi path) evs
           /\ (filename_given fn = false ->
               basename path = (sanitize doi ++ tool_ext tool)%string
               /\ all_chars allowed_char (basename path) = true)
           /\ (forall fname,
                  fn = Some fname ->
                  fname <> EmptyString -> snd (splitext fname) = EmptyString ->
                  path
                  = path_join dir
                      (fname ++ (if (String.eqb tool "elsevier"
                                     || String.eqb tool "springeropen")%bool
                                 then ".xml" else ".pdf"))))
    /\ (forall n,
           get n (sanitize doi)
           = option_map (fun c => if allowed_char c then c else "_"%char)
               (get n doi))
    /\ (filename_given fn = false -> forallb safe_call_path evs = true).
Proof.
  intros Hp evs.
  destruct (resume_calls doi dir fn l None s0) as (tried & rest & Hl & Hne & Hc).
  destruct (resume doi dir fn l None s0) as [[o s1] ev1] eqn:Hr.
  assert (Hevs : evs = ev0 ++ ev1).
  { unfold evs. rewrite (download_article_resume _ _ _ _ _ _ _ _ _ _ _ _ Hp Hr).
    reflexivity. }
  destruct (prepare_no_attempt _ _ _ _ _ _ _ _ Hp) as (_ & P2).
  cbn [events_of snd] in Hc.
  assert (Hcalls : filter is_call evs = flat_map (invocation doi dir fn) tried).
  { rewrite Hevs, filter_app, P2. exact Hc. }
  exists tried, rest. split; [exact Hl|]. split; [exact Hne|].
  split; [exact Hcalls|]. split; [|split; [exact (sanitize_get doi)|]].
  - intros tool f Hin Hf path. split; [|split].
    + assert (H : In (EvCall f doi path)
                    (flat_map (invocation doi dir fn) tried)).
      { apply in_flat_map. exists tool. split; [exact Hin|].
        unfold invocation. rewrite Hf. left. reflexivity. }
      rewrite <- Hcalls in H. apply filter_In in H. exact (proj1 H).
    + intros Hfn. exact (derived_basename doi dir fn tool Hfn).
    + intros fname -> Hn Hext. unfold path.
      rewrite (out_name_no_ext _ _ _ Hn Hext). unfold tool_ext.
      cbn [existsb]. rewrite orb_false_r. reflexivity.
  - intros Hfn.
    assert (E : emits safe_call_path (download_article doi dir fn tools lf)).
    { unfold download_article. apply emits_bind.
      - eapply emits_weaken; [|apply prepare_emits].
        intros []; cbn; congruence.
      - intros l'. apply emits_bind.
        + apply try_tools_emits; [reflexivity|].
          intros tool f _ _. cbn [safe_call_path].
          apply (derived_basename doi dir fn tool Hfn).
        + intros r. apply conclude_emits. reflexivity. }
    exact (E s).
Qed.

(** ** Dicts *)

Lemma dict_get_set_same {V : Type} (d : Dict V) k v :
  dict_get (dict_set d k v) k = Some v.
Proof.
  induction d as [|[k' v'] r IH]; cbn.
  - rewrite String.eqb_refl. reflexivity.
  - destruct (String.eqb k' k) eqn:E; cbn; rewrite E; [reflexivity | exact IH].
Qed.

Lemma dict_get_set_other {V : Type} (d : Dict V) k k' v :
  k' <> k -> dict_get (dict_set d k' v) k = dict_get d k.
Proof.
  intros Hne. induction d as [|[k0 v0] r IH]; cbn.
  - destruct (String.eqb k' k) eqn:E; [|reflexivity].
    apply String.eqb_eq in E. contradiction.
  - destruct (String.eqb k0 k') eqn:E; cbn.
    + apply String.eqb_eq in E. subst k0.
      destruct (String.eqb k' k) eqn:E2; [|reflexivity].
      apply String.eqb_eq in E2. contradiction.
    + rewrite IH. reflexivity.
Qed.

Lemma dict_set_keys {V : Type} (d : Dict V) k v k0 :
  In k0 (dict_keys (dict_set d k v)) <-> k0 = k \/ In k0 (dict_keys d).
Proof.
  unfold dict_keys. induction d as [|[k' v'] r IH]; cbn.
  - intuition.
  - destruct (String.eqb k' k) eqn:E; cbn.
    + apply String.eqb_eq in E. subst k'. intuition.
    + rewrite IH. intuition.
Qed.

Lemma dict_set_fresh {V : Type} (d : Dict V) k v :
  ~ In k (dict_keys d) -> dict_set d k v = d ++ [(k, v)].
Proof.
  unfold dict_keys. induction d as [|[k' v'] r IH]; cbn; [reflexivity|].
  intros H. destruct (String.eqb k' k) eqn:E.
  - apply String.eqb_eq in E. tauto.
  - rewrite IH; [reflexivity | tauto].
Qed.

Lemma dict_set_nodup {V : Type} (d : Dict V) k v :
  NoDup (dict_keys d) -> NoDup (dict_keys (dict_set d k v)).
Proof.
  unfold dict_keys. induction d as [|[k' v'] r IH]; cbn; intros H.
  - constructor; [intros [] | constructor].
  - inversion H as [|? ? Hnin Hnd]; subst.
    destruct (String.eqb k' k) eqn:E; cbn.
    + constructor; assumption.
    + constructor; [|apply IH; exact Hnd].
      intros Hin. apply (dict_set_keys r k v k') in Hin.
      destruct Hin as [->|Hin]; [|contradiction].
      rewrite String.eqb_refl in E. discriminate.
Qed.

Lemma dict_get_in {V : Type} (d : Dict V) k v :
  NoDup (dict_keys d) -> In (k, v) d -> dict_get d k = Some v.
Proof.
  unfold dict_keys. induction d as [|[k' v'] r IH]; cbn; [tauto|].
  intros Hnd [Heq|Hin].
  - inversion Heq; subst. rewrite String.eqb_refl. reflexivity.
  - inversion Hnd as [|? ? Hnin Hnd']; subst.
    destruct (String.eqb k' k) eqn:E; [|apply IH; assumption].
    apply String.eqb_eq in E. subst k'. exfalso. apply Hnin.
    apply (in_map fst) in Hin. exact Hin.
Qed.

Lemma fold_store_nodup l :
  forall d, NoDup (dict_keys d) -> NoDup (dict_keys (fold_left store l d)).
Proof.
  induction l as [|item l IH]; intros d H; cbn; [exact H|].
  apply IH. apply dict_set_nodup. exact H.
Qed.

Lemma fold_store_keys l :
  forall d k,
    In k (dict_keys (fold_left store l d))
    <-> In k (dict_keys d) \/ In k (map fst l).
Proof.
  induction l as [|item l IH]; intros d k; cbn [fold_left map In]; [tauto|].
  rewrite IH. unfold store. rewrite dict_set_keys. intuition.
Qed.

Lemma fold_store_get_other l :
  forall d k, ~ In k (map fst l) ->
    dict_get (fold_left store l d) k = dict_get d k.
Proof.
  induction l as [|item l IH]; intros d k H; cbn in *; [reflexivity|].
  rewrite IH by tauto. unfold store.
  apply dict_get_set_other. tauto.
Qed.

(** The entry of an identifier is that of its last occurrence. *)
Lemma fold_store_get_last l1 doi o l2 d :
  ~ In doi (map fst l2) ->
  dict_get (fold_left store (l1 ++ (doi, o) :: l2) d) doi = Some (entry_of o).
Proof.
  intros H. rewrite fold_left_app. cbn [fold_left].
  rewrite fold_store_get_other by exact H.
  unfold store at 1. cbn [fst snd]. apply dict_get_set_same.
Qed.

(** Pairwise distinct identifiers: every store appends a new entry. *)
Lemma fold_store_distinct l :
  forall d,
    NoDup (map fst l) ->
    (forall k, In k (map fst l) -> ~ In k (dict_keys d)) ->
    fold_left store l d
    = d ++ map (fun item => (fst item, entry_of (snd item))) l.
Proof.
  induction l as [|item l IH]; intros d Hnd Hdisj; cbn.
  - rewrite app_nil_r. reflexivity.
  - inversion Hnd as [|? ? Hnin Hnd']; subst.
    unfold store at 2.
    rewrite dict_set_fresh by (apply Hdisj; left; reflexivity).
    rewrite IH; [rewrite <- app_assoc; reflexivity | exact Hnd' |].
    intros k Hk Hin. unfold dict_keys in Hin.
    rewrite map_app in Hin. apply in_app_or in Hin as [Hin|Hin].
    + apply (Hdisj k); [right; exact Hk | exact Hin].
    + cbn in Hin. destruct Hin as [<-|[]]. contradiction.
Qed.

(** ** The batch *)

Lemma per_item_keys dir lf dois :
  forall s, map fst (fst (per_item_outcomes dir lf dois s)) = dois.
Proof.
  induction dois as [|doi rest IH]; intros s; cbn; [reflexivity|].
  destruct (download_article doi dir None None lf s) as [[o s1] ev].
  specialize (IH s1).
  destruct (per_item_outcomes dir lf rest s1) as [l s2].
  cbn in *. rewrite IH. reflexivity.
Qed.

Lemma per_item_app dir lf pre post s :
  per_item_outcomes dir lf (pre ++ post) s
  = (fst (per_item_outcomes dir lf pre s)
       ++ fst (per_item_outcomes dir lf post
                 (snd (per_item_outcomes dir lf pre s))),
     snd (per_item_outcomes dir lf post
            (snd (per_item_outcomes dir lf pre s)))).
Proof.
  revert s. induction pre as [|doi rest IH]; intros s; cbn.
  - destruct (per_item_outcomes dir lf post s); reflexivity.
  - destruct (download_article doi dir None None lf s) as [[o s1] ev].
    rewrite IH.
    destruct (per_item_outcomes dir lf rest s1) as [l s2]. reflexivity.
Qed.

(** The loop stores, for each identifier in turn, what its resolution
    gave, and never raises. *)
Lemma bulk_loop_spec u dir lf sl dois :
  forall results s, exists ev,
    bulk_loop u dir lf sl dois results s
    = (Ok (fold_left store (fst (per_item_outcomes dir lf dois s)) results),
       snd (per_item_outcomes dir lf dois s), ev).
Proof.
  induction dois as [|doi rest IH]; intros results s.
  - exists []. reflexivity.
  - cbn [bulk_loop per_item_outcomes].
    destruct (download_article doi dir None None lf s) as [[o s1] ev1] eqn:Ed.
    destruct (IH (dict_set results doi (entry_of o)) s1) as (ev2 & E).
    destruct (per_item_outcomes dir lf rest s1) as [l s2].
    cbn [fst snd] in *.
    match goal with
    | |- context [bind (try_except ?c ?h) ?k s] =>
        assert (Hstep : exists evs,
                   try_except c h s
                   = (Ok (dict_set results doi (entry_of o)), s1, evs))
    end.
    { unfold try_except, bind. rewrite Ed.
      destruct o as [p|e]; [|destruct u]; eexists; reflexivity. }
    destruct Hstep as (evs & Hstep).
    destruct (negb (Qle_bool sl 0)); eexists;
      (eapply bind_ok; [exact Hstep|]);
      (eapply bind_ok; [reflexivity | exact E]).
Qed.

Lemma print_failed_spec results l s :
  (forall item, In item l -> dict_get results (fst item) = Some (snd item)) ->
  print_failed results (map fst l) s
  = (Ok tt, s,
     map (fun item => EvPrint (summary_line (fst item) (snd item))) l).
Proof.
  induction l as [|item l IH]; intros H; [reflexivity|].
  cbn [map print_failed]. unfold bind at 1, dict_index.
  rewrite (H item (or_introl eq_refl)). cbn [ret].
  unfold bind at 1. cbn [emit].
  rewrite IH by (intros i Hi; apply H; right; exact Hi).
  reflexivity.
Qed.

(** The summary prints one line per entry that starts with ERROR. *)
Lemma print_summary_spec results s :
  NoDup (dict_keys results) ->
  print_summary results s = (Ok tt, s, summary_events results).
Proof.
  intros Hnd. unfold print_summary, summary_events, failed_of.
  assert (H : forall item,
             In item (filter (fun item => is_error_entry (snd item)) results) ->
             dict_get results (fst item) = Some (snd item)).
  { intros [k v] Hin. apply filter_In in Hin as [Hin _].
    apply dict_get_in; assumption. }
  destruct (filter (fun item => is_error_entry (snd item)) results)
    as [|item l] eqn:E; [reflexivity|].
  cbn [map]. unfold bind at 1. cbn [emit].
  change (fst item :: map fst l) with (map fst (item :: l)).
  rewrite print_failed_spec by exact H. reflexivity.
Qed.

Lemma failed_of_spec results doi :
  NoDup (dict_keys results) ->
  (In doi (failed_of results)
   <-> exists v, dict_get results doi = Some v /\ is_error_entry v = true).
Proof.
  intros Hnd. unfold failed_of. rewrite in_map_iff. split.
  - intros ([k v] & <- & Hin). apply filter_In in Hin as [Hin Herr].
    exists v. split; [apply dict_get_in; assumption | exact Herr].
  - intros (v & Hget & Herr). exists (doi, v). split; [reflexivity|].
    apply filter_In. split; [|exact Herr].
    clear Hnd Herr. induction results as [|[k' v'] r IH]; cbn in *;
      [discriminate|].
    destruct (String.eqb k' doi) eqn:E.
    + apply String.eqb_eq in E. inversion Hget; subst. left. reflexivity.
    + right. apply IH. exact Hget.
Qed.

Lemma bulk_results_nodup dir lf dois s :
  NoDup (dict_keys
           (fold_left store (fst (per_item_outcomes dir lf dois s)) [])).
Proof. apply fold_store_nodup. constructor. Qed.

(** The whole call in terms of its loop: the summary is printed when
    [tqdm] is in use, and nothing after the loop can raise. *)
Lemma bulk_download_articles_spec dois dir lf sl s :
  let use_tqdm := ((1 <? List.length dois)%nat && tqdm_installed)%bool in
  let d := fold_left store (fst (per_item_outcomes dir lf dois s)) [] in
  exists ev_loop,
    bulk_loop use_tqdm dir lf sl dois [] s
    = (Ok d, snd (per_item_outcomes dir lf dois s), ev_loop)
    /\ bulk_download_articles dois dir lf sl s
       = (Ok d, snd (per_item_outcomes dir lf dois s),
          ev_loop ++ (if use_tqdm then summary_events d else [])).
Proof.
  intros use_tqdm d.
  destruct (bulk_loop_spec use_tqdm dir lf sl dois [] s) as (ev & E).
  exists ev. split; [exact E|].
  unfold bulk_download_articles. fold use_tqdm.
  eapply bind_ok; [exact E|].
  rewrite <- (app_nil_r (if use_tqdm then summary_events d else [])).
  eapply bind_ok; [|reflexivity].
  destruct use_tqdm; [|reflexivity].
  apply print_summary_spec. apply bulk_results_nodup.
Qed.

(** C8. [bulk_download_articles] never raises.  It resolves every
    identifier of the list, in order, each in the state its predecessor
    left whether that one succeeded or failed, and what the mapping holds
    for an identifier is what its last resolution gave: the path, or the
    error entry built from the exception caught. *)
Theorem batch_always_completes dois dir lf sl s :
  let outcomes := fst (per_item_outcomes dir lf dois s) in
  exists d s' ev,
    bulk_download_articles dois dir lf sl s = (Ok d, s', ev)
    /\ d = fold_left store outcomes []
    /\ map fst outcomes = dois
    /\ (forall doi, In doi dois <-> In doi (dict_keys d))
    /\ (forall l1 doi e l2,
           outcomes = l1 ++ (doi, Raise e) :: l2 ->
           ~ In doi (map fst l2) ->
           dict_get d doi = Some ("ERROR: " ++ str e)%string)
    /\ (forall l1 doi p l2,
           outcomes = l1 ++ (doi, Ok p) :: l2 ->
           ~ In doi (map fst l2) ->
           dict_get d doi = Some p).
Proof.
  intros outcomes.
  destruct (bulk_download_articles_spec dois dir lf sl s) as (ev & _ & E).
  eexists _, _, _. split; [exact E|].
  split; [reflexivity|].
  split; [apply per_item_keys|].
  split; [|split].
  - intros doi. rewrite fold_store_keys.
    fold outcomes. unfold outcomes at 1. rewrite per_item_keys.
    cbn. tauto.
  - intros l1 doi e l2 Ho Hnin. fold outcomes. rewrite Ho.
    apply (fold_store_get_last l1 doi (Raise e) l2 [] Hnin).
  - intros l1 doi p l2 Ho Hnin. fold outcomes. rewrite Ho.
    apply (fold_store_get_last l1 doi (Ok p) l2 [] Hnin).
Qed.

(** C3, amended. For a list of N pairwise distinct identifiers the
    mapping returned has exactly N entries, one per identifier in input
    order, each holding the path or the error entry of that identifier's
    resolution; the mapping built after any initial part of the list is
    an initial part of the final one, so every entry is written once and
    neither removed nor overwritten. *)
Theorem batch_entries_distinct dois dir lf sl s :
  NoDup dois ->
  let outcomes := fst (per_item_outcomes dir lf dois s) in
  exists d s' ev,
    bulk_download_articles dois dir lf sl s = (Ok d, s', ev)
    /\ d = map (fun item => (fst item, entry_of (snd item))) outcomes
    /\ List.length d = List.length dois
    /\ dict_keys d = dois
    /\ (forall u pre post,
           dois = pre ++ post ->
           exists d_pre d_post s1 ev1,
             bulk_loop u dir lf sl pre [] s = (Ok d_pre, s1, ev1)
             /\ dict_keys d_pre = pre
             /\ d = d_pre ++ d_post).
Proof.
  intros Hnd outcomes.
  assert (Hfold : forall l s0,
             NoDup l ->
             fold_left store (fst (per_item_outcomes dir lf l s0)) []
             = map (fun item => (fst item, entry_of (snd item)))
                 (fst (per_item_outcomes dir lf l s0))).
  { intros l s0 Hl.
    rewrite fold_store_distinct; [reflexivity | | intros k _ []].
    rewrite per_item_keys. exact Hl. }
  destruct (bulk_download_articles_spec dois dir lf sl s) as (ev & _ & E).
  rewrite (Hfold dois s Hnd) in E. fold outcomes in E.
  assert (Hkeys : dict_keys
                    (map (fun item => (fst item, entry_of (snd item))) outcomes)
                  = dois).
  { unfold dict_keys. rewrite map_map. cbn [fst].
    apply per_item_keys. }
  eexists _, _, _. split; [exact E|].
  split; [reflexivity|]. split; [|split; [exact Hkeys|]].
  - rewrite length_map. unfold outcomes.
    rewrite <- (per_item_keys dir lf dois s) at 2.
    rewrite length_map. reflexivity.
  - intros u pre post Hsplit.
    assert (Hpre : NoDup pre).
    { rewrite Hsplit in Hnd. apply NoDup_app_remove_r in Hnd. exact Hnd. }
    destruct (bulk_loop_spec u dir lf sl pre [] s) as (ev1 & E1).
    rewrite (Hfold pre s Hpre) in E1.
    eexists _, _, _, _. split; [exact E1|]. split.
    + unfold dict_keys. rewrite map_map. cbn [fst]. apply per_item_keys.
    + unfold outcomes. rewrite Hsplit, per_item_app. cbn [fst].
      rewrite map_app. reflexivity.
Qed.

(** C10. The mapping holds strings only: the path returned for an
    identifier that was resolved, "ERROR: " followed by the text of the
    exception for one that was not.  When the summary is printed (more
    than one identifier and [tqdm] importable) it lists exactly the
    entries whose value starts with "ERROR", so an identifier counts as
    failed if and only if its value has that prefix, whatever the
    outcome of its resolution was. *)
Theorem batch_entries_and_summary dois dir lf sl s :
  let use_tqdm := ((1 <? List.length dois)%nat && tqdm_installed)%bool in
  exists d s' ev_loop,
    bulk_loop use_tqdm dir lf sl dois [] s = (Ok d, s', ev_loop)
    /\ bulk_download_articles dois dir lf sl s
       = (Ok d, s', ev_loop ++ (if use_tqdm then summary_events d else []))
    /\ d = fold_left store (fst (per_item_outcomes dir lf dois s)) []
    /\ (forall e, entry_of (Raise e) = ("ERROR: " ++ str e)%string)
    /\ (forall p, entry_of (Ok p) = p)
    /\ (forall doi,
           In doi (failed_of d)
           <-> exists v, dict_get d doi = Some v
                         /\ startswith v "ERROR" = true)
    /\ summary_events d
       = match filter (fun item => startswith (snd item) "ERROR") d with
         | [] => []
         | l => EvPrint summary_header
                  :: map (fun item =>
                            EvPrint ("  - " ++ fst item ++ ": " ++ snd item))
                       l
         end.
Proof.
  intros use_tqdm.
  destruct (bulk_download_articles_spec dois dir lf sl s) as (ev & E1 & E2).
  eexists _, _, _. split; [exact E1|]. split; [exact E2|].
  split; [reflexivity|]. split; [reflexivity|]. split; [reflexivity|].
  split; [|reflexivity].
  intros doi. apply failed_of_spec. apply bulk_results_nodup.
Qed.

End Properties.

(** * Concrete runs in the scripted world *)

(** C2: both tools of the default list fail. *)
Lemma all_strategies_exhausted_witness :
  let doi := "10.1234/a.b" in
  let denied := Exception_ "Exception" "CrossRef API request failed (status 403)" in
  @prepare scripted doi "out" None None (fresh [Some not_found; Some denied])
    = (Ok (["unpaywall"] ++ ["crossref_tdm"]),
       fresh [Some not_found; Some denied],
       [EvMakedirs "out";
        EvHttpGet "https://api.crossref.org/works/10.1234/a.b";
        EvRootLog ERROR
          "Failed to resolve DOI 10.1234/a.b to publisher: network is unreachable"])
  /\ exists evs msg,
      @download_article scripted doi "out" None None None
        (fresh [Some not_found; Some denied])
        = (Raise (Exception_ "Exception" msg), fresh [], evs)
      /\ msg = "All download methods failed for DOI 10.1234/a.b. Last error: CrossRef API request failed (status 403)"
      /\ str_in doi msg = true
      /\ str_in (str denied) msg = true
      /\ filter is_attempt_entry evs
         = map (attempt_entry doi) (["unpaywall"] ++ ["crossref_tdm"]).
Proof.
  intros doi denied.
  assert (H1 : @prepare scripted doi "out" None None
                 (fresh [Some not_found; Some denied])
               = (Ok (["unpaywall"] ++ ["crossref_tdm"]),
                  fresh [Some not_found; Some denied],
                  [EvMakedirs "out";
                   EvHttpGet "https://api.crossref.org/works/10.1234/a.b";
                   EvRootLog ERROR
                     "Failed to resolve DOI 10.1234/a.b to publisher: network is unreachable"]))
    by reflexivity.
  split; [exact H1|].
  eapply (all_strategies_exhausted (X := scripted)
            doi "out" None None None _ ["unpaywall"] "crossref_tdm"
            _ _ (fresh [Some denied]) (Some not_found) denied (fresh []));
    [exact H1 | | reflexivity].
  eapply all_fail_cons; [reflexivity | apply all_fail_nil].
Defined.

(** C4: an explicit empty list. *)
Lemma empty_strategy_list_witness :
  @prepare scripted "10.1234/a.b" "out" (Some []) (Some "dl.log") (fresh [None])
    = (Ok [], @mkEnv scripted [None] [FileHandler "/work/dl.log"] (Some INFO),
       [EvOpenLog "/work/dl.log"; EvMakedirs "out"])
  /\ exists evs,
      @download_article scripted "10.1234/a.b" "out" None (Some [])
        (Some "dl.log") (fresh [None])
        = (Raise (Exception_ "Exception"
                    "All download methods failed for DOI 10.1234/a.b."),
           @mkEnv scripted [None] [FileHandler "/work/dl.log"] (Some INFO),
           evs)
      /\ evs = [EvOpenLog "/work/dl.log"; EvMakedirs "out"]
               ++ [EvLog ERROR (all_failed_msg "10.1234/a.b")]
      /\ filter is_attempt_entry evs = []
      /\ filter is_call evs = []
      /\ filter is_http evs = [].
Proof.
  assert (H1 : @prepare scripted "10.1234/a.b" "out" (Some []) (Some "dl.log")
                 (fresh [None])
               = (Ok [],
                  @mkEnv scripted [None] [FileHandler "/work/dl.log"]
                    (Some INFO),
                  [EvOpenLog "/work/dl.log"; EvMakedirs "out"]))
    by reflexivity.
  split; [exact H1|].
  exact (empty_strategy_list (X := scripted) _ _ None _ _ _ _ _ H1).
Defined.

(** C9: "nosuch" is no key of [TOOL_FUNCTIONS]; the run goes on with
    unpaywall, which succeeds. *)
Lemma unknown_tool_is_ordinary_failure_witness :
  let doi := "10.1234/a.b" in
  dict_get TOOL_FUNCTIONS "nosuch" = None
  /\ @attempt scripted doi "nosuch"
       (@candidate_path doi "out" None "nosuch") (fresh [None])
     = (Raise (KeyError "nosuch"), fresh [None], [attempt_entry doi "nosuch"])
  /\ exists evs,
      forall o s2 ev2,
        @resume scripted doi "out" None ["unpaywall"]
          (Some (KeyError "nosuch")) (fresh [None]) = (o, s2, ev2) ->
        @download_article scripted doi "out" None
          (Some ([] ++ "nosuch" :: ["unpaywall"])) None (fresh [None])
        = (o, s2,
           [EvMakedirs "out"] ++ evs ++ attempt_entry doi "nosuch"
             :: EvLog WARNING (failure_msg doi "nosuch" (KeyError "nosuch"))
             :: ev2)
        /\ o <> Raise (KeyError "nosuch").
Proof.
  intros doi.
  split; [reflexivity|].
  apply (unknown_tool_is_ordinary_failure (X := scripted)
           doi "out" None None (fresh [None]) [] "nosuch" ["unpaywall"]
           (fresh [None]) [EvMakedirs "out"] (fresh [None]) None).
  - reflexivity.
  - reflexivity.
  - apply all_fail_nil.
Defined.

(** What the caller gets when the unknown name is the whole list. *)
Example unknown_tool_alone :
  outcome_of (@download_article scripted "10.1234/a.b" "out" None
                (Some ["nosuch"]) None (fresh []))
  = Raise (Exception_ "Exception"
             "All download methods failed for DOI 10.1234/a.b. Last error: 'nosuch'").
Proof. reflexivity. Qed.

(** C5 on the two identifiers of the example script. *)
Lemma static_prefix_classification_witness :
  dict_get PREPRINT_SERVER_PREFIXES (split_head "/" "10.26434/chemrxiv-2024-x6spt")
    = Some "chemRxiv"
  /\ @get_publisher_from_doi scripted "10.26434/chemrxiv-2024-x6spt" (fresh [])
     = (Ok (VStr "chemRxiv"), fresh [], [])
  /\ @select_methods scripted "10.48550/arXiv.2504.00812" None (fresh [])
     = (Ok ["paperscraper"; "arxiv"; "unpaywall"], fresh [], [])
  /\ @select_methods scripted "10.1101/2025.01.06.631505" None (fresh [])
     = (Ok ["paperscraper"; "unpaywall"], fresh [], []).
Proof.
  pose proof (static_prefix_classification (X := scripted))
    as (H & _ & _ & Ha & Hb).
  split; [reflexivity|].
  split; [apply H; reflexivity|].
  split; [apply Ha | apply Hb].
Defined.

(** C6: a publisher name with no entry in the table gives the default
    list; an explicit list is taken as it is. *)
Lemma default_list_and_override_witness :
  @setup scripted "out" None (fresh []) = (Ok tt, fresh [], [EvMakedirs "out"])
  /\ @get_publisher_from_doi scripted "10.5555/unmapped" (fresh [])
     = (Ok (VStr "Unmapped Press"), fresh [],
        [EvHttpGet "https://api.crossref.org/works/10.5555/unmapped"])
  /\ dict_get PUBLISHER_TOOL_MAP "Unmapped Press" = None
  /\ @prepare scripted "10.5555/unmapped" "out" None None (fresh [])
     = (Ok ["unpaywall"; "crossref_tdm"], fresh [],
        [EvMakedirs "out"]
          ++ [EvHttpGet "https://api.crossref.org/works/10.5555/unmapped"])
  /\ @prepare scripted "10.1002/advs.1" "out" (Some ["plos"]) None (fresh [])
     = (Ok ["plos"], fresh [], [EvMakedirs "out"])
  /\ filter is_http
       (events_of (@download_article scripted "10.1002/advs.1" "out" None
                     (Some ["plos"]) None (fresh [])))
     = [].
Proof.
  pose proof (default_list_and_override (X := scripted)) as (Ha & Hb).
  assert (H1 : @setup scripted "out" None (fresh [])
               = (Ok tt, fresh [], [EvMakedirs "out"])) by reflexivity.
  assert (H2 : @get_publisher_from_doi scripted "10.5555/unmapped" (fresh [])
               = (Ok (VStr "Unmapped Press"), fresh [],
                  [EvHttpGet "https://api.crossref.org/works/10.5555/unmapped"]))
    by reflexivity.
  assert (H3 : dict_get PUBLISHER_TOOL_MAP "Unmapped Press" = None)
    by reflexivity.
  split; [exact H1|]. split; [exact H2|]. split; [exact H3|].
  split.
  - apply (Ha "10.5555/unmapped" "out" None None _ _ _ _ _ _ H1 H2).
    right. exists "Unmapped Press". split; [reflexivity | exact H3].
  - destruct (Hb "10.1002/advs.1" "out" None ["plos"] None _ _ _ H1)
      as (Hp & _ & Hh).
    split; [exact Hp | exact Hh].
Defined.

(** C7 on the identifier of the specification and on a file name
    without extension. *)
Lemma generated_file_names_witness :
  let doi := "10.1234/a.b" in
  let tools := Some ["elsevier"; "unpaywall"; "arxiv"] in
  let s := fresh [Some not_found; None] in
  let evs := events_of (@download_article scripted doi "out" (Some "paper")
                          tools None s) in
  @prepare scripted doi "out" tools None s
    = (Ok ["elsevier"; "unpaywall"; "arxiv"], s, [EvMakedirs "out"])
  /\ filter is_call evs
     = [EvCall download_via_elsevier doi "out/paper.xml";
        EvCall download_via_unpaywall doi "out/paper.pdf"]
  /\ exists tried rest,
      ["elsevier"; "unpaywall"; "arxiv"] = tried ++ rest
      /\ filter is_call evs = flat_map (@invocation doi "out" (Some "paper")) tried
      /\ forall tool f,
          In tool tried -> dict_get TOOL_FUNCTIONS tool = Some f ->
          In (EvCall f doi
                (path_join "out"
                   ("paper" ++ (if (String.eqb tool "elsevier"
                                    || String.eqb tool "springeropen")%bool
                                then ".xml" else ".pdf"))))
             evs.
Proof.
  intros doi tools s evs.
  assert (H : @prepare scripted doi "out" tools None s
              = (Ok ["elsevier"; "unpaywall"; "arxiv"], s, [EvMakedirs "out"]))
    by reflexivity.
  split; [exact H|]. split; [reflexivity|].
  destruct (generated_file_names (X := scripted) doi "out" (Some "paper") tools
              None s ["elsevier"; "unpaywall"; "arxiv"] s [EvMakedirs "out"] H)
    as (tried & rest & Hl & _ & Hc & Hpaths & _).
  exists tried, rest. split; [exact Hl|]. split; [exact Hc|].
  intros tool f Hin Hf.
  destruct (Hpaths tool f Hin Hf) as (Hcall & _ & Hname).
  rewrite <- (Hname "paper" eq_refl ltac:(discriminate) eq_refl).
  exact Hcall.
Defined.

(** C3 as stated fails on a repeated identifier: two inputs, one entry,
    and the path stored for the first occurrence is overwritten by the
    error entry of the second. *)
Lemma batch_entries_duplicate_counterexample :
  let dois := ["10.1/a"; "10.1/a"] in
  exists d,
    outcome_of
      (@bulk_download_articles scripted dois "out" None 0 (fresh [None]))
    = Ok d
    /\ List.length d <> List.length dois
    /\ outcome_of
         (@bulk_loop scripted true "out" None 0 ["10.1/a"] [] (fresh [None]))
       = Ok [("10.1/a", "out/10.1_a.pdf")]
    /\ d = [("10.1/a",
             "ERROR: All download methods failed for DOI 10.1/a. Last error: no more scripted outcomes")].
Proof.
  intros dois. eexists. split; [vm_compute; reflexivity|].
  split; [cbn; discriminate|].
  split; reflexivity.
Qed.

(** C3 as amended, on two distinct identifiers of which the first
    fails. *)
Lemma batch_entries_distinct_witness :
  let dois := ["10.1/a"; "10.5555/unmapped"] in
  let w := [Some not_found; Some not_found; None] in
  NoDup dois
  /\ exists d s' ev,
      @bulk_download_articles scripted dois "out" None 0 (fresh w)
      = (Ok d, s', ev)
      /\ d = map (fun item => (fst item, entry_of (snd item)))
               (fst (@per_item_outcomes scripted "out" None dois (fresh w)))
      /\ List.length d = List.length dois
      /\ dict_keys d = dois
      /\ (forall u pre post,
             dois = pre ++ post ->
             exists d_pre d_post s1 ev1,
               @bulk_loop scripted u "out" None 0 pre [] (fresh w)
               = (Ok d_pre, s1, ev1)
               /\ dict_keys d_pre = pre
               /\ d = d_pre ++ d_post).
Proof.
  intros dois w.
  assert (H : NoDup dois).
  { repeat constructor; cbn; intuition discriminate. }
  split; [exact H|].
  exact (batch_entries_distinct (X := scripted) dois "out" None 0 (fresh w) H).
Defined.

(** C10, the case the claim points at: with the output directory
    "ERRORS" the path of a successful download starts with "ERROR" and the
    summary lists that identifier among the failures. *)
Example success_reported_as_failed :
  let r := @bulk_download_articles scripted
             ["10.1/a"; "10.5555/unmapped"] "ERRORS" None 0
             (fresh [Some not_found; Some not_found; None]) in
  outcome_of r
  = Ok [("10.1/a",
         "ERROR: All download methods failed for DOI 10.1/a. Last error: No open-access PDF found for DOI: 10.1234/a.b");
        ("10.5555/unmapped", "ERRORS/10.5555_unmapped.pdf")]
  /\ In (EvCall download_via_unpaywall "10.5555/unmapped"
           "ERRORS/10.5555_unmapped.pdf") (events_of r)
  /\ In (EvPrint "  - 10.5555/unmapped: ERRORS/10.5555_unmapped.pdf")
        (events_of r).
Proof.
  vm_compute. split; [reflexivity|].
  split; repeat (try (left; reflexivity); right).
Qed.

(** * Further properties of the code *)

Section MoreProperties.

Context {X : Externals}.

Ltac break_match :=
  match goal with
  | |- context [match ?x with _ => _ end] =>
      lazymatch x with
      | context [match _ with _ => _ end] => fail
      | _ => destruct x eqn:?
      end
  end.

(** ** The classifier on an unknown prefix *)

(** X1. The classifier never raises, whatever the registries do, and
    leaves the logger alone.  It sends no request, or one to CrossRef, or
    one to CrossRef followed by one to DataCite; DataCite is only asked
    after CrossRef answered with status 404. *)
Theorem classifier_never_raises doi s :
  exists v s1 ev,
    get_publisher_from_doi doi s = (Ok v, s1, ev)
    /\ handlers s1 = handlers s
    /\ level s1 = level s
    /\ (filter is_http ev = []
        \/ filter is_http ev = [EvHttpGet (crossref_url doi)]
        \/ filter is_http ev
           = [EvHttpGet (crossref_url doi); EvHttpGet (datacite_url doi)])
    /\ (List.length (filter is_http ev) = 2%nat ->
        exists r w,
          requests_get (crossref_url doi) (world s) = (Ok r, w)
          /\ status_code r = 404%Z).
Proof.
  unfold get_publisher_from_doi.
  destruct (dict_get PREPRINT_SERVER_PREFIXES (split_head "/" doi)).
  { eexists _, _, _. split; [reflexivity|]. cbn. repeat split; auto.
    discriminate. }
  unfold try_except, bind, call, val_get, raise_for_status, of_outcome,
    ret, raise, emit.
  repeat break_match;
    repeat match goal with
           | H : (_, _, _) = (_, _, _) |- _ => inversion H; subst; clear H
           end;
    eexists _, _, _; (split; [reflexivity|]);
    cbn [app filter is_http List.length handlers level world];
    (split; [reflexivity|]); (split; [reflexivity|]);
    (split;
     [first [left; reflexivity
            | right; left; reflexivity
            | right; right; reflexivity]|]);
    try (intros Hlen; discriminate Hlen);
    intros _; eexists _, _; (split; [reflexivity|]);
    apply Z.eqb_eq; assumption.
Qed.

Ltac run_classifier :=
  unfold get_publisher_from_doi, try_except, bind, call, val_get,
    raise_for_status, of_outcome, ret, raise, emit.

(** X2. On a prefix that is not in the static table: a CrossRef answer
    that is no error gives the value at message.publisher with that one
    request; a CrossRef 404 followed by a DataCite 200 gives the value at
    data.attributes.publisher after the two requests.  A missing
    publisher key gives None, and nothing is logged in either case. *)
Theorem classifier_resolved_paths :
  (forall doi s r w body m,
      dict_get PREPRINT_SERVER_PREFIXES (split_head "/" doi) = None ->
      requests_get (crossref_url doi) (world s) = (Ok r, w) ->
      (status_code r < 400 \/ 600 <= status_code r)%Z ->
      json r = Ok (VDict body) ->
      dict_get body "message" = Some (VDict m) ->
      get_publisher_from_doi doi s
      = (Ok (match dict_get m "publisher" with
             | Some p => p
             | None => VNone
             end),
         mkEnv w (handlers s) (level s),
         [EvHttpGet (crossref_url doi)]))
  /\ (forall doi s r w r2 w2 body d a,
         dict_get PREPRINT_SERVER_PREFIXES (split_head "/" doi) = None ->
         requests_get (crossref_url doi) (world s) = (Ok r, w) ->
         status_code r = 404%Z ->
         requests_get (datacite_url doi) w = (Ok r2, w2) ->
         status_code r2 = 200%Z ->
         json r2 = Ok (VDict body) ->
         dict_get body "data" = Some (VDict d) ->
         dict_get d "attributes" = Some (VDict a) ->
         get_publisher_from_doi doi s
         = (Ok (match dict_get a "publisher" with
                | Some p => p
                | None => VNone
                end),
            mkEnv w2 (handlers s) (level s),
            [EvHttpGet (crossref_url doi); EvHttpGet (datacite_url doi)])).
Proof.
  split.
  - intros doi s r w body m Hp Hget Hst Hj Hm.
    run_classifier. rewrite Hp, Hget.
    assert (E1 : (status_code r =? 404)%Z = false)
      by (apply Z.eqb_neq; lia).
    assert (E2 : ((400 <=? status_code r) && (status_code r <? 600))%Z = false).
    { apply andb_false_iff. destruct Hst; [left; apply Z.leb_gt; lia|].
      right. apply Z.ltb_ge. lia. }
    rewrite E1, E2, Hj, Hm. reflexivity.
  - intros doi s r w r2 w2 body d a Hp Hget Hst Hget2 Hst2 Hj Hd Ha.
    run_classifier. rewrite Hp, Hget, Hst. cbn [Z.eqb Pos.eqb world].
    rewrite Hget2, Hst2. cbn [Z.eqb Pos.eqb].
    rewrite Hj, Hd, Ha. reflexivity.
Qed.

(** X3. The ways the classifier ends unresolved on an unknown prefix.
    When the CrossRef request raises, or CrossRef answers with an error
    status other than 404, the result is None after that single request
    and the error is reported to the root logger.  When CrossRef
    answers 404 and DataCite answers anything but 200, the result is
    None and nothing is logged. *)
Theorem classifier_unresolved_paths :
  (forall doi s e w,
      dict_get PREPRINT_SERVER_PREFIXES (split_head "/" doi) = None ->
      requests_get (crossref_url doi) (world s) = (Raise e, w) ->
      get_publisher_from_doi doi s
      = (Ok VNone, mkEnv w (handlers s) (level s),
         [EvHttpGet (crossref_url doi);
          EvRootLog ERROR
            ("Failed to resolve DOI " ++ doi ++ " to publisher: " ++ str e)]))
  /\ (forall doi s r w,
         dict_get PREPRINT_SERVER_PREFIXES (split_head "/" doi) = None ->
         requests_get (crossref_url doi) (world s) = (Ok r, w) ->
         (400 <= status_code r < 600)%Z ->
         status_code r <> 404%Z ->
         get_publisher_from_doi doi s
         = (Ok VNone, mkEnv w (handlers s) (level s),
            [EvHttpGet (crossref_url doi);
             EvRootLog ERROR
               ("Failed to resolve DOI " ++ doi ++ " to publisher: "
                  ++ str (http_error r))]))
  /\ (forall doi s r w r2 w2,
         dict_get PREPRINT_SERVER_PREFIXES (split_head "/" doi) = None ->
         requests_get (crossref_url doi) (world s) = (Ok r, w) ->
         status_code r = 404%Z ->
         requests_get (datacite_url doi) w = (Ok r2, w2) ->
         status_code r2 <> 200%Z ->
         get_publisher_from_doi doi s
         = (Ok VNone, mkEnv w2 (handlers s) (level s),
            [EvHttpGet (crossref_url doi); EvHttpGet (datacite_url doi)])).
Proof.
  split; [|split].
  - intros doi s e w Hp Hget. run_classifier. rewrite Hp, Hget. reflexivity.
  - intros doi s r w Hp Hget Hst Hne. run_classifier. rewrite Hp, Hget.
    assert (E1 : (status_code r =? 404)%Z = false) by (apply Z.eqb_neq; lia).
    assert (E2 : ((400 <=? status_code r) && (status_code r <? 600))%Z = true).
    { apply andb_true_iff. split; [apply Z.leb_le | apply Z.ltb_lt]; lia. }
    rewrite E1, E2. reflexivity.
  - intros doi s r w r2 w2 Hp Hget Hst Hget2 Hne. run_classifier.
    rewrite Hp, Hget, Hst. cbn [Z.eqb Pos.eqb world]. rewrite Hget2.
    assert (E : (status_code r2 =? 200)%Z = false) by (apply Z.eqb_neq; lia).
    rewrite E. reflexivity.
Qed.

(** ** What [download_article] raises *)

Lemma prepare_raise_cases doi dir tools lf s e s0 ev0 :
  prepare doi dir tools lf s = (Raise e, s0, ev0) ->
  setup dir lf s = (Raise e, s0, ev0)
  \/ (tools = None
      /\ (e = Exception_ "TypeError" "unhashable type: 'list'"
          \/ e = Exception_ "TypeError" "unhashable type: 'dict'")).
Proof.
  unfold prepare, bind.
  destruct (setup dir lf s) as [[[u|e1] s1] ev1];
    [|intros H; inversion H; subst; left; reflexivity].
  destruct tools as [l|]; [cbn; discriminate|].
  unfold select_methods, bind.
  destruct (get_publisher_total doi s1) as (v & s2 & ev2 & E). rewrite E.
  destruct (truthy v); [|cbn; discriminate].
  destruct v; cbn; try discriminate;
    intros H; inversion H; subst; right; auto.
Qed.

(** X4. When the logger or the output directory cannot be set up, the
    exception of that step is what [download_article] raises, and
    nothing else has happened: the events are those of the file system
    only, so no registry was asked, no attempt started and no tool
    invoked. *)
Theorem setup_failure_is_raised doi dir fn tools lf s e s0 ev0 :
  setup dir lf s = (Raise e, s0, ev0) ->
  download_article doi dir fn tools lf s = (Raise e, s0, ev0)
  /\ forallb is_fs ev0 = true
  /\ filter is_http ev0 = []
  /\ filter is_attempt_entry ev0 = []
  /\ filter is_call ev0 = [].
Proof.
  intros H.
  assert (Hp : prepare doi dir tools lf s = (Raise e, s0, ev0)).
  { unfold prepare. apply bind_raise. exact H. }
  pose proof (setup_emits dir lf s) as E. rewrite H in E. cbn in E.
  split; [apply download_article_prepare_raise; exact Hp|].
  split; [exact E|].
  repeat split; (eapply forallb_filter_nil; [|exact E]);
    intros [] Hs; cbn in *; congruence.
Qed.

(** X5. An exception of a tool never reaches the caller.  What
    [download_article] raises is the exception of the set-up step, or
    the [TypeError] of looking up an unhashable publisher value (only
    without an explicit list), or the aggregated exception. *)
Theorem tool_errors_never_escape doi dir fn tools lf s e s1 ev :
  download_article doi dir fn tools lf s = (Raise e, s1, ev) ->
  setup dir lf s = (Raise e, s1, ev)
  \/ (tools = None
      /\ (e = Exception_ "TypeError" "unhashable type: 'list'"
          \/ e = Exception_ "TypeError" "unhashable type: 'dict'"))
  \/ exists last,
      e = Exception_ "Exception"
            (match last with
             | Some e' =>
                 "All download methods failed for DOI " ++ doi
                   ++ ". Last error: " ++ str e'
             | None => "All download methods failed for DOI " ++ doi ++ "."
             end).
Proof.
  intros H.
  destruct (prepare doi dir tools lf s) as [[[l|e0] s0] ev0] eqn:Hp.
  - destruct (resume doi dir fn l None s0) as [[o s2] ev2] eqn:Hr.
    rewrite (download_article_resume _ _ _ _ _ _ _ _ _ _ _ _ Hp Hr) in H.
    inversion H; subst.
    destruct (resume_outcome _ _ _ _ _ _ _ _ _ Hr) as [[p Ho]|[last Ho]];
      [discriminate|].
    inversion Ho; subst. right. right. exists last.
    destruct last as [e'|]; cbn [error_msg]; [|reflexivity].
    unfold all_failed_msg. rewrite !string_app_assoc. reflexivity.
  - rewrite (download_article_prepare_raise _ _ _ _ _ _ _ _ _ Hp) in H.
    inversion H; subst.
    destruct (prepare_raise_cases _ _ _ _ _ _ _ _ Hp) as [Hs|Ht];
      [left; exact Hs | right; left; exact Ht].
Qed.

(** ** The lists of the tables *)

Lemma dict_get_in_values {V : Type} (d : Dict V) k v :
  dict_get d k = Some v -> In v (map snd d).
Proof.
  induction d as [|[k' v'] r IH]; cbn; [discriminate|].
  destruct (String.eqb k' k); intros H.
  - inversion H. left. reflexivity.
  - right. apply IH. exact H.
Qed.

Lemma select_methods_default_values doi s l s1 ev :
  select_methods doi None s = (Ok l, s1, ev) ->
  l = DEFAULT_TOOLS \/ In l (map snd PUBLISHER_TOOL_MAP).
Proof.
  unfold select_methods, bind.
  destruct (get_publisher_total doi s) as (v & s2 & ev2 & E). rewrite E.
  destruct (truthy v); unfold of_outcome, ret, tool_map_get;
    [|intros H; inversion H; auto].
  destruct v as [| | |name| |];
    try (intros H; inversion H; subst; auto; fail).
  destruct (dict_get PUBLISHER_TOOL_MAP name) as [l'|] eqn:El;
    intros H; inversion H; subst; [|auto].
  right. eapply dict_get_in_values. exact El.
Qed.

(** X6. Without an explicit list every name that is tried is a key of
    [TOOL_FUNCTIONS], whatever the registries answer: the list is the
    default one or an entry of [PUBLISHER_TOOL_MAP].  So in such a run
    no attempt fails on the name lookup: an attempt of a tool of the
    list invokes that tool, at the path built for it, and when the
    attempt fails its exception is the one the tool raised. *)
Theorem derived_lists_use_known_tools doi dir fn lf s :
  (forall l s1 ev,
      select_methods doi None s = (Ok l, s1, ev) ->
      forallb known_tool l = true)
  /\ (forall l s0 ev0,
         prepare doi dir None lf s = (Ok l, s0, ev0) ->
         forallb known_tool l = true
         /\ forall tool,
             In tool l ->
             exists f,
               dict_get TOOL_FUNCTIONS tool = Some f
               /\ forall st o st' ev,
                   attempt doi tool (candidate_path doi dir fn tool) st
                   = (o, st', ev) ->
                   In (EvCall f doi (candidate_path doi dir fn tool)) ev
                   /\ run_tool f doi (candidate_path doi dir fn tool) (world st)
                      = (o, world st')).
Proof.
  assert (Hsel : forall s' l s1 ev,
             select_methods doi None s' = (Ok l, s1, ev) ->
             forallb known_tool l = true).
  { intros s' l s1 ev H.
    destruct (select_methods_default_values _ _ _ _ _ H) as [->|Hin];
      [reflexivity|].
    assert (Hall : forallb (forallb known_tool) (map snd PUBLISHER_TOOL_MAP)
                   = true) by reflexivity.
    rewrite forallb_forall in Hall. apply Hall. exact Hin. }
  split; [apply Hsel|].
  intros l s0 ev0 Hp.
  assert (Hk : forallb known_tool l = true).
  { revert Hp. unfold prepare, bind.
    destruct (setup dir lf s) as [[[u|e1] s2] ev2]; [|discriminate].
    destruct (select_methods doi None s2) as [[[l'|e'] s3] ev3] eqn:Es;
      intros H; inversion H; subst.
    eapply Hsel. exact Es. }
  split; [exact Hk|].
  intros tool Hin.
  rewrite forallb_forall in Hk. specialize (Hk tool Hin).
  unfold known_tool in Hk.
  destruct (dict_get TOOL_FUNCTIONS tool) as [f|] eqn:Hf; [|discriminate].
  exists f. split; [reflexivity|].
  intros st o st' ev.
  unfold attempt, lookup_tool, log, emit, call, bind, ret. rewrite Hf.
  destruct (run_tool f doi (candidate_path doi dir fn tool) (world st))
    as [[p|e] w]; intros H; inversion H; subst; cbn [world];
    (split; [right; left; reflexivity | reflexivity]).
Qed.

(** ** Where the files go *)




Lemma sanitize_length doi :
  String.length (sanitize doi) = String.length doi.
Proof.
  unfold sanitize. induction doi as [|c r IH]; cbn; [reflexivity|].
  rewrite IH. reflexivity.
Qed.

Lemma sanitize_fixed doi :
  sanitize doi = doi <-> all_chars allowed_char doi = true.
Proof.
  split.
  - intros H. rewrite <- H. apply sanitize_allowed.
  - unfold sanitize. induction doi as [|c r IH]; cbn; [reflexivity|].
    intros H. apply andb_true_iff in H as [Hc Hr].
    rewrite Hc, (IH Hr). reflexivity.
Qed.

(** X8. Sanitizing keeps the length of the identifier, changes nothing
    in an identifier made of allowed characters only (and only in such
    a one), and is idempotent. *)
Theorem sanitize_stable doi :
  String.length (sanitize doi) = String.length doi
  /\ (sanitize doi = doi <-> all_chars allowed_char doi = true)
  /\ sanitize (sanitize doi) = sanitize doi.
Proof.
  split; [apply sanitize_length|]. split; [apply sanitize_fixed|].
  apply sanitize_fixed, sanitize_allowed.
Qed.

(** ** Invariants of runs *)

Section Under.

Variable I : Env -> Prop.
Variable P : Event -> bool.
Hypothesis I_blind : world_blind I.

Lemma under_ret {A : Type} (a : A) : emits_under I P (ret a).
Proof. intros s H. split; [exact H | reflexivity]. Qed.

Lemma under_raise {A : Type} (e : Exc) : emits_under I P (@raise Env A e).
Proof. intros s H. split; [exact H | reflexivity]. Qed.

Lemma under_of_outcome {A : Type} (o : Outcome A) :
  emits_under I P (@of_outcome Env A o).
Proof. intros s H. split; [exact H | reflexivity]. Qed.

Lemma under_emit (ev : Event) : P ev = true -> emits_under I P (@emit Env ev).
Proof. intros Hev s H. split; [exact H|]. cbn. rewrite Hev. reflexivity. Qed.

Lemma under_call {A : Type} (f : World -> Outcome A * World) (ev : Event) :
  P ev = true -> emits_under I P (call f ev).
Proof.
  intros Hev s H. unfold call. destruct (f (world s)) as [r w].
  split; [apply I_blind; exact H|]. cbn. rewrite Hev. reflexivity.
Qed.

Lemma under_bind {A B : Type} (c : M Env A) (k : A -> M Env B) :
  emits_under I P c -> (forall a, emits_under I P (k a)) ->
  emits_under I P (bind c k).
Proof.
  intros Hc Hk s H. unfold bind. destruct (Hc s H) as (H1 & E1).
  destruct (c s) as [[[a|e] s1] ev1]; cbn in *.
  - destruct (Hk a s1 H1) as (H2 & E2).
    destruct (k a s1) as [[r s2] ev2]. cbn in *.
    split; [exact H2|]. rewrite forallb_app, E1, E2. reflexivity.
  - split; assumption.
Qed.

Lemma under_bind_ret {A B : Type} (a : A) (k : A -> M Env B) :
  emits_under I P (k a) -> emits_under I P (bind (ret a) k).
Proof.
  intros Hk s H. destruct (Hk s H) as (H1 & E1). unfold bind, ret.
  destruct (k a s) as [[r s2] ev2]. split; assumption.
Qed.

Lemma under_bind_raise {A B : Type} (e : Exc) (k : A -> M Env B) :
  emits_under I P (bind (raise e) k).
Proof. intros s H. split; [exact H | reflexivity]. Qed.

Lemma under_try {A : Type} (c : M Env A) (h : Exc -> M Env A) :
  emits_under I P c -> (forall e, emits_under I P (h e)) ->
  emits_under I P (try_except c h).
Proof.
  intros Hc Hh s H. unfold try_except. destruct (Hc s H) as (H1 & E1).
  destruct (c s) as [[[a|e] s1] ev1]; cbn in *.
  - split; assumption.
  - destruct (Hh e s1 H1) as (H2 & E2).
    destruct (h e s1) as [[r s2] ev2]. cbn in *.
    split; [exact H2|]. rewrite forallb_app, E1, E2. reflexivity.
Qed.

Hypothesis P_log : forall lvl msg, P (EvLog lvl msg) = true.
Hypothesis P_root : forall lvl msg, P (EvRootLog lvl msg) = true.
Hypothesis P_http : forall url, P (EvHttpGet url) = true.
Hypothesis P_call : forall f d p, P (EvCall f d p) = true.
Hypothesis P_makedirs : forall d, P (EvMakedirs d) = true.

Lemma under_get_publisher doi : emits_under I P (get_publisher_from_doi doi).
Proof.
  unfold get_publisher_from_doi, val_get, raise_for_status.
  destruct (dict_get PREPRINT_SERVER_PREFIXES (split_head "/" doi));
    [apply under_ret|].
  repeat first
    [ apply under_ret
    | apply under_raise
    | apply under_of_outcome
    | apply under_emit; apply P_root
    | apply under_call; apply P_http
    | apply under_bind; [|intros ?]
    | apply under_try; [|intros ?]
    | match goal with
      | |- emits_under _ _ (if ?b then _ else _) => destruct b
      | |- emits_under _ _ (match ?x with _ => _ end) => destruct x
      end ].
Qed.

Lemma under_select_methods doi tools :
  emits_under I P (select_methods doi tools).
Proof.
  unfold select_methods. destruct tools as [l|]; [apply under_ret|].
  apply under_bind; [apply under_get_publisher | intros v].
  destruct (truthy v); [apply under_of_outcome | apply under_ret].
Qed.

Lemma under_try_tools doi dir fn base l :
  forall last, emits_under I P (try_tools doi dir fn base l last).
Proof.
  induction l as [|tool rest IH]; intros last; [apply under_ret|].
  cbn [try_tools]. apply under_bind.
  - apply under_try.
    + apply under_bind; [|intros ?; apply under_ret].
      unfold attempt, lookup_tool, log.
      apply under_bind; [apply under_emit, P_log | intros _].
      destruct (dict_get TOOL_FUNCTIONS tool) as [f|];
        [|apply under_bind_raise].
      apply under_bind_ret.
      apply under_bind; [apply under_call, P_call | intros p].
      apply under_bind; [apply under_emit, P_log | intros _].
      apply under_ret.
    + intros e. apply under_bind; [apply under_emit, P_log | intros _].
      apply under_ret.
  - intros [p|e]; [apply under_ret | apply IH].
Qed.

Lemma under_conclude doi r : emits_under I P (conclude doi r).
Proof.
  destruct r as [p|last]; cbn [conclude]; [apply under_ret|].
  apply under_bind; [apply under_emit, P_log | intros _; apply under_raise].
Qed.

(** The whole of [download_article] keeps an invariant that its logging
    set-up keeps. *)
Lemma under_download_article doi dir fn tools lf :
  emits_under I P (configure_logging lf) ->
  emits_under I P (download_article doi dir fn tools lf).
Proof.
  intros Hcfg. unfold download_article, prepare, setup.
  apply under_bind.
  - apply under_bind; [|intros _; apply under_select_methods].
    apply under_bind; [exact Hcfg | intros _].
    apply under_call, P_makedirs.
  - intros l. apply under_bind; [apply under_try_tools | intros r].
    apply under_conclude.
Qed.

Hypothesis P_print : forall msg, P (EvPrint msg) = true.
Hypothesis P_sleep : forall q, P (EvSleep q) = true.

Lemma under_bulk_loop u dir lf sl dois :
  emits_under I P (configure_logging lf) ->
  forall results, emits_under I P (bulk_loop u dir lf sl dois results).
Proof.
  intros Hcfg. induction dois as [|doi rest IH]; intros results;
    [apply under_ret|].
  cbn [bulk_loop]. apply under_bind.
  - apply under_try.
    + apply under_bind; [|intros ?; apply under_ret].
      apply under_download_article. exact Hcfg.
    + intros e. apply under_bind; [|intros ?; apply under_ret].
      destruct u; [apply under_ret | apply under_emit, P_print].
  - intros results1. apply under_bind; [|intros _; apply IH].
    destruct (negb (Qle_bool sl 0)); [apply under_emit, P_sleep|apply under_ret].
Qed.

Lemma under_print_summary results : emits_under I P (print_summary results).
Proof.
  unfold print_summary. generalize (failed_of results) as failed.
  assert (Hpf : forall failed, emits_under I P (print_failed results failed)).
  { induction failed as [|d rest IH]; [apply under_ret|].
    cbn [print_failed]. unfold dict_index.
    destruct (dict_get results d); [|apply under_bind_raise].
    apply under_bind_ret.
    apply under_bind; [apply under_emit, P_print | intros _; exact IH]. }
  intros [|d rest]; [apply under_ret|].
  apply under_bind; [apply under_emit, P_print | intros _; apply Hpf].
Qed.

Lemma under_bulk dois dir lf sl :
  emits_under I P (configure_logging lf) ->
  emits_under I P (bulk_download_articles dois dir lf sl).
Proof.
  intros Hcfg. unfold bulk_download_articles.
  apply under_bind; [apply under_bulk_loop; exact Hcfg | intros results].
  apply under_bind; [|intros _; apply under_ret].
  destruct ((1 <? List.length dois)%nat && tqdm_installed)%bool;
    [apply under_print_summary | apply under_ret].
Qed.

End Under.

(** ** The log file handler *)

Lemma has_handler_blind lf :
  world_blind (fun s => has_handler lf s = true).
Proof. intros s w H. exact H. Qed.

Lemma configure_logging_reuses lf :
  emits_under (fun s => has_handler lf s = true) not_open_log
    (configure_logging (Some lf)).
Proof.
  intros s H. unfold configure_logging.
  destruct (String.eqb lf EmptyString); [split; [exact H | reflexivity]|].
  unfold bind. unfold has_handler in H. rewrite H. cbn.
  split; [exact H | reflexivity].
Qed.

(** X9. Attaching the log file.  When [os.path.abspath] is idempotent, a
    set-up of the logger for a log file that succeeds leaves a handler
    for that file attached and the level at INFO, and setting up for the
    same file again changes nothing and opens nothing. *)
Theorem log_handler_attached_once lf s s1 ev :
  (forall p, abspath (abspath p) = abspath p) ->
  lf <> EmptyString ->
  configure_logging (Some lf) s = (Ok tt, s1, ev) ->
  has_handler lf s1 = true
  /\ level s1 = Some INFO
  /\ configure_logging (Some lf) s1 = (Ok tt, s1, []).
Proof.
  intros Habs Hne H.
  assert (E : String.eqb lf EmptyString = false).
  { apply String.eqb_neq. exact Hne. }
  assert (H1 : has_handler lf s1 = true /\ level s1 = Some INFO).
  { revert H. unfold configure_logging. rewrite E. unfold bind.
    destruct (existsb (same_file (abspath lf)) (handlers s)) eqn:Ex.
    - cbn. intros H. inversion H; subst. split; [exact Ex | reflexivity].
    - unfold call.
      destruct (open_log_file (abspath lf) (world s)) as [[u|e] w];
        cbn; intros H; inversion H; subst. split; [|reflexivity].
      unfold has_handler. cbn [handlers]. rewrite existsb_app.
      cbn [existsb same_file]. rewrite !Habs, String.eqb_refl.
      rewrite orb_true_r. reflexivity. }
  destruct H1 as (Hh & Hl). split; [exact Hh|]. split; [exact Hl|].
  unfold configure_logging. rewrite E. unfold bind.
  unfold has_handler in Hh. rewrite Hh. cbn.
  destruct s1 as [w h l]. cbn in Hl. subst l. reflexivity.
Qed.

(** X10. Once a handler for the log file is attached, neither
    [download_article] nor a whole batch with that log file opens the
    file again, and the handler is still attached afterwards. *)
Theorem log_file_not_reopened lf s :
  has_handler lf s = true ->
  (forall doi dir fn tools,
      filter is_open_log
        (events_of (download_article doi dir fn tools (Some lf) s)) = []
      /\ has_handler lf
           (state_of (download_article doi dir fn tools (Some lf) s)) = true)
  /\ (forall dois dir sl,
         filter is_open_log
           (events_of (bulk_download_articles dois dir (Some lf) sl s)) = []
         /\ has_handler lf
              (state_of (bulk_download_articles dois dir (Some lf) sl s))
            = true).
Proof.
  intros H.
  assert (Hf : forall l, forallb not_open_log l = true ->
                         filter is_open_log l = []).
  { intros l. apply forallb_filter_nil. intros ev. unfold not_open_log.
    destruct (is_open_log ev); cbn; congruence. }
  split.
  - intros doi dir fn tools.
    destruct (under_download_article _ not_open_log (has_handler_blind lf)
                ltac:(reflexivity) ltac:(reflexivity) ltac:(reflexivity)
                ltac:(reflexivity) ltac:(reflexivity)
                doi dir fn tools (Some lf) (configure_logging_reuses lf) s H)
      as (H1 & H2).
    split; [apply Hf; exact H2 | exact H1].
  - intros dois dir sl.
    destruct (under_bulk _ not_open_log (has_handler_blind lf)
                ltac:(reflexivity) ltac:(reflexivity) ltac:(reflexivity)
                ltac:(reflexivity) ltac:(reflexivity) ltac:(reflexivity)
                ltac:(reflexivity)
                dois dir (Some lf) sl (configure_logging_reuses lf) s H)
      as (H1 & H2).
    split; [apply Hf; exact H2 | exact H1].
Qed.

(** X11. Without a log file the logger is left as it was: neither
    [download_article] nor a batch adds a handler or sets the level,
    and no log file is opened. *)
Theorem logger_untouched_without_log_file s :
  (forall doi dir fn tools,
      let r := download_article doi dir fn tools None s in
      handlers (state_of r) = handlers s
      /\ level (state_of r) = level s
      /\ filter is_open_log (events_of r) = [])
  /\ (forall dois dir sl,
         let r := bulk_download_articles dois dir None sl s in
         handlers (state_of r) = handlers s
         /\ level (state_of r) = level s
         /\ filter is_open_log (events_of r) = []).
Proof.
  assert (Hb : world_blind (logger_is (handlers s) (level s))).
  { intros s0 w H. exact H. }
  assert (Hcfg : emits_under (logger_is (handlers s) (level s)) not_open_log
                   (configure_logging None)).
  { apply under_ret. }
  assert (Hf : forall l, forallb not_open_log l = true ->
                         filter is_open_log l = []).
  { intros l. apply forallb_filter_nil. intros ev. unfold not_open_log.
    destruct (is_open_log ev); cbn; congruence. }
  assert (H0 : logger_is (handlers s) (level s) s) by (split; reflexivity).
  split.
  - intros doi dir fn tools r.
    destruct (under_download_article _ not_open_log Hb
                ltac:(reflexivity) ltac:(reflexivity) ltac:(reflexivity)
                ltac:(reflexivity) ltac:(reflexivity)
                doi dir fn tools None Hcfg s H0) as ((H1 & H2) & H3).
    repeat split; [exact H1 | exact H2 | apply Hf; exact H3].
  - intros dois dir sl r.
    destruct (under_bulk _ not_open_log Hb
                ltac:(reflexivity) ltac:(reflexivity) ltac:(reflexivity)
                ltac:(reflexivity) ltac:(reflexivity) ltac:(reflexivity)
                ltac:(reflexivity)
                dois dir None sl Hcfg s H0) as ((H1 & H2) & H3).
    repeat split; [exact H1 | exact H2 | apply Hf; exact H3].
Qed.

(** ** Attempt entries and the level of the logger *)

(** A log file enables the INFO records: after a preparation with a log
    file the level of the module logger is INFO. *)
Lemma log_file_enables_info doi dir tools lf s l s0 ev0 :
  lf <> EmptyString ->
  prepare doi dir tools (Some lf) s = (Ok l, s0, ev0) ->
  level s0 = Some INFO /\ isEnabledFor INFO s0 = true.
Proof.
  intros Hne Hp.
  assert (Hl : level s0 = Some INFO);
    [|split; [exact Hl | unfold isEnabledFor, getEffectiveLevel;
                         rewrite Hl; reflexivity]].
  assert (E : String.eqb lf EmptyString = false).
  { apply String.eqb_neq. exact Hne. }
  assert (Hb : world_blind (fun s' => level s' = Some INFO)).
  { intros s' w H. exact H. }
  revert Hp. unfold prepare, setup. unfold bind at 1 2.
  destruct (configure_logging (Some lf) s) as [[[u|e] s1] ev1] eqn:Ec;
    [|discriminate].
  assert (H1 : level s1 = Some INFO).
  { revert Ec. unfold configure_logging. rewrite E. unfold bind.
    destruct (existsb (same_file (abspath lf)) (handlers s)).
    - cbn. intros H. inversion H; subst. reflexivity.
    - unfold call.
      destruct (open_log_file (abspath lf) (world s)) as [[u'|e] w];
        cbn; intros H; inversion H; subst. reflexivity. }
  pose proof (under_call _ any_event Hb (os_makedirs dir)
                (EvMakedirs dir) eq_refl s1 H1) as (H2 & _).
  destruct (call (os_makedirs dir) (EvMakedirs dir) s1)
    as [[[u2|e2] s2] ev2]; [|discriminate].
  cbn [state_of fst snd] in H2.
  pose proof (under_select_methods _ any_event Hb
                ltac:(reflexivity) ltac:(reflexivity) doi tools s2 H2)
    as (H3 & _).
  destruct (select_methods doi tools s2) as [[o s3] ev3].
  cbn [state_of fst snd] in H3.
  intros H. inversion H; subst. exact H3.
Qed.

(** C1. When the first K tools of the list fail and tool K+1 succeeds,
    [download_article] returns the path that tool K+1 produced, and the
    only invocations are those of the first K+1 tools, in list order:
    none of the tools after K+1 is invoked.  The level of the module
    logger stays during the loop as the preparation left it.  When INFO
    is enabled at that level, as it is whenever a log file is given,
    the run records exactly K+1 attempt-started entries, those of the
    first K+1 tools in list order; when it is not, no attempt-started
    entry is recorded. *)
Theorem first_success_wins doi dir fn tools lf s pre tool post
    s0 ev0 s1 last1 p s2 ev :
  prepare doi dir tools lf s = (Ok (pre ++ tool :: post), s0, ev0) ->
  all_fail doi dir fn pre s0 None s1 last1 ->
  attempt doi tool (candidate_path doi dir fn tool) s1 = (Ok p, s2, ev) ->
  exists evs,
    download_article doi dir fn tools lf s = (Ok p, s2, evs)
    /\ filter is_call evs = flat_map (call_of doi dir fn) (pre ++ [tool])
    /\ level s1 = level s0
    /\ level s2 = level s0
    /\ (isEnabledFor INFO s0 = true ->
        filter (is_attempt_record s0) evs
        = map (attempt_entry doi) (pre ++ [tool])
        /\ List.length (filter (is_attempt_record s0) evs)
           = S (List.length pre))
    /\ (isEnabledFor INFO s0 = false ->
        filter (is_attempt_record s0) evs = [])
    /\ (forall f, lf = Some f -> f <> EmptyString ->
        isEnabledFor INFO s0 = true).
Proof.
  intros Hp Hall Hat.
  destruct (resume_all_fail _ _ _ _ _ _ _ _ Hall)
    as (evs & Hrun & Hatt & Hcall & _).
  destruct (prepare_no_attempt _ _ _ _ _ _ _ _ Hp) as (P1 & P2).
  destruct (attempt_events _ _ _ _ _ _ _ Hat) as (A1 & A2 & _).
  pose proof (all_fail_keeps_level _ _ _ _ _ _ _ _ Hall) as L1.
  pose proof (proj1 (attempt_keeps_logger _ _ _ _ _ _ _ Hat)) as L2.
  exists (ev0 ++ evs ++ ev).
  split; [|split; [|split; [exact L1|split; [rewrite L2; exact L1|split;
                                                        [|split]]]]].
  - eapply download_article_resume; [exact Hp|].
    apply Hrun. eapply resume_success_step. exact Hat.
  - rewrite !filter_app, P2, Hcall, A2, flat_map_app. cbn [app flat_map].
    unfold call_of at 3. rewrite app_nil_r. reflexivity.
  - intros Hinfo.
    assert (Hatts : filter (is_attempt_record s0) (ev0 ++ evs ++ ev)
                    = map (attempt_entry doi) (pre ++ [tool])).
    { rewrite (filter_ext _ _ (fun e => attempt_record_enabled s0 e Hinfo)).
      rewrite !filter_app, P1, Hatt, A1, map_app. reflexivity. }
    split; [exact Hatts|].
    rewrite Hatts, length_map, length_app. cbn. lia.
  - intros Hoff.
    rewrite (filter_ext _ (fun _ => false)
               (fun e => attempt_record_disabled s0 e Hoff)).
    induction (ev0 ++ evs ++ ev) as [|x r IH]; [reflexivity | exact IH].
  - intros f -> Hne.
    exact (proj2 (log_file_enables_info _ _ _ _ _ _ _ _ Hne Hp)).
Qed.

(** ** Pauses and printed lines of a batch *)

Lemma download_article_quiet doi dir fn tools lf s :
  filter is_print (events_of (download_article doi dir fn tools lf s)) = []
  /\ filter is_sleep (events_of (download_article doi dir fn tools lf s)) = [].
Proof.
  assert (E : emits no_print_no_sleep (download_article doi dir fn tools lf)).
  { unfold download_article. apply emits_bind.
    - eapply emits_weaken; [|apply prepare_emits].
      intros []; cbn; congruence.
    - intros l. apply emits_bind.
      + apply try_tools_emits; reflexivity.
      + intros r. apply conclude_emits. reflexivity. }
  specialize (E s).
  split; (eapply forallb_filter_nil; [|exact E]);
    intros [] H; cbn in *; congruence.
Qed.

Lemma bulk_loop_step u dir lf sl doi rest results s o s1 ev1 r s3 ev3 :
  download_article doi dir None None lf s = (o, s1, ev1) ->
  bulk_loop u dir lf sl rest (dict_set results doi (entry_of o)) s1
    = (r, s3, ev3) ->
  bulk_loop u dir lf sl (doi :: rest) results s
  = (r, s3,
     ev1
       ++ match o with
          | Ok _ => []
          | Raise e => if u then [] else [failure_line (doi, e)]
          end
       ++ (if negb (Qle_bool sl 0) then [EvSleep sl] else [])
       ++ ev3).
Proof.
  intros Ed E. cbn [bulk_loop].
  unfold bind at 1, try_except, bind at 1. rewrite Ed.
  destruct o as [p|e]; cbn [entry_of] in E.
  - cbn [ret]. unfold bind at 1.
    destruct (negb (Qle_bool sl 0)); cbn [emit ret]; rewrite E;
      rewrite app_nil_r; reflexivity.
  - destruct u; cbn [ret emit]; unfold bind at 1; cbn [ret];
      unfold bind at 1;
      destruct (negb (Qle_bool sl 0)); cbn [emit ret]; rewrite E;
      cbn [app]; rewrite ?app_nil_r, <- ?app_assoc; reflexivity.
Qed.

Lemma bulk_loop_prints_sleeps u dir lf sl dois :
  forall results s,
    filter is_sleep (events_of (bulk_loop u dir lf sl dois results s))
    = (if negb (Qle_bool sl 0)
       then repeat (EvSleep sl) (List.length dois) else [])
    /\ filter is_print (events_of (bulk_loop u dir lf sl dois results s))
       = (if u then []
          else map failure_line
                 (failures (fst (per_item_outcomes dir lf dois s)))).
Proof.
  induction dois as [|doi rest IH]; intros results s.
  - cbn. destruct (negb (Qle_bool sl 0)), u; split; reflexivity.
  - cbn [per_item_outcomes].
    destruct (download_article_quiet doi dir None None lf s) as (Q1 & Q2).
    destruct (download_article doi dir None None lf s) as [[o s1] ev1] eqn:Ed.
    cbn [events_of snd] in Q1, Q2.
    specialize (IH (dict_set results doi (entry_of o)) s1).
    destruct (bulk_loop u dir lf sl rest (dict_set results doi (entry_of o)) s1)
      as [[r s3] ev3] eqn:E.
    rewrite (bulk_loop_step _ _ _ _ _ _ _ _ _ _ _ _ _ _ Ed E).
    destruct (per_item_outcomes dir lf rest s1) as [l s2].
    cbn [events_of snd fst] in *. destruct IH as (I1 & I2).
    rewrite !filter_app, Q1, Q2, I1, I2.
    cbn [failures flat_map snd fst List.length].
    fold (failures l).
    destruct o as [p|e], u, (negb (Qle_bool sl 0)); split; reflexivity.
Qed.

Lemma printed_lines_filter {A : Type} (f : A -> string) (l : list A) :
  filter is_print (map (fun a => EvPrint (f a)) l)
  = map (fun a => EvPrint (f a)) l
  /\ filter is_sleep (map (fun a => EvPrint (f a)) l) = [].
Proof.
  induction l as [|a l (IH1 & IH2)]; [split; reflexivity|].
  cbn. rewrite IH1, IH2. split; reflexivity.
Qed.

Lemma summary_events_prints d :
  filter is_print (summary_events d) = summary_events d
  /\ filter is_sleep (summary_events d) = [].
Proof.
  unfold summary_events.
  destruct (filter (fun item => is_error_entry (snd item)) d) as [|i l];
    [split; reflexivity|].
  destruct (printed_lines_filter
              (fun item : string * string =>
                 summary_line (fst item) (snd item)) (i :: l)) as (H1 & H2).
  cbn [filter is_print is_sleep]. rewrite H1, H2. split; reflexivity.
Qed.


(** X13. The calls of [print] in a batch.  When [tqdm] is in use (more
    than one identifier and the import succeeds) there is no call of
    [print] during the loop and those of the summary come at the end;
    otherwise there is one call for each failure, at once and in input
    order, with "Failed to download <doi>: <error>", and no summary.
    The records of the loggers, which line 6 sends to the standard
    output as well, and the progress bar of [tqdm] are no calls of
    [print] and are not counted here. *)
Theorem batch_prints dois dir lf sl s :
  let use_tqdm := ((1 <? List.length dois)%nat && tqdm_installed)%bool in
  let outcomes := fst (per_item_outcomes dir lf dois s) in
  filter is_print (events_of (bulk_download_articles dois dir lf sl s))
  = if use_tqdm
    then summary_events (fold_left store outcomes [])
    else map failure_line (failures outcomes).
Proof.
  intros use_tqdm outcomes.
  destruct (bulk_download_articles_spec dois dir lf sl s) as (ev & E1 & E2).
  rewrite E2. cbn [events_of snd]. fold use_tqdm outcomes.
  pose proof (bulk_loop_prints_sleeps use_tqdm dir lf sl dois [] s)
    as (_ & H2).
  fold use_tqdm in E1. rewrite E1 in H2. cbn [events_of snd] in H2.
  rewrite filter_app, H2. fold outcomes.
  destruct use_tqdm; cbn [app].
  - apply summary_events_prints.
  - rewrite app_nil_r. reflexivity.
Qed.

End MoreProperties.

(** * Properties of the tools *)

Section ToolProperties.

Context {W : Tools.ToolWorld}.

Ltac run_tool_steps :=
  unfold Tools.get, Tools.read_env;
  unfold Tools.tbind, Tools.ttry, Tools.tcall, Tools.tret, Tools.traise,
    Tools.t_of_outcome.

Lemma write_chunks_events path chunks :
  forall w o w1 ev,
    Tools.write_chunks path chunks w = (o, w1, ev) ->
    (exists k,
        ev = map (Tools.TWrite path) (firstn k (filter Tools.nonempty chunks)))
    /\ (o = Ok tt ->
        ev = map (Tools.TWrite path) (filter Tools.nonempty chunks)).
Proof.
  induction chunks as [|chunk rest IH]; intros w o w1 ev H.
  - cbn in H. inversion H; subst. split; [exists 0%nat|]; reflexivity.
  - cbn [Tools.write_chunks] in H. unfold Tools.tbind at 1 in H.
    cbn [filter].
    assert (Hn : Tools.nonempty chunk = negb (String.eqb chunk EmptyString))
      by reflexivity.
    rewrite Hn. clear Hn.
    destruct (String.eqb chunk EmptyString); cbn [negb].
    + unfold Tools.tret at 1 in H.
      destruct (Tools.write_chunks path rest w) as [[o2 w2] ev2] eqn:E.
      inversion H; subst. cbn [app]. exact (IH _ _ _ _ E).
    + unfold Tools.tcall in H.
      destruct (Tools.write_bytes path chunk w) as [[u|e] w2].
      * destruct (Tools.write_chunks path rest w2) as [[o2 w3] ev2] eqn:E.
        inversion H; subst. destruct (IH _ _ _ _ E) as ((k & Hk) & Hok).
        split.
        -- exists (S k). cbn. rewrite Hk. reflexivity.
        -- intros Ho. cbn. rewrite (Hok Ho). reflexivity.
      * inversion H; subst. split; [exists 1%nat; reflexivity | discriminate].
Qed.

(** X14. When [_download_file] returns, it returns the path it was
    given: the request was answered with status 200, the file was opened
    and the chunks of the body that are not empty were written to it in
    order, after a single request. *)
Theorem download_file_success url path headers w p w1 ev :
  Tools._download_file url path headers w = (Ok p, w1, ev) ->
  p = path
  /\ exists r w0,
      Tools.http_get url headers None true w = (Ok r, w0)
      /\ Tools.r_status r = 200%Z
      /\ Tools.r_stream_error r = None
      /\ ev = Tools.TGet url headers None true
                :: Tools.TOpen path
                :: map (Tools.TWrite path)
                     (filter Tools.nonempty (Tools.r_chunks r)).
Proof.
  unfold Tools._download_file. run_tool_steps.
  destruct (Tools.http_get url headers None true w) as [[r|e] w0] eqn:Eg;
    cbv beta iota; [|discriminate].
  destruct (Tools.r_status r =? 200)%Z eqn:Es; cbv beta iota delta [negb];
    [|discriminate].
  destruct (Tools.open_wb path w0) as [[u|e] w2]; cbv beta iota;
    [|discriminate].
  destruct (Tools.write_chunks path (Tools.r_chunks r) w2)
    as [[[u2|e2] w3] ev3] eqn:Ew; cbv beta iota; [|discriminate].
  destruct (Tools.r_stream_error r) as [e3|] eqn:Ee; cbv beta iota;
    [discriminate|].
  intros H. inversion H; subst. split; [reflexivity|].
  exists r, w0. apply Z.eqb_eq in Es.
  destruct (write_chunks_events _ _ _ _ _ _ Ew) as (_ & Hok).
  destruct u2. rewrite (Hok eq_refl). cbn [app]. rewrite !app_nil_r.
  repeat split; assumption.
Qed.

(** X15. How [_download_file] fails.  A request that raises gives
    "Request error for <url>: ..." and a status other than 200 gives
    "Failed to download <url> (status code: <n>)"; in both cases the
    output file is not touched.  Any failure after that, be it of
    opening, of writing or of reading the body from the network, gives
    "Error writing to file <path>: ...", with the file already opened
    and a first part of the chunks possibly written. *)
Theorem download_file_failures url path headers w e w1 ev :
  Tools._download_file url path headers w = (Raise e, w1, ev) ->
  (exists e0,
      Tools.http_get url headers None true w = (Raise e0, w1)
      /\ e = Tools.exception ("Request error for " ++ url ++ ": " ++ str e0)
      /\ ev = [Tools.TGet url headers None true])
  \/ (exists r,
         Tools.http_get url headers None true w = (Ok r, w1)
         /\ Tools.r_status r <> 200%Z
         /\ e = Tools.exception
                  ("Failed to download " ++ url ++ " (status code: "
                     ++ Tools.str_int (Tools.r_status r) ++ ")")
         /\ ev = [Tools.TGet url headers None true])
  \/ (exists r w0 e0 k,
         Tools.http_get url headers None true w = (Ok r, w0)
         /\ Tools.r_status r = 200%Z
         /\ e = Tools.exception
                  ("Error writing to file " ++ path ++ ": " ++ str e0)
         /\ ev = Tools.TGet url headers None true
                   :: Tools.TOpen path
                   :: map (Tools.TWrite path)
                        (firstn k (filter Tools.nonempty (Tools.r_chunks r)))).
Proof.
  unfold Tools._download_file. run_tool_steps.
  destruct (Tools.http_get url headers None true w) as [[r|e0] w0] eqn:Eg;
    cbv beta iota.
  - destruct (Tools.r_status r =? 200)%Z eqn:Es; cbv beta iota delta [negb].
    + apply Z.eqb_eq in Es. intros H. right. right.
      destruct (Tools.open_wb path w0) as [[u|e1] w2]; cbv beta iota in H.
      * destruct (Tools.write_chunks path (Tools.r_chunks r) w2)
          as [[[u2|e2] w3] ev3] eqn:Ew; cbv beta iota in H;
          destruct (write_chunks_events _ _ _ _ _ _ Ew) as ((k & Hk) & _).
        -- destruct (Tools.r_stream_error r) as [e3|]; cbv beta iota in H;
             [|discriminate].
           inversion H; subst. exists r, w0, e3, k.
           cbn [app]. rewrite !app_nil_r. repeat split; assumption.
        -- inversion H; subst. exists r, w0, e2, k.
           cbn [app]. rewrite !app_nil_r. repeat split; assumption.
      * inversion H; subst. exists r, w0, e1, 0%nat.
        repeat split; assumption.
    + apply Z.eqb_neq in Es. intros H. right. left. inversion H; subst.
      exists r. repeat split; assumption.
  - intros H. left. inversion H; subst. exists e0. repeat split; reflexivity.
Qed.

Ltac break_goal :=
  match goal with
  | |- context [match ?x with _ => _ end] =>
      lazymatch x with
      | context [match _ with _ => _ end] => fail
      | _ => destruct x eqn:?
      end
  end.

Ltac finish_ok :=
  intros; repeat
    match goal with
    | H : (_, _, _) = (_, _, _) |- _ => inversion H; subst; clear H
    | H : Ok _ = Ok _ |- _ => inversion H; subst; clear H
    end.

Lemma download_file_returns url path headers w p w1 ev :
  Tools._download_file url path headers w = (Ok p, w1, ev) -> p = path.
Proof.
  unfold Tools._download_file. run_tool_steps.
  repeat (break_goal; cbv beta iota delta [negb]); try discriminate.
  intros H. inversion H. reflexivity.
Qed.

Lemma download_from_returns url path w p w1 ev :
  Tools.download_from url path w = (Ok p, w1, ev) -> p = path.
Proof.
  destruct url; cbn [Tools.download_from];
    try (unfold Tools.traise; discriminate).
  apply download_file_returns.
Qed.

Lemma elsevier_returns doi path w p w1 ev :
  Tools.download_via_elsevier doi path w = (Ok p, w1, ev) -> p = path.
Proof.
  unfold Tools.download_via_elsevier. run_tool_steps.
  repeat break_goal; try discriminate; finish_ok; reflexivity.
Qed.

Lemma wiley_returns doi path w p w1 ev :
  Tools.download_via_wiley doi path w = (Ok p, w1, ev) -> p = path.
Proof.
  unfold Tools.download_via_wiley. run_tool_steps.
  repeat break_goal; try discriminate; finish_ok.
  eapply download_file_returns; eassumption.
Qed.

Lemma plos_returns doi path w p w1 ev :
  Tools.download_via_plos doi path w = (Ok p, w1, ev) -> p = path.
Proof.
  unfold Tools.download_via_plos. run_tool_steps.
  repeat break_goal; try discriminate; finish_ok.
  eapply download_file_returns; eassumption.
Qed.

Lemma unpaywall_returns doi path w p w1 ev :
  Tools.download_via_unpaywall doi path w = (Ok p, w1, ev) -> p = path.
Proof.
  unfold Tools.download_via_unpaywall. run_tool_steps.
  repeat break_goal; try discriminate; finish_ok;
    eapply download_from_returns; eassumption.
Qed.

Lemma crossref_tdm_returns doi path w p w1 ev :
  Tools.download_via_crossref_tdm doi path w = (Ok p, w1, ev) -> p = path.
Proof.
  unfold Tools.download_via_crossref_tdm. run_tool_steps.
  repeat break_goal; try discriminate; finish_ok;
    eapply download_from_returns; eassumption.
Qed.

(** X16. Each of the seven modelled tools, when it returns, returns
    exactly the output path it was given. *)
Theorem tools_return_given_path f tool doi path w p w1 ev :
  modelled f = Some tool ->
  tool doi path w = (Ok p, w1, ev) ->
  p = path.
Proof.
  destruct f; cbn [modelled]; intros Hm; inversion Hm; subst; clear Hm.
  - apply elsevier_returns.
  - apply download_file_returns.
  - apply wiley_returns.
  - apply plos_returns.
  - apply unpaywall_returns.
  - apply crossref_tdm_returns.
  - apply download_file_returns.
Qed.

(** X17. A tool that needs a credential fails before any traffic when
    the environment variable is missing or empty: the Elsevier, Wiley
    and Unpaywall tools then raise their "... is not set" exception
    with no request sent and no file touched. *)
Theorem missing_credential_no_traffic doi path w :
  (Tools.unset (Tools.getenv "ELSEVIER_API_KEY" w) = true ->
   Tools.download_via_elsevier doi path w
   = (Raise (Tools.exception
               "ELSEVIER_API_KEY is not set. Please configure your Elsevier API key."),
      w, []))
  /\ (Tools.unset (Tools.getenv "WILEY_API_KEY" w) = true ->
      Tools.download_via_wiley doi path w
      = (Raise (Tools.exception
                  "WILEY_API_KEY is not set. Please configure your Wiley API key."),
         w, []))
  /\ (Tools.unset (Tools.getenv "UNPAYWALL_EMAIL" w) = true ->
      Tools.download_via_unpaywall doi path w
      = (Raise (Tools.exception
                  "UNPAYWALL_EMAIL is not set. Please set this to use Unpaywall."),
         w, [])).
Proof.
  split; [|split]; intros H;
    [unfold Tools.download_via_elsevier
    |unfold Tools.download_via_wiley
    |unfold Tools.download_via_unpaywall];
    unfold Tools.tbind at 1, Tools.read_env; rewrite H; reflexivity.
Qed.

(** X18. The Elsevier tool by status code, once the key is set and the
    request is answered.  Only status 200 touches the output file: it
    is opened and the whole body written in one piece.  Status 403 and
    404 have their own messages, any other status is reported with its
    number; in these cases the single request is the only event. *)
Theorem elsevier_by_status doi path w key r w0 :
  Tools.getenv "ELSEVIER_API_KEY" w = Some key ->
  key <> EmptyString ->
  Tools.http_get ("https://api.elsevier.com/content/article/doi/" ++ doi)
    (Some [("X-ELS-APIKey", key); ("Accept", "text/xml")])
    (Some [("view", "FULL")]) false w = (Ok r, w0) ->
  let request :=
    Tools.TGet ("https://api.elsevier.com/content/article/doi/" ++ doi)
      (Some [("X-ELS-APIKey", key); ("Accept", "text/xml")])
      (Some [("view", "FULL")]) false in
  let result := Tools.download_via_elsevier doi path w in
  (Tools.r_status r = 200%Z ->
   forall w2 w3,
     Tools.open_wb path w0 = (Ok tt, w2) ->
     Tools.write_bytes path (Tools.r_content r) w2 = (Ok tt, w3) ->
     result
     = (Ok path, w3,
        [request; Tools.TOpen path; Tools.TWrite path (Tools.r_content r)]))
  /\ (Tools.r_status r = 403%Z ->
      result
      = (Raise (Tools.exception
                  "Access denied by Elsevier API. Verify API key and access rights."),
         w0, [request]))
  /\ (Tools.r_status r = 404%Z ->
      result
      = (Raise (Tools.exception "DOI not found in Elsevier API."),
         w0, [request]))
  /\ (Tools.r_status r <> 200%Z -> Tools.r_status r <> 403%Z ->
      Tools.r_status r <> 404%Z ->
      result
      = (Raise (Tools.exception
                  ("Elsevier API request failed (status code "
                     ++ Tools.str_int (Tools.r_status r) ++ ").")),
         w0, [request]))
  /\ (Tools.r_status r <> 200%Z ->
      filter Tools.is_file_op (snd result) = []).
Proof.
  intros Hkey Hne Hget request result.
  assert (Hu : Tools.unset (Some key) = false).
  { cbn. apply String.eqb_neq. exact Hne. }
  subst result request. unfold Tools.download_via_elsevier. run_tool_steps.
  rewrite Hkey, Hu. cbn [Tools.env_value]. rewrite Hget. cbv beta iota.
  split; [|split; [|split; [|split]]].
  - intros Hs w2 w3 Ho Hw. rewrite Hs. cbv beta iota delta [Z.eqb Pos.eqb].
    rewrite Ho. cbv beta iota. rewrite Hw. reflexivity.
  - intros Hs. rewrite Hs. reflexivity.
  - intros Hs. rewrite Hs. reflexivity.
  - intros H1 H2 H3.
    rewrite (proj2 (Z.eqb_neq _ _) H1), (proj2 (Z.eqb_neq _ _) H2),
      (proj2 (Z.eqb_neq _ _) H3).
    reflexivity.
  - intros H1. rewrite (proj2 (Z.eqb_neq _ _) H1).
    destruct (Tools.r_status r =? 403)%Z; [reflexivity|].
    destruct (Tools.r_status r =? 404)%Z; reflexivity.
Qed.

(** ** The arXiv identifier *)

Lemma contains_char_app c a b :
  contains_char c (a ++ b) = (contains_char c a || contains_char c b)%bool.
Proof.
  induction a as [|x a IH]; cbn; [reflexivity|].
  rewrite IH, orb_assoc. reflexivity.
Qed.

Lemma last_segment_whole sep s :
  contains_char sep s = false -> Tools.last_segment sep s = s.
Proof. destruct s as [|c r]; intros H; cbn [Tools.last_segment]; [reflexivity|]. rewrite H. reflexivity. Qed.

Lemma last_segment_app sep a b :
  contains_char sep b = false ->
  Tools.last_segment sep (a ++ String sep b) = b.
Proof.
  intros Hb. induction a as [|c a IH]; cbn [append Tools.last_segment].
  - cbn [contains_char]. rewrite Ascii.eqb_refl. cbn [orb].
    apply last_segment_whole. exact Hb.
  - cbn [contains_char]. rewrite contains_char_app. cbn [contains_char].
    rewrite Ascii.eqb_refl. cbn [orb]. rewrite !orb_true_r. exact IH.
Qed.

Lemma lower_app a b : Tools.lower (a ++ b) = (Tools.lower a ++ Tools.lower b)%string.
Proof.
  unfold Tools.lower. induction a as [|c a IH]; cbn; [reflexivity|].
  rewrite IH. reflexivity.
Qed.

Lemma lower_length a : String.length (Tools.lower a) = String.length a.
Proof.
  unfold Tools.lower. induction a as [|c a IH]; cbn; [reflexivity|].
  rewrite IH. reflexivity.
Qed.

Lemma drop_app a b : Tools.drop (String.length a) (a ++ b) = b.
Proof. induction a as [|c a IH]; cbn; [destruct b; reflexivity | exact IH]. Qed.

Lemma arxiv_id_last_segment a b :
  contains_char "/" b = false ->
  Tools.arxiv_id (a ++ "/" ++ b) = Tools.arxiv_id b.
Proof.
  intros Hb. unfold Tools.arxiv_id.
  change (a ++ "/" ++ b)%string with (a ++ String "/" b)%string.
  rewrite (last_segment_app "/" a b Hb), (last_segment_whole "/" b Hb).
  reflexivity.
Qed.

Lemma arxiv_id_prefixed prefix id :
  contains_char "/" (prefix ++ id) = false ->
  Tools.lower prefix = "arxiv." \/ Tools.lower prefix = "arxiv:" ->
  startswith (Tools.lower id) "arxiv:" = false ->
  Tools.arxiv_id (prefix ++ id) = id.
Proof.
  intros Hs Hp Hid. unfold Tools.arxiv_id.
  rewrite (last_segment_whole "/" _ Hs).
  assert (Hlen : String.length prefix = 6%nat).
  { rewrite <- lower_length. destruct Hp as [-> | ->]; reflexivity. }
  assert (Hdrop : Tools.drop 6 (prefix ++ id) = id).
  { rewrite <- Hlen. apply drop_app. }
  rewrite lower_app. destruct Hp as [Hp | Hp]; rewrite Hp.
  - assert (E : startswith ("arxiv." ++ Tools.lower id) "arxiv." = true)
      by apply prefix_app.
    rewrite E, Hdrop, Hid. reflexivity.
  - assert (E1 : startswith ("arxiv:" ++ Tools.lower id) "arxiv." = false)
      by reflexivity.
    assert (E2 : startswith ("arxiv:" ++ Tools.lower id) "arxiv:" = true)
      by apply prefix_app.
    rewrite E1. rewrite lower_app, Hp, E2. exact Hdrop.
Qed.

(** X19. The arXiv identifier taken from a DOI.  Only the part after
    the last "/" counts, so an old-style identifier with a category
    loses the category.  A leading "arXiv." or "arXiv:" is removed
    whatever the case of its letters, and an identifier without such a
    prefix is taken as it is. *)
Theorem arxiv_identifier :
  (forall a b,
      contains_char "/" b = false ->
      Tools.arxiv_id (a ++ "/" ++ b) = Tools.arxiv_id b)
  /\ (forall prefix id,
         contains_char "/" (prefix ++ id) = false ->
         Tools.lower prefix = "arxiv." \/ Tools.lower prefix = "arxiv:" ->
         startswith (Tools.lower id) "arxiv:" = false ->
         Tools.arxiv_id (prefix ++ id) = id)
  /\ (forall id,
         contains_char "/" id = false ->
         startswith (Tools.lower id) "arxiv." = false ->
         startswith (Tools.lower id) "arxiv:" = false ->
         Tools.arxiv_id id = id).
Proof.
  split; [exact arxiv_id_last_segment | split; [exact arxiv_id_prefixed|]].
  intros id Hs H1 H2. unfold Tools.arxiv_id.
  rewrite (last_segment_whole "/" _ Hs), H1, H2. reflexivity.
Qed.

Lemma no_get_in_writes path l :
  filter Tools.is_get (map (Tools.TWrite path) l) = [].
Proof. induction l as [|x l IH]; cbn; [reflexivity | exact IH]. Qed.

Lemma no_file_op_filter_writes path l :
  filter Tools.is_file_op (map (Tools.TWrite path) l)
  = map (Tools.TWrite path) l.
Proof. induction l as [|x l IH]; cbn; [reflexivity | rewrite IH; reflexivity]. Qed.

(** [_download_file] sends exactly one request, the one for its URL. *)
Lemma download_file_one_request url path headers w :
  filter Tools.is_get (snd (Tools._download_file url path headers w))
  = [Tools.TGet url headers None true].
Proof.
  unfold Tools._download_file. run_tool_steps.
  destruct (Tools.http_get url headers None true w) as [[r|e0] w0];
    cbv beta iota; [|reflexivity].
  destruct (Tools.r_status r =? 200)%Z; cbv beta iota delta [negb];
    [|reflexivity].
  destruct (Tools.open_wb path w0) as [[u|e1] w2]; cbv beta iota;
    [|reflexivity].
  destruct (Tools.write_chunks path (Tools.r_chunks r) w2)
    as [[o w3] ev3] eqn:Ew.
  destruct (write_chunks_events _ _ _ _ _ _ Ew) as ((k & ->) & _).
  destruct o as [u2|e2]; cbv beta iota;
    [destruct (Tools.r_stream_error r); cbv beta iota|];
    cbn [snd app filter Tools.is_get];
    rewrite ?filter_app, no_get_in_writes; reflexivity.
Qed.

(** X20. The arXiv tool sends one request and one only, for
    "https://arxiv.org/pdf/<identifier>.pdf" with no headers; for the
    DOI form "<registrant>/arXiv.<id>" that is the PDF of <id>. *)
Theorem arxiv_request doi path w :
  filter Tools.is_get (snd (Tools.download_via_arxiv doi path w))
  = [Tools.TGet ("https://arxiv.org/pdf/" ++ Tools.arxiv_id doi ++ ".pdf")
       None None true]
  /\ (forall registrant id,
         doi = (registrant ++ "/arXiv." ++ id)%string ->
         contains_char "/" id = false ->
         startswith (Tools.lower id) "arxiv:" = false ->
         Tools.arxiv_id doi = id).
Proof.
  split; [apply download_file_one_request|].
  intros registrant id -> Hs Hid.
  change (registrant ++ "/arXiv." ++ id)%string
    with (registrant ++ "/" ++ ("arXiv." ++ id))%string.
  rewrite arxiv_id_last_segment by exact Hs.
  apply arxiv_id_prefixed; [exact Hs | left; reflexivity | exact Hid].
Qed.

(** ** Tools that wrap [_download_file] *)

(** X21. The Wiley and PLOS tools on a status other than 200: the
    failure of the download is raised again inside the tool's own
    message, for Wiley with the hint about the key after it, and the
    output file is not touched. *)
Theorem wrapped_status_errors doi path w :
  (forall key r w0,
      Tools.getenv "WILEY_API_KEY" w = Some key ->
      key <> EmptyString ->
      let url := ("https://api.wiley.com/onlinelibrary/tdm/v1/articles/"
                    ++ doi)%string in
      let headers := Some [("Wiley-TDM-Client-Token", key)] in
      Tools.http_get url headers None true w = (Ok r, w0) ->
      Tools.r_status r <> 200%Z ->
      Tools.download_via_wiley doi path w
      = (Raise (Tools.exception
                  ("Wiley API download failed: Failed to download " ++ url
                     ++ " (status code: " ++ Tools.str_int (Tools.r_status r)
                     ++ "). Ensure your API key is correct and you have access rights.")),
         w0, [Tools.TGet url headers None true]))
  /\ (forall r w0,
         let url := ("https://journals.plos.org/plosone/article/file?id="
                       ++ doi ++ "&type=printable")%string in
         Tools.http_get url None None true w = (Ok r, w0) ->
         Tools.r_status r <> 200%Z ->
         Tools.download_via_plos doi path w
         = (Raise (Tools.exception
                     ("PLOS download failed: Failed to download " ++ url
                        ++ " (status code: " ++ Tools.str_int (Tools.r_status r)
                        ++ ")")),
            w0, [Tools.TGet url None None true])).
Proof.
  split.
  - intros key r w0 Hkey Hne url headers Hget Hs.
    assert (Hu : Tools.unset (Some key) = false).
    { cbn. apply String.eqb_neq. exact Hne. }
    unfold Tools.download_via_wiley, Tools._download_file. run_tool_steps.
    rewrite Hkey, Hu. cbn [Tools.env_value]. fold url headers.
    rewrite Hget. cbv beta iota.
    rewrite (proj2 (Z.eqb_neq _ _) Hs). cbv beta iota delta [negb].
    cbn [app str Tools.exception].
    rewrite !string_app_assoc. reflexivity.
  - intros r w0 url Hget Hs.
    unfold Tools.download_via_plos, Tools._download_file. run_tool_steps.
    assert (Hurl : ("https://journals.plos.org/plosone/article/file"
                      ++ "?id=" ++ doi ++ "&type=printable")%string = url)
      by reflexivity.
    rewrite Hurl, Hget. cbv beta iota.
    rewrite (proj2 (Z.eqb_neq _ _) Hs). cbv beta iota delta [negb].
    cbn [app str Tools.exception]. reflexivity.
Qed.

(** ** Tools that read a JSON record *)

(** X22. The Unpaywall tool on a record it can read (status 200, a JSON
    object whose best_oa_location is an object or false).  Without a
    true url_for_pdf in that location it raises "No open-access PDF
    found for DOI: <doi>" after the one request to the API; with a URL
    there it goes on to download from that URL. *)
Theorem unpaywall_by_record doi path w email r w0 record :
  Tools.getenv "UNPAYWALL_EMAIL" w = Some email ->
  email <> EmptyString ->
  let api := ("https://api.unpaywall.org/v2/" ++ doi ++ "?email=" ++ email)%string in
  Tools.http_get api None None false w = (Ok r, w0) ->
  Tools.r_status r = 200%Z ->
  Tools.r_json r = Ok (VDict record) ->
  ((exists location, item_or_none record "best_oa_location" = VDict location)
   \/ truthy (item_or_none record "best_oa_location") = false) ->
  (truthy (oa_pdf_url record) = false ->
   Tools.download_via_unpaywall doi path w
   = (Raise (Tools.exception ("No open-access PDF found for DOI: " ++ doi)),
      w0, [Tools.TGet api None None false]))
  /\ (forall u,
         oa_pdf_url record = VStr u -> u <> EmptyString ->
         Tools.download_via_unpaywall doi path w
         = (fst (fst (Tools._download_file u path None w0)),
            snd (fst (Tools._download_file u path None w0)),
            Tools.TGet api None None false
              :: snd (Tools._download_file u path None w0))).
Proof.
  intros Hkey Hne api Hget Hs Hj Hloc.
  assert (Hu : Tools.unset (Some email) = false).
  { cbn. apply String.eqb_neq. exact Hne. }
  unfold Tools.download_via_unpaywall, Tools.get_item. run_tool_steps.
  rewrite Hkey, Hu. cbn [Tools.env_value]. fold api.
  rewrite Hget. cbv beta iota. rewrite Hs.
  cbv beta iota delta [Z.eqb Pos.eqb negb]. rewrite Hj. cbv beta iota.
  unfold oa_pdf_url, item_or_none in *.
  destruct (dict_get record "best_oa_location") as [v|].
  2:{ cbn [truthy]. cbv beta iota. split; [reflexivity | discriminate]. }
  destruct Hloc as [(location & ->)|Hf].
  - destruct location as [|i l]; cbn [truthy]; cbv beta iota;
      [split; [reflexivity | discriminate]|].
    remember (dict_get (i :: l) "url_for_pdf") as found eqn:Hfound.
    clear Hfound.
    set (x := match found with Some x => x | None => VNone end).
    split.
    + intros Hx. fold x in Hx. rewrite Hx. reflexivity.
    + intros u Hx Hune. fold x in Hx. rewrite Hx.
      cbn [truthy Tools.download_from].
      rewrite (proj2 (String.eqb_neq _ _) Hune). cbn [negb].
      destruct (Tools._download_file u path None w0) as [[o w1] ev].
      reflexivity.
  - rewrite Hf. cbv beta iota.
    assert (Hv : match v with
                 | VDict ((_ :: _) as location) =>
                     match dict_get location "url_for_pdf" with
                     | Some v0 => v0
                     | None => VNone
                     end
                 | _ => VNone
                 end = VNone).
    { destruct v as [| | | | |d]; try reflexivity.
      destruct d; [reflexivity | discriminate Hf]. }
    rewrite Hv. split; [reflexivity | discriminate].
Qed.

Lemma first_pdf_link_typed links w :
  forallb typed_link links = true ->
  Tools.first_pdf_link (map VDict links) w = (Ok (tdm_pdf_url links), w, []).
Proof.
  unfold tdm_pdf_url.
  induction links as [|link rest IH]; intros Ht; [reflexivity|].
  cbn [forallb] in Ht. apply andb_prop in Ht. destruct Ht as [Hl Hr].
  cbn [map Tools.first_pdf_link find].
  unfold Tools.get_item at 1. unfold Tools.tbind at 1, Tools.tret at 1.
  unfold is_pdf_link, typed_link in *.
  destruct (dict_get link "content-type") as [[| | |ct| |]|];
    try discriminate Hl.
  - destruct (startswith ct "application/pdf").
    + unfold Tools.get_item, Tools.tret, item_or_none. reflexivity.
    + rewrite (IH Hr). reflexivity.
  - change (startswith EmptyString "application/pdf") with false.
    cbv beta iota. rewrite (IH Hr). reflexivity.
Qed.

(** X23. The CrossRef tool on a record it can read (status 200, a JSON
    object whose message has a list of link objects with string content
    types).  It takes the URL of the first link whose content type
    starts with "application/pdf": without such a link, or with a false
    URL in it, it raises "No PDF link found via CrossRef for DOI <doi>"
    after the one request to the API; with a URL it goes on to download
    from that URL. *)
Theorem crossref_by_links doi path w r w0 body message links :
  let api := ("https://api.crossref.org/works/" ++ doi)%string in
  Tools.http_get api None None false w = (Ok r, w0) ->
  Tools.r_status r = 200%Z ->
  Tools.r_json r = Ok (VDict body) ->
  dict_get body "message" = Some (VDict message) ->
  dict_get message "link" = Some (VList (map VDict links)) ->
  forallb typed_link links = true ->
  (truthy (tdm_pdf_url links) = false ->
   Tools.download_via_crossref_tdm doi path w
   = (Raise (Tools.exception ("No PDF link found via CrossRef for DOI " ++ doi)),
      w0, [Tools.TGet api None None false]))
  /\ (forall u,
         tdm_pdf_url links = VStr u -> u <> EmptyString ->
         Tools.download_via_crossref_tdm doi path w
         = (fst (fst (Tools._download_file u path None w0)),
            snd (fst (Tools._download_file u path None w0)),
            Tools.TGet api None None false
              :: snd (Tools._download_file u path None w0))).
Proof.
  intros api Hget Hs Hj Hm Hl Ht.
  unfold Tools.download_via_crossref_tdm, Tools.get_item, Tools.iterate.
  run_tool_steps. fold api.
  rewrite Hget. cbv beta iota. rewrite Hs.
  cbv beta iota delta [Z.eqb Pos.eqb negb]. rewrite Hj. cbv beta iota.
  rewrite Hm. cbv beta iota. rewrite Hl. cbv beta iota.
  rewrite (first_pdf_link_typed links w0 Ht).
  split.
  - intros Hx. rewrite Hx. reflexivity.
  - intros u Hx Hune. rewrite Hx. cbn [truthy Tools.download_from].
    rewrite (proj2 (String.eqb_neq _ _) Hune). cbn [negb].
    destruct (Tools._download_file u path None w0) as [[o w1] ev].
    reflexivity.
Qed.

End ToolProperties.

(** * The ways [download_article] ends, and the command line *)

Section Outcomes.

Context {X : Externals}.

Lemma resume_cases doi dir fn l :
  forall last s,
    (exists pre tool post s1 last1 p s2 ev evs,
        l = pre ++ tool :: post
        /\ all_fail doi dir fn pre s last s1 last1
        /\ attempt doi tool (candidate_path doi dir fn tool) s1 = (Ok p, s2, ev)
        /\ resume doi dir fn l last s = (Ok p, s2, evs))
    \/ (exists s1 last1 evs,
           all_fail doi dir fn l s last s1 last1
           /\ resume doi dir fn l last s
              = (Raise (Exception_ "Exception" (error_msg doi last1)), s1, evs)).
Proof.
  induction l as [|tool rest IH]; intros last s.
  - right. exists s, last, [EvLog ERROR (all_failed_msg doi)].
    split; [constructor | apply resume_nil].
  - destruct (attempt doi tool (candidate_path doi dir fn tool) s)
      as [[[p|e] s1] ev] eqn:Hat.
    + left. exists [], tool, rest, s, last, p, s1, ev, ev.
      repeat split; try assumption; [constructor|].
      eapply resume_success_step. exact Hat.
    + destruct (IH (Some e) s1)
        as [(pre & t & post & s2 & last2 & p & s3 & ev3 & evs & -> & Hall & Ht & Hr)
           |(s2 & last2 & evs & Hall & Hr)].
      * left. exists (tool :: pre), t, post, s2, last2, p, s3, ev3.
        eexists. repeat split.
        -- econstructor; eassumption.
        -- exact Ht.
        -- cbn [app]. eapply resume_failure_step; eassumption.
      * right. exists s2, last2. eexists. split.
        -- econstructor; eassumption.
        -- eapply resume_failure_step; eassumption.
Qed.

(** X24. Once the list of tools is settled there are two ways for
    [download_article] to end, and no other.  Either it returns a path:
    then some tool of the list returned that path when it was attempted,
    and every tool before it in the list had been attempted and had
    failed.  Or it raises the aggregated exception: then every tool of
    the list was attempted in turn and failed, and the message carries
    the exception of the last one. *)
Theorem loop_outcomes doi dir fn tools lf s l s0 ev0 :
  prepare doi dir tools lf s = (Ok l, s0, ev0) ->
  (exists pre tool post s1 last1 p s2 ev evs,
      l = pre ++ tool :: post
      /\ all_fail doi dir fn pre s0 None s1 last1
      /\ attempt doi tool (candidate_path doi dir fn tool) s1 = (Ok p, s2, ev)
      /\ download_article doi dir fn tools lf s = (Ok p, s2, evs))
  \/ (exists s1 last1 evs,
         all_fail doi dir fn l s0 None s1 last1
         /\ download_article doi dir fn tools lf s
            = (Raise (Exception_ "Exception" (error_msg doi last1)), s1, evs)).
Proof.
  intros Hp.
  destruct (resume_cases doi dir fn l None s0)
    as [(pre & t & post & s1 & last1 & p & s2 & ev & evs & -> & Hall & Ht & Hr)
       |(s1 & last1 & evs & Hall & Hr)].
  - left. exists pre, t, post, s1, last1, p, s2, ev. eexists.
    repeat split; try eassumption.
    eapply download_article_resume; eassumption.
  - right. exists s1, last1. eexists. split; [exact Hall|].
    eapply download_article_resume; eassumption.
Qed.

Lemma filter_print_run evs :
  filter Cli.is_print_call (map Cli.Run evs) = map Cli.Run (filter is_print evs).
Proof.
  induction evs as [|ev evs IH]; [reflexivity|].
  cbn [map filter]. rewrite IH. destruct ev; reflexivity.
Qed.

Lemma filter_stderr_run evs : filter Cli.is_stderr (map Cli.Run evs) = [].
Proof. induction evs as [|ev evs IH]; [reflexivity | exact IH]. Qed.

(** X25. The command calls [print] once and once only.  It exits with
    0 exactly when [download_article], called without a tool list and
    without a log file, returned a path: the call is then a [print] to
    the standard output that names the identifier and that path, and
    there is none to the standard error.  Otherwise it exits with 1 and
    the call is a [print] to the standard error, with the text of the
    exception after "Error downloading <doi>: ", and there is none to
    the standard output.  The records of the loggers, which line 6
    sends to the standard output as well, are no calls of [print]. *)
Theorem cli_exit_code doi dir fn s code s1 evs :
  Cli.main doi dir fn s = (code, s1, evs) ->
  (code = 0%Z
   /\ exists p,
       outcome_of (download_article doi dir fn None None s) = Ok p
       /\ filter Cli.is_print_call evs
          = [Cli.Run (EvPrint ("Successfully downloaded " ++ doi ++ " to " ++ p))]
       /\ filter Cli.is_stderr evs = [])
  \/ (code = 1%Z
      /\ exists e,
          outcome_of (download_article doi dir fn None None s) = Raise e
          /\ filter Cli.is_print_call evs = []
          /\ filter Cli.is_stderr evs
             = [Cli.Stderr ("Error downloading " ++ doi ++ ": " ++ str e)]).
Proof.
  unfold Cli.main.
  destruct (download_article_quiet doi dir fn None None s) as (Hq & _).
  destruct (download_article doi dir fn None None s) as [[[p|e] s2] ev];
    cbn [events_of snd] in Hq; intros H; inversion H; subst; clear H.
  - left. split; [reflexivity|]. exists p.
    rewrite !filter_app, filter_print_run, filter_stderr_run, Hq.
    repeat split.
  - right. split; [reflexivity|]. exists e.
    rewrite !filter_app, filter_print_run, filter_stderr_run, Hq.
    repeat split.
Qed.

End Outcomes.

(** * The key file *)

(** ** [strip] and [split] *)

(** A string that does not begin with white space. *)
Lemma lstrip_headed s :
  match lstrip s with
  | EmptyString => True
  | String c _ => isspace c = false
  end.
Proof.
  induction s as [|c r IH]; cbn [lstrip]; [exact I|].
  destruct (isspace c) eqn:E; [exact IH | exact E].
Qed.

Lemma lstrip_fixed c r : isspace c = false -> lstrip (String c r) = String c r.
Proof. intros H. cbn [lstrip]. rewrite H. reflexivity. Qed.

Lemma rstrip_cons c r :
  isspace c = false ->
  exists r', rstrip (String c r) = String c r'.
Proof.
  intros H. cbn [rstrip]. destruct (rstrip r) as [|d r'].
  - rewrite H. eexists. reflexivity.
  - eexists. reflexivity.
Qed.

Lemma rstrip_idem s : rstrip (rstrip s) = rstrip s.
Proof.
  induction s as [|c r IH]; [reflexivity|].
  cbn [rstrip]. destruct (rstrip r) as [|d r'] eqn:E.
  - destruct (isspace c) eqn:Ec; [reflexivity|].
    cbn [rstrip]. rewrite Ec. reflexivity.
  - cbn [rstrip]. cbn [rstrip] in IH. rewrite IH. reflexivity.
Qed.

Lemma strip_headed s :
  match strip s with
  | EmptyString => True
  | String c _ => isspace c = false
  end.
Proof.
  unfold strip. pose proof (lstrip_headed s) as H.
  destruct (lstrip s) as [|c r]; [exact I|].
  destruct (rstrip_cons c r H) as (r' & ->). exact H.
Qed.

(** Stripping twice is stripping once. *)
Lemma strip_idem s : strip (strip s) = strip s.
Proof.
  pose proof (strip_headed s) as H. unfold strip at 1.
  destruct (strip s) as [|c r] eqn:E; [reflexivity|].
  rewrite (lstrip_fixed c r H), <- E. unfold strip. apply rstrip_idem.
Qed.




Lemma contains_lstrip c s :
  contains_char c (lstrip s) = true -> contains_char c s = true.
Proof.
  induction s as [|d r IH]; cbn [lstrip]; [trivial|].
  destruct (isspace d); [|trivial].
  intros H. cbn [contains_char]. rewrite (IH H). apply orb_true_r.
Qed.

Lemma contains_rstrip c s :
  contains_char c (rstrip s) = true -> contains_char c s = true.
Proof.
  induction s as [|d r IH]; [trivial|].
  cbn [rstrip]. destruct (rstrip r) as [|e r'] eqn:E.
  - destruct (isspace d); cbn [contains_char]; [discriminate|].
    rewrite orb_false_r. intros ->. reflexivity.
  - cbn [contains_char] in *. intros H.
    apply orb_true_iff in H as [H|H]; [rewrite H; reflexivity|].
    rewrite (IH H). apply orb_true_r.
Qed.

Lemma contains_strip c s :
  contains_char c (strip s) = true -> contains_char c s = true.
Proof. intros H. apply contains_lstrip, contains_rstrip. exact H. Qed.

Lemma free_strip c s :
  contains_char c s = false -> contains_char c (strip s) = false.
Proof.
  intros H. destruct (contains_char c (strip s)) eqn:E; [|reflexivity].
  rewrite (contains_strip _ _ E) in H. discriminate.
Qed.

(** Where the separator occurs, [split] gives two parts, the first
    without the separator. *)
Lemma split1_contains sep s :
  contains_char sep s = true ->
  exists a b, split1 sep s = (a, Some b) /\ contains_char sep a = false.
Proof.
  induction s as [|c r IH]; cbn [contains_char split1]; [discriminate|].
  destruct (Ascii.eqb c sep) eqn:E; cbn [orb].
  - intros _. exists EmptyString, r. split; reflexivity.
  - intros H. destruct (IH H) as (a & b & -> & Ha).
    exists (String c a), b. split; [reflexivity|].
    cbn [contains_char]. rewrite E, Ha. reflexivity.
Qed.

Lemma split1_app sep k v :
  contains_char sep k = false ->
  split1 sep (k ++ String sep v) = (k, Some v).
Proof.
  induction k as [|c k IH]; cbn [contains_char append split1].
  - intros _. rewrite Ascii.eqb_refl. reflexivity.
  - intros H. apply orb_false_iff in H as [Hc Hk].
    rewrite Hc, (IH Hk). reflexivity.
Qed.

(** ** The loader on one line *)

Lemma skipped_false line :
  skipped line = false ->
  line <> EmptyString /\ startswith line "#" = false
  /\ contains_char "=" line = true.
Proof.
  unfold skipped, nonempty. intros H.
  apply orb_false_iff in H as [H H3]. apply orb_false_iff in H as [H1 H2].
  apply negb_false_iff in H1, H3. apply negb_true_iff in H1.
  apply String.eqb_neq in H1. auto.
Qed.

(** The body of the loop, by what the line defines. *)
Lemma load_line_spec line environ :
  Keys.load_line line environ
  = match Keys.setting line with
    | Some kv =>
        if dict_mem environ (fst kv) then (Ok tt, environ, [])
        else if Keys.accepted kv
             then (Ok tt, dict_set environ (fst kv) (snd kv), [])
             else (Raise (Exception_ "ValueError" "embedded null byte"),
                   environ, [])
    | None => (Ok tt, environ, [])
    end.
Proof.
  unfold Keys.load_line, Keys.setting.
  destruct (skipped (strip line)) eqn:Hs; [reflexivity|].
  destruct (skipped_false _ Hs) as (_ & _ & Hc).
  destruct (split1_contains "=" _ Hc) as (a & b & -> & Ha).
  unfold bind, of_outcome, unpack, ret, Keys.environ_lacks. cbn [fst snd].
  destruct (nonempty (strip a)) eqn:Hk; cbn [andb]; [|reflexivity].
  destruct (nonempty (strip b)); [|reflexivity].
  cbn [fst snd]. destruct (dict_mem environ (strip a)); cbn [negb];
    [reflexivity|].
  unfold Keys.environ_set, Keys.accepted. cbn [fst snd].
  destruct (contains_char Keys.NUL (strip a)
            || contains_char Keys.NUL (strip b))%bool; cbn [negb];
    [reflexivity|].
  rewrite Hk, (free_strip _ _ Ha). reflexivity.
Qed.

Lemma dict_mem_get {V : Type} (d : Dict V) k :
  dict_mem d k = false <-> dict_get d k = None.
Proof. unfold dict_mem. destruct (dict_get d k); split; congruence. Qed.

Lemma load_line_keeps line environ o environ' evs :
  Keys.load_line line environ = (o, environ', evs) ->
  evs = []
  /\ (forall k v, dict_get environ k = Some v -> dict_get environ' k = Some v).
Proof.
  rewrite load_line_spec.
  destruct (Keys.setting line) as [[k v]|]; cbn [fst snd].
  - destruct (dict_mem environ k) eqn:Hm;
      [|destruct (Keys.accepted (k, v))];
      intros H; inversion H; subst; split; auto.
    intros k0 v0 H0. rewrite dict_get_set_other; [exact H0|].
    intros ->. apply dict_mem_get in Hm. congruence.
  - intros H; inversion H; subst; split; auto.
Qed.

Lemma load_lines_keeps lines :
  forall environ o environ' evs,
    Keys.load_lines lines environ = (o, environ', evs) ->
    evs = []
    /\ (forall k v, dict_get environ k = Some v -> dict_get environ' k = Some v).
Proof.
  induction lines as [|line rest IH]; intros environ o environ' evs.
  - cbn. intros H; inversion H; subst. split; auto.
  - cbn [Keys.load_lines]. unfold bind.
    destruct (Keys.load_line line environ) as [[[u|e] env1] ev1] eqn:E1;
      destruct (load_line_keeps _ _ _ _ _ E1) as (-> & K1).
    + destruct (Keys.load_lines rest env1) as [[o2 env2] ev2] eqn:E2.
      destruct (IH _ _ _ _ E2) as (-> & K2).
      intros H; inversion H; subst. split; auto.
    + intros H; inversion H; subst. split; auto.
Qed.

(** X26. Loading the key file never raises and never changes a variable
    that is set: whatever the file gives, every variable of the
    environment has its old value afterwards, and all that is reported
    is at most one warning, to the root logger. *)
Theorem load_never_overwrites config environ :
  exists environ' evs,
    Keys._load_api_keys config environ = (Ok tt, environ', evs)
    /\ (forall k v, dict_get environ k = Some v -> dict_get environ' k = Some v)
    /\ (evs = [] \/ exists e, evs = [Keys.load_warning e]).
Proof.
  unfold Keys._load_api_keys, try_except.
  destruct config as [|e|lines broken].
  - cbn. eexists _, _. repeat split; auto.
  - cbn. eexists _, _. repeat split; eauto.
  - unfold bind.
    destruct (Keys.load_lines lines environ) as [[[u|e] env1] ev1] eqn:E1;
      destruct (load_lines_keeps _ _ _ _ _ E1) as (-> & K1).
    + destruct broken as [e|]; cbn; destruct u.
      * eexists _, _. repeat split; eauto.
      * eexists _, _. repeat split; eauto.
    + cbn. eexists _, _. repeat split; eauto.
Qed.

Lemma dict_mem_keeps (environ environ' : Dict string) :
  (forall k v, dict_get environ k = Some v -> dict_get environ' k = Some v) ->
  forall k, dict_mem environ k = true -> dict_mem environ' k = true.
Proof.
  intros K k. unfold dict_mem.
  destruct (dict_get environ k) as [v|] eqn:E; [|discriminate].
  rewrite (K _ _ E). reflexivity.
Qed.

(** A run from an environment that already has the variables the first
    run ended with. *)
Lemma load_lines_again lines :
  forall environ o environ' evs,
    Keys.load_lines lines environ = (o, environ', evs) ->
    forall env2,
      (forall k, dict_mem env2 k = dict_mem environ' k) ->
      Keys.load_lines lines env2 = (o, env2, []).
Proof.
  induction lines as [|line rest IH]; intros environ o environ' evs.
  - cbn. intros H env2 _. inversion H; subst. reflexivity.
  - cbn [Keys.load_lines]. unfold bind. rewrite !load_line_spec.
    intros H env2 Hsame. rewrite load_line_spec.
    destruct (Keys.setting line) as [[k v]|]; cbn [fst snd] in *.
    + destruct (dict_mem environ k) eqn:Hm.
      * destruct (Keys.load_lines rest environ) as [[o2 env3] ev3] eqn:E2.
        inversion H; subst; clear H.
        destruct (load_lines_keeps _ _ _ _ _ E2) as (_ & K2).
        rewrite Hsame, (dict_mem_keeps _ _ K2 k Hm).
        rewrite (IH _ _ _ _ E2 env2 Hsame). reflexivity.
      * destruct (Keys.accepted (k, v)) eqn:Ha.
        -- destruct (Keys.load_lines rest (dict_set environ k v))
             as [[o2 env3] ev3] eqn:E2.
           inversion H; subst; clear H.
           destruct (load_lines_keeps _ _ _ _ _ E2) as (_ & K2).
           assert (Hk : dict_mem environ' k = true).
           { unfold dict_mem.
             rewrite (K2 k v (dict_get_set_same environ k v)). reflexivity. }
           rewrite Hsame, Hk.
           rewrite (IH _ _ _ _ E2 env2 Hsame). reflexivity.
        -- inversion H; subst; clear H. rewrite Hsame, Hm. reflexivity.
    + destruct (Keys.load_lines rest environ) as [[o2 env3] ev3] eqn:E2.
      inversion H; subst; clear H.
      rewrite (IH _ _ _ _ E2 env2 Hsame). reflexivity.
Qed.

(** X27. Loading the key file a second time changes nothing: from the
    environment the first load left, the same file gives that
    environment again, with the same warning if there was one.  This
    holds also when the load broke off on a line. *)
Theorem load_twice config environ :
  Keys._load_api_keys config (state_of (Keys._load_api_keys config environ))
  = (Ok tt, state_of (Keys._load_api_keys config environ),
     events_of (Keys._load_api_keys config environ)).
Proof.
  unfold Keys._load_api_keys, try_except, state_of, events_of.
  destruct config as [|e|lines broken]; [reflexivity | reflexivity|].
  unfold bind.
  destruct (Keys.load_lines lines environ) as [[o env1] ev1] eqn:E1.
  destruct (load_lines_keeps _ _ _ _ _ E1) as (-> & _).
  assert (E2 : Keys.load_lines lines env1 = (o, env1, [])).
  { eapply load_lines_again; [exact E1 | reflexivity]. }
  unfold ret, raise, emit.
  destruct o as [u|e]; [destruct broken as [e|]|]; cbn [fst snd app];
    rewrite E2; cbn [fst snd app]; try destruct u; reflexivity.
Qed.

Lemma load_lines_accepted lines :
  forall environ,
    forallb Keys.accepted (Keys.settings lines) = true ->
    exists environ',
      Keys.load_lines lines environ = (Ok tt, environ', [])
      /\ forall k,
          dict_get environ' k
          = match dict_get environ k with
            | Some v => Some v
            | None => dict_get (Keys.settings lines) k
            end.
Proof.
  induction lines as [|line rest IH]; intros environ Hacc.
  - exists environ. split; [reflexivity|].
    intros k. cbn. destruct (dict_get environ k); reflexivity.
  - cbn [Keys.load_lines Keys.settings] in *. unfold bind.
    rewrite load_line_spec.
    destruct (Keys.setting line) as [[k v]|]; cbn [fst snd].
    + cbn [forallb] in Hacc. apply andb_prop in Hacc as [Ha Hrest].
      rewrite Ha.
      destruct (dict_mem environ k) eqn:Hm.
      * destruct (IH environ Hrest) as (env' & -> & Hget).
        exists env'. split; [reflexivity|].
        intros k0. rewrite Hget. cbn [dict_get].
        destruct (dict_get environ k0) eqn:E0; [reflexivity|].
        destruct (String.eqb k k0) eqn:Ek; [|reflexivity].
        apply String.eqb_eq in Ek. subst k0.
        unfold dict_mem in Hm. rewrite E0 in Hm. discriminate.
      * destruct (IH (dict_set environ k v) Hrest) as (env' & -> & Hget).
        exists env'. split; [reflexivity|].
        intros k0. rewrite Hget. cbn [dict_get].
        destruct (String.eqb k k0) eqn:Ek.
        -- apply String.eqb_eq in Ek. subst k0.
           rewrite dict_get_set_same.
           apply dict_mem_get in Hm. rewrite Hm. reflexivity.
        -- apply String.eqb_neq in Ek.
           rewrite (dict_get_set_other environ k0 k v Ek). reflexivity.
    + destruct (IH environ Hacc) as (env' & -> & Hget).
      exists env'. split; [reflexivity | exact Hget].
Qed.

(** X28. What a key file sets.  When no name and no value of the file
    holds a NUL character, the load completes without a warning, and a
    variable then has the value it had before if it was set, otherwise
    the value of the first line of the file that defines it with a
    value that is not empty, and stays unset if there is no such line.
    Blank lines, comment lines and lines without "=" define nothing. *)
Theorem first_definition_wins lines environ :
  forallb Keys.accepted (Keys.settings lines) = true ->
  exists environ',
    Keys._load_api_keys (Keys.Lines lines None) environ = (Ok tt, environ', [])
    /\ forall k,
        dict_get environ' k
        = match dict_get environ k with
          | Some v => Some v
          | None => dict_get (Keys.settings lines) k
          end.
Proof.
  intros Hacc. destruct (load_lines_accepted lines environ Hacc)
    as (env' & Hrun & Hget).
  exists env'. split; [|exact Hget].
  unfold Keys._load_api_keys, try_except, bind. rewrite Hrun. reflexivity.
Qed.

(** * [configure.main] *)

Section ConfigureProperties.

Context {U : Configure.Terminal}.

Lemma dict_set_forall {V : Type} (P : string * V -> Prop) (d : Dict V) k v :
  Forall P d -> P (k, v) -> Forall P (dict_set d k v).
Proof.
  induction d as [|[k' v'] r IH]; cbn [dict_set]; intros Hd Hp.
  - constructor; [exact Hp | constructor].
  - inversion Hd; subst. destruct (String.eqb k' k) eqn:E.
    + apply String.eqb_eq in E. subst k'. constructor; assumption.
    + constructor; [assumption | apply IH; assumption].
Qed.

Lemma dict_get_absent {V : Type} (d : Dict V) k :
  ~ In k (dict_keys d) -> dict_get d k = None.
Proof.
  unfold dict_keys. induction d as [|[k' v'] r IH]; cbn; [reflexivity|].
  intros H. destruct (String.eqb k' k) eqn:E.
  - apply String.eqb_eq in E. tauto.
  - apply IH. tauto.
Qed.

(** The values read from the existing file are stripped. *)
Lemma read_existing_stripped lines :
  forall existing o existing',
    Forall (fun kv => strip (snd kv) = snd kv) existing ->
    Configure.read_existing lines existing = (o, existing') ->
    Forall (fun kv => strip (snd kv) = snd kv) existing'.
Proof.
  induction lines as [|line rest IH]; intros existing o existing' Hs;
    cbn [Configure.read_existing].
  - intros H; inversion H; subst. exact Hs.
  - destruct (skipped (strip line)); [apply IH; exact Hs|].
    destruct (unpack (split1 "=" (strip line))) as [[key val]|e].
    + apply IH. apply dict_set_forall; [exact Hs | apply strip_idem].
    + intros H; inversion H; subst. exact Hs.
Qed.

Lemma load_existing_stripped config :
  Forall (fun kv => strip (snd kv) = snd kv) (fst (Configure.load_existing config)).
Proof.
  destruct config as [|e|lines broken]; cbn [Configure.load_existing fst];
    try constructor.
  destruct (Configure.read_existing lines []) as [[u|e] existing] eqn:E;
    [destruct broken|]; cbn [fst];
    (eapply read_existing_stripped; [|exact E]); constructor.
Qed.

Lemma written_app l1 l2 :
  Configure.written (l1 ++ l2) = Configure.written l1 ++ Configure.written l2.
Proof.
  induction l1 as [|ev l1 IH]; [reflexivity|].
  destruct ev; cbn [app Configure.written]; rewrite IH; reflexivity.
Qed.

Lemma saved_app l1 l2 :
  Configure.saved (l1 ++ l2) = (Configure.saved l1 || Configure.saved l2)%bool.
Proof. apply existsb_app. Qed.

Lemma load_existing_events config :
  Configure.written (snd (Configure.load_existing config)) = []
  /\ Configure.saved (snd (Configure.load_existing config)) = false.
Proof.
  destruct config as [|e|lines broken]; cbn [Configure.load_existing snd];
    try (split; reflexivity).
  destruct (Configure.read_existing lines []) as [[u|e] existing];
    [destruct broken|]; split; reflexivity.
Qed.

(** The questions write nothing. *)
Lemma ask_events prompts existing :
  forall keys0 w o w1 evs,
    Configure.ask prompts existing keys0 w = (o, w1, evs) ->
    Configure.written evs = [] /\ Configure.saved evs = false.
Proof.
  induction prompts as [|[key description] rest IH]; intros keys0 w o w1 evs;
    cbn [Configure.ask].
  - intros H; inversion H; subst. split; reflexivity.
  - destruct (Configure.has_value existing key);
      unfold Configure.cbind at 1, Configure.ccall;
      match goal with
      | |- context [Configure.input ?p w] =>
          destruct (Configure.input p w) as [[a|e] w2]
      end;
      try (intros H; inversion H; subst; split; reflexivity);
      match goal with
      | |- context [if ?b then _ else _] => destruct b
      end;
      match goal with
      | |- context [Configure.ask rest existing ?k ?w'] =>
          destruct (Configure.ask rest existing k w') as [[o2 w3] ev2] eqn:E
      end;
      destruct (IH _ _ _ _ _ E) as (Hw & Hs);
      intros H; inversion H; subst; cbn [app Configure.written];
      (split; [exact Hw | exact Hs]).
Qed.

(** The mapping the questions build: the names of [key_prompts] that got
    a value, in that order, each with a stripped value that is not
    empty. *)
Lemma ask_keys prompts existing :
  Forall (fun kv => strip (snd kv) = snd kv) existing ->
  forall keys0 w keys w1 evs,
    NoDup (map fst prompts) ->
    (forall k, In k (map fst prompts) -> ~ In k (dict_keys keys0)) ->
    Configure.ask prompts existing keys0 w = (Ok keys, w1, evs) ->
    exists added,
      keys = keys0 ++ added
      /\ map fst added = filter (dict_mem added) (map fst prompts)
      /\ Forall (fun kv => snd kv <> EmptyString /\ strip (snd kv) = snd kv)
           added.
Proof.
  intros Hex.
  induction prompts as [|[key description] rest IH];
    intros keys0 w keys w1 evs Hnd Hfresh; cbn [Configure.ask].
  - intros H; inversion H; subst. exists []. rewrite app_nil_r.
    repeat split; constructor.
  - cbn [map fst] in Hnd, Hfresh. inversion Hnd as [|? ? Hnin Hnd']; subst.
    assert (Hset : forall v w2 w3 ev2,
               v <> EmptyString -> strip v = v ->
               Configure.ask rest existing (dict_set keys0 key v) w2
               = (Ok keys, w3, ev2) ->
               exists added,
                 keys = keys0 ++ added
                 /\ map fst added
                    = filter (dict_mem added) (map fst ((key, description) :: rest))
                 /\ Forall (fun kv => snd kv <> EmptyString
                                      /\ strip (snd kv) = snd kv) added).
    { intros v w2 w3 ev2 Hv1 Hv2 Hrun.
      rewrite dict_set_fresh in Hrun by (apply Hfresh; left; reflexivity).
      assert (Hfresh' : forall k, In k (map fst rest) ->
                                  ~ In k (dict_keys (keys0 ++ [(key, v)]))).
      { intros k Hk. unfold dict_keys. rewrite map_app, in_app_iff.
        cbn. intros [Hin|[<-|[]]];
          [apply (Hfresh k (or_intror Hk)); exact Hin | contradiction]. }
      destruct (IH _ _ _ _ _ Hnd' Hfresh' Hrun)
        as (added & -> & Hkeys & Hgood).
      exists ((key, v) :: added). rewrite <- app_assoc. split; [reflexivity|].
      split; [|constructor; [split; assumption | exact Hgood]].
      cbn [map fst filter]. unfold dict_mem at 1. cbn [dict_get].
      rewrite String.eqb_refl. f_equal. rewrite Hkeys at 1.
      apply filter_ext_in. intros k Hk. unfold dict_mem. cbn [dict_get].
      destruct (String.eqb key k) eqn:E; [|reflexivity].
      apply String.eqb_eq in E. subst k. contradiction. }
    assert (Hskip : forall w2 w3 ev2,
               Configure.ask rest existing keys0 w2 = (Ok keys, w3, ev2) ->
               exists added,
                 keys = keys0 ++ added
                 /\ map fst added
                    = filter (dict_mem added) (map fst ((key, description) :: rest))
                 /\ Forall (fun kv => snd kv <> EmptyString
                                      /\ strip (snd kv) = snd kv) added).
    { intros w2 w3 ev2 Hrun.
      destruct (IH _ _ _ _ _ Hnd' (fun k Hk => Hfresh k (or_intror Hk)) Hrun)
        as (added & -> & Hkeys & Hgood).
      exists added. split; [reflexivity|]. split; [|exact Hgood].
      cbn [map fst filter].
      assert (Hno : dict_mem added key = false).
      { apply dict_mem_get, dict_get_absent. unfold dict_keys.
        rewrite Hkeys. intros Hin. apply filter_In in Hin as [Hin _].
        contradiction. }
      rewrite Hno. exact Hkeys. }
    destruct (Configure.has_value existing key) eqn:Hv;
      unfold Configure.cbind at 1, Configure.ccall;
      match goal with
      | |- context [Configure.input ?p w] =>
          destruct (Configure.input p w) as [[a|e] w2]
      end; try discriminate.
    + destruct (String.eqb (strip a) EmptyString) eqn:Ea;
        match goal with
        | |- context [Configure.ask rest existing ?k ?w'] =>
            destruct (Configure.ask rest existing k w') as [[o2 w3] ev2] eqn:E
        end; intros H; inversion H; subst; clear H.
      * unfold Configure.has_value, Configure.value_of in *.
        destruct (dict_get existing key) as [v|] eqn:Eg; [|discriminate].
        eapply Hset; [| |exact E].
        -- unfold nonempty in Hv. apply negb_true_iff, String.eqb_neq in Hv.
           exact Hv.
        -- apply dict_get_in_values, in_map_iff in Eg.
           destruct Eg as (kv & <- & Hin).
           exact (proj1 (Forall_forall _ _) Hex _ Hin).
      * eapply Hset; [| |exact E].
        -- apply String.eqb_neq. exact Ea.
        -- apply strip_idem.
    + destruct (String.eqb (strip a) EmptyString) eqn:Ea; cbn [negb];
        match goal with
        | |- context [Configure.ask rest existing ?k ?w'] =>
            destruct (Configure.ask rest existing k w') as [[o2 w3] ev2] eqn:E
        end; intros H; inversion H; subst; clear H.
      * eapply Hskip. exact E.
      * eapply Hset; [| |exact E].
        -- apply String.eqb_neq. exact Ea.
        -- apply strip_idem.
Qed.

Lemma write_keys_events items :
  forall w o w1 evs,
    Configure.write_keys items w = (o, w1, evs) ->
    (exists n, Configure.written evs
               = firstn n (map Configure.key_line items))
    /\ (o = Ok tt -> Configure.written evs = map Configure.key_line items)
    /\ Configure.saved evs = false.
Proof.
  induction items as [|item rest IH]; intros w o w1 evs;
    cbn [Configure.write_keys].
  - intros H; inversion H; subst. repeat split. exists 0%nat. reflexivity.
  - unfold Configure.cbind at 1, Configure.ccall.
    destruct (Configure.write (Configure.key_line item) w) as [[u|e] w2].
    + destruct (Configure.write_keys rest w2) as [[o2 w3] ev2] eqn:E.
      destruct (IH _ _ _ _ E) as ((n & Hn) & Hok & Hs).
      intros H; inversion H; subst; clear H.
      cbn [app Configure.written map]. repeat split.
      * exists (S n). cbn [firstn]. rewrite Hn. reflexivity.
      * intros Ho. rewrite (Hok Ho). reflexivity.
      * exact Hs.
    + intros H; inversion H; subst; clear H. repeat split.
      * exists 1%nat. reflexivity.
      * discriminate.
Qed.

Lemma key_names_distinct : NoDup (map fst Configure.key_prompts).
Proof.
  cbn. repeat (constructor; [cbn; intuition discriminate|]). constructor.
Qed.

Lemma written_print line : Configure.written [Configure.CPrint line] = [].
Proof. reflexivity. Qed.

Lemma written_open : Configure.written [Configure.COpen] = [].
Proof. reflexivity. Qed.

Lemma saved_open : Configure.saved [Configure.COpen] = false.
Proof. reflexivity. Qed.

Lemma saved_opening :
  Configure.saved
    [Configure.CPrint "Configuring API keys for fulltext-article-downloader."]
  = false
  /\ Configure.saved
       [Configure.CPrint
          "Press Enter without typing to keep an existing value or skip setting a new one."]
     = false.
Proof. split; reflexivity. Qed.

Lemma saved_error e :
  Configure.saved
    [Configure.CPrint ("Error: Could not write configuration file: " ++ str e)]
  = false.
Proof. reflexivity. Qed.

Lemma saved_saved :
  Configure.saved
    [Configure.CPrint ("Configuration saved to " ++ Configure.config_path)]
  = true.
Proof.
  unfold Configure.saved. cbn [existsb]. rewrite String.eqb_refl. reflexivity.
Qed.

Ltac tidy_run :=
  repeat rewrite written_app; repeat rewrite saved_app;
  rewrite ?written_print, ?written_open, ?saved_open, ?saved_error,
    ?saved_saved, ?(proj1 saved_opening), ?(proj2 saved_opening).

(** What a run of [main] hands to [f.write]. *)
Lemma main_keys config w o w1 evs :
  Configure.main config w = (o, w1, evs) ->
  exists keys n,
    Configure.written evs = firstn n (map Configure.key_line keys)
    /\ (Configure.saved evs = true ->
        Configure.written evs = map Configure.key_line keys)
    /\ map fst keys = filter (dict_mem keys) (map fst Configure.key_prompts)
    /\ Forall (fun kv => snd kv <> EmptyString /\ strip (snd kv) = snd kv) keys.
Proof.
  unfold Configure.main.
  pose proof (load_existing_stripped config) as Hex.
  destruct (load_existing_events config) as (Hw0 & Hs0).
  destruct (Configure.load_existing config) as [existing warned].
  cbn [fst snd] in Hex, Hw0, Hs0.
  remember (Configure.ask Configure.key_prompts existing []) as asked
    eqn:Hasked.
  unfold Configure.cbind, Configure.print, Configure.ctry, Configure.ccall.
  cbv beta iota.
  destruct (asked w) as [[[keys|e] w2] ev2] eqn:Ea; subst asked;
    destruct (ask_events _ _ _ _ _ _ _ Ea) as (Hw2 & Hs2).
  - destruct (ask_keys _ _ Hex [] w keys w2 ev2 key_names_distinct
                (fun k _ (H : In k []) => H) Ea)
      as (added & Hadd & Hkeys & Hgood).
    cbn [app] in Hadd. subst keys.
    destruct (Configure.open_w w2) as [[u|e] w3].
    + destruct (Configure.write_keys added w3) as [[[u2|e2] w4] ev4] eqn:Ew;
        destruct (write_keys_events _ _ _ _ _ Ew) as ((n & Hn) & Hok & Hs4);
        intros H; apply (f_equal snd) in H; cbn [snd] in H; subst evs;
        exists added, n; tidy_run;
        rewrite ?Hw0, ?Hs0, ?Hw2, ?Hs2, ?Hs4;
        cbn [app orb]; rewrite ?app_nil_r.
      * repeat split; try assumption. intros _. apply Hok. destruct u2.
        reflexivity.
      * repeat split; try assumption. discriminate.
    + intros H; apply (f_equal snd) in H; cbn [snd] in H; subst evs.
      exists added, 0%nat. tidy_run.
      rewrite ?Hw0, ?Hs0, ?Hw2, ?Hs2. cbn [app orb firstn].
      repeat split; try assumption. discriminate.
  - intros H; apply (f_equal snd) in H; cbn [snd] in H; subst evs.
    exists [], 0%nat. tidy_run.
    rewrite ?Hw0, ?Hs0, ?Hw2, ?Hs2. cbn [app orb firstn map].
    repeat split; try constructor; discriminate.
Qed.

(** X29. Whatever the existing file holds and whatever is typed,
    [main] hands to the file only lines "<name>=<value>" for names of
    [key_prompts]: the names that got a value, each once and in the
    order of [key_prompts], each with a value that is stripped and not
    empty.  Entries of the existing file under any other name are not
    written back.  The lines written are a first part of these, and all
    of them when "Configuration saved to ..." is printed. *)
Theorem configure_writes_known_keys config w o w1 evs :
  Configure.main config w = (o, w1, evs) ->
  exists keys n,
    Configure.written evs = firstn n (map Configure.key_line keys)
    /\ (Configure.saved evs = true ->
        Configure.written evs = map Configure.key_line keys)
    /\ map fst keys = filter (dict_mem keys) (map fst Configure.key_prompts)
    /\ Forall (fun kv => snd kv <> EmptyString /\ strip (snd kv) = snd kv) keys.
Proof. exact (main_keys config w o w1 evs). Qed.

(** ** Reading back what was written *)







End ConfigureProperties.

(** * The further properties on concrete runs *)

Lemma classifier_resolved_paths_witness :
  let doi := "10.9999/x" in
  let body := [("message", VDict [("publisher", VStr "Wiley")])] in
  let r := mkResponse 200 (Exception_ "HTTPError" "Server Error for url")
             (Ok (VDict body)) in
  dict_get PREPRINT_SERVER_PREFIXES (split_head "/" doi) = None
  /\ @requests_get registry_world (crossref_url doi) [Ok r] = (Ok r, [])
  /\ @get_publisher_from_doi registry_world doi (registry_env [Ok r])
     = (Ok (VStr "Wiley"), registry_env [], [EvHttpGet (crossref_url doi)]).
Proof.
  intros doi body r.
  pose proof (classifier_resolved_paths (X := registry_world)) as (Ha & _).
  split; [reflexivity|]. split; [reflexivity|].
  exact (Ha doi (registry_env [Ok r]) r [] body
           [("publisher", VStr "Wiley")]
           eq_refl eq_refl (or_introl eq_refl) eq_refl eq_refl).
Defined.

Lemma classifier_unresolved_paths_witness :
  let doi := "10.9999/x" in
  let e := Exception_ "ConnectionError" "network is unreachable" in
  dict_get PREPRINT_SERVER_PREFIXES (split_head "/" doi) = None
  /\ @requests_get registry_world (crossref_url doi) [Raise e] = (Raise e, [])
  /\ @get_publisher_from_doi registry_world doi (registry_env [Raise e])
     = (Ok VNone, registry_env [],
        [EvHttpGet (crossref_url doi);
         EvRootLog ERROR
           "Failed to resolve DOI 10.9999/x to publisher: network is unreachable"]).
Proof.
  intros doi e.
  pose proof (classifier_unresolved_paths (X := registry_world)) as (Ha & _).
  split; [reflexivity|]. split; [reflexivity|].
  exact (Ha doi (registry_env [Raise e]) e [] eq_refl eq_refl).
Defined.

Lemma setup_failure_is_raised_witness :
  let e := Exception_ "PermissionError"
             "[Errno 13] Permission denied: '/proc/forbidden'" in
  @setup scripted "/proc/forbidden" None (fresh [])
    = (Raise e, fresh [], [EvMakedirs "/proc/forbidden"])
  /\ @download_article scripted "10.1234/a.b" "/proc/forbidden" None None None
       (fresh [])
     = (Raise e, fresh [], [EvMakedirs "/proc/forbidden"]).
Proof.
  intros e.
  assert (H : @setup scripted "/proc/forbidden" None (fresh [])
              = (Raise e, fresh [], [EvMakedirs "/proc/forbidden"]))
    by reflexivity.
  split; [exact H|].
  exact (proj1 (setup_failure_is_raised (X := scripted)
                  "10.1234/a.b" "/proc/forbidden" None None None
                  (fresh []) e (fresh []) [EvMakedirs "/proc/forbidden"] H)).
Defined.

Lemma tool_errors_never_escape_witness :
  let doi := "10.1234/a.b" in
  let e := Exception_ "Exception"
             ("All download methods failed for DOI 10.1234/a.b. Last error: "
                ++ str not_found) in
  exists ev,
    @download_article scripted doi "out" None (Some ["unpaywall"]) None
      (fresh [Some not_found]) = (Raise e, fresh [], ev)
    /\ (@setup scripted "out" None (fresh [Some not_found])
          = (Raise e, fresh [], ev)
        \/ (Some ["unpaywall"] = None
            /\ (e = Exception_ "TypeError" "unhashable type: 'list'"
                \/ e = Exception_ "TypeError" "unhashable type: 'dict'"))
        \/ exists last,
            e = Exception_ "Exception"
                  (match last with
                   | Some e' =>
                       "All download methods failed for DOI " ++ doi
                         ++ ". Last error: " ++ str e'
                   | None => "All download methods failed for DOI " ++ doi ++ "."
                   end)).
Proof.
  intros doi e. eexists. split; [reflexivity|].
  eapply (tool_errors_never_escape (X := scripted)). reflexivity.
Defined.


Lemma log_handler_attached_once_witness :
  let s1 := @mkEnv scripted [] [FileHandler "/work/run.log"] (Some INFO) in
  (forall p, @abspath scripted (@abspath scripted p) = @abspath scripted p)
  /\ "run.log" <> EmptyString
  /\ @configure_logging scripted (Some "run.log") (fresh [])
     = (Ok tt, s1, [EvOpenLog "/work/run.log"])
  /\ has_handler "run.log" s1 = true
  /\ level s1 = Some INFO
  /\ @configure_logging scripted (Some "run.log") s1 = (Ok tt, s1, []).
Proof.
  intros s1.
  assert (H1 : forall p, @abspath scripted (@abspath scripted p)
                         = @abspath scripted p).
  { intros p. cbn [abspath scripted]. unfold scripted_abspath.
    destruct (startswith p "/") eqn:E; [rewrite E|]; reflexivity. }
  assert (H2 : "run.log" <> EmptyString) by discriminate.
  assert (H3 : @configure_logging scripted (Some "run.log") (fresh [])
               = (Ok tt, s1, [EvOpenLog "/work/run.log"])) by reflexivity.
  split; [exact H1|]. split; [exact H2|]. split; [exact H3|].
  exact (log_handler_attached_once (X := scripted) "run.log" (fresh []) s1
           [EvOpenLog "/work/run.log"] H1 H2 H3).
Defined.

Lemma log_file_not_reopened_witness :
  let s := @mkEnv scripted [None] [FileHandler "/work/run.log"] (Some INFO) in
  has_handler "run.log" s = true
  /\ filter is_open_log
       (events_of (@download_article scripted "10.1234/a.b" "out" None
                     (Some ["unpaywall"]) (Some "run.log") s)) = []
  /\ has_handler "run.log"
       (state_of (@download_article scripted "10.1234/a.b" "out" None
                    (Some ["unpaywall"]) (Some "run.log") s)) = true.
Proof.
  intros s.
  assert (H : has_handler "run.log" s = true) by reflexivity.
  split; [exact H|].
  exact (proj1 (log_file_not_reopened (X := scripted) "run.log" s H)
           "10.1234/a.b" "out" None (Some ["unpaywall"])).
Defined.


Lemma download_file_success_witness :
  let url := "https://x.org/a.pdf" in
  let w := mkToolState [] [page 200 VNone] false in
  let ev := [Tools.TGet url None None true; Tools.TOpen "out/a.pdf";
             Tools.TWrite "out/a.pdf" "PDF"; Tools.TWrite "out/a.pdf" "DATA"] in
  @Tools._download_file scripted_tools url "out/a.pdf" None w
    = (Ok "out/a.pdf", mkToolState [] [] false, ev)
  /\ exists r w0,
      @Tools.http_get scripted_tools url None None true w = (Ok r, w0)
      /\ Tools.r_status r = 200%Z
      /\ Tools.r_stream_error r = None
      /\ ev = Tools.TGet url None None true
                :: Tools.TOpen "out/a.pdf"
                :: map (Tools.TWrite "out/a.pdf")
                     (filter Tools.nonempty (Tools.r_chunks r)).
Proof.
  intros url w ev.
  assert (H : @Tools._download_file scripted_tools url "out/a.pdf" None w
              = (Ok "out/a.pdf", mkToolState [] [] false, ev)) by reflexivity.
  split; [exact H|].
  exact (proj2 (download_file_success (W := scripted_tools) url "out/a.pdf"
                  None w "out/a.pdf" (mkToolState [] [] false) ev H)).
Defined.

Lemma download_file_failures_witness :
  let url := "https://x.org/a.pdf" in
  let w := mkToolState [] [page 404 VNone] false in
  let e := Tools.exception
             "Failed to download https://x.org/a.pdf (status code: 404)" in
  let w1 := mkToolState [] [] false in
  let ev := [Tools.TGet url None None true] in
  @Tools._download_file scripted_tools url "out/a.pdf" None w = (Raise e, w1, ev)
  /\ ((exists e0,
          @Tools.http_get scripted_tools url None None true w = (Raise e0, w1)
          /\ e = Tools.exception ("Request error for " ++ url ++ ": " ++ str e0)
          /\ ev = [Tools.TGet url None None true])
      \/ (exists r,
             @Tools.http_get scripted_tools url None None true w = (Ok r, w1)
             /\ Tools.r_status r <> 200%Z
             /\ e = Tools.exception
                      ("Failed to download " ++ url ++ " (status code: "
                         ++ Tools.str_int (Tools.r_status r) ++ ")")
             /\ ev = [Tools.TGet url None None true])
      \/ (exists r w0 e0 k,
             @Tools.http_get scripted_tools url None None true w = (Ok r, w0)
             /\ Tools.r_status r = 200%Z
             /\ e = Tools.exception
                      ("Error writing to file " ++ "out/a.pdf" ++ ": " ++ str e0)
             /\ ev = Tools.TGet url None None true
                       :: Tools.TOpen "out/a.pdf"
                       :: map (Tools.TWrite "out/a.pdf")
                            (firstn k (filter Tools.nonempty (Tools.r_chunks r))))).
Proof.
  intros url w e w1 ev.
  assert (H : @Tools._download_file scripted_tools url "out/a.pdf" None w
              = (Raise e, w1, ev)) by reflexivity.
  split; [exact H|].
  exact (download_file_failures (W := scripted_tools) url "out/a.pdf" None w
           e w1 ev H).
Defined.

Lemma tools_return_given_path_witness :
  let w := mkToolState [] [page 200 VNone] false in
  let ev := [Tools.TGet "https://arxiv.org/pdf/2504.00812.pdf" None None true;
             Tools.TOpen "out/a.pdf";
             Tools.TWrite "out/a.pdf" "PDF"; Tools.TWrite "out/a.pdf" "DATA"] in
  @modelled scripted_tools download_via_arxiv = Some Tools.download_via_arxiv
  /\ @Tools.download_via_arxiv scripted_tools "10.48550/arXiv.2504.00812"
       "out/a.pdf" w
     = (Ok "out/a.pdf", mkToolState [] [] false, ev)
  /\ "out/a.pdf" = "out/a.pdf".
Proof.
  intros w ev.
  assert (H1 : @modelled scripted_tools download_via_arxiv
               = Some Tools.download_via_arxiv) by reflexivity.
  assert (H2 : @Tools.download_via_arxiv scripted_tools
                 "10.48550/arXiv.2504.00812" "out/a.pdf" w
               = (Ok "out/a.pdf", mkToolState [] [] false, ev)) by reflexivity.
  split; [exact H1|]. split; [exact H2|].
  exact (tools_return_given_path (W := scripted_tools) download_via_arxiv
           Tools.download_via_arxiv "10.48550/arXiv.2504.00812" "out/a.pdf" w
           "out/a.pdf" (mkToolState [] [] false) ev H1 H2).
Defined.

Lemma missing_credential_no_traffic_witness :
  let w := mkToolState [("WILEY_API_KEY", EmptyString)] [page 200 VNone] false in
  Tools.unset (@Tools.getenv scripted_tools "ELSEVIER_API_KEY" w) = true
  /\ @Tools.download_via_elsevier scripted_tools "10.1016/j.x" "out/a.xml" w
     = (Raise (Tools.exception
                 "ELSEVIER_API_KEY is not set. Please configure your Elsevier API key."),
        w, [])
  /\ Tools.unset (@Tools.getenv scripted_tools "WILEY_API_KEY" w) = true
  /\ @Tools.download_via_wiley scripted_tools "10.1002/x" "out/a.pdf" w
     = (Raise (Tools.exception
                 "WILEY_API_KEY is not set. Please configure your Wiley API key."),
        w, []).
Proof.
  intros w.
  assert (H1 : Tools.unset (@Tools.getenv scripted_tools "ELSEVIER_API_KEY" w)
               = true) by reflexivity.
  assert (H2 : Tools.unset (@Tools.getenv scripted_tools "WILEY_API_KEY" w)
               = true) by reflexivity.
  split; [exact H1|].
  split; [exact (proj1 (missing_credential_no_traffic (W := scripted_tools)
                          "10.1016/j.x" "out/a.xml" w) H1)|].
  split; [exact H2|].
  exact (proj1 (proj2 (missing_credential_no_traffic (W := scripted_tools)
                         "10.1002/x" "out/a.pdf" w)) H2).
Defined.

Lemma elsevier_by_status_witness :
  let doi := "10.1016/j.x" in
  let url := "https://api.elsevier.com/content/article/doi/10.1016/j.x" in
  let headers := Some [("X-ELS-APIKey", "k1"); ("Accept", "text/xml")] in
  let params := Some [("view", "FULL")] in
  let w := mkToolState [("ELSEVIER_API_KEY", "k1")] [page 403 VNone] false in
  let w0 := mkToolState [("ELSEVIER_API_KEY", "k1")] [] false in
  let r := Tools.mkHttpResponse 403 "PDFDATA" ["PDF"; EmptyString; "DATA"] None
             (Ok VNone) in
  @Tools.getenv scripted_tools "ELSEVIER_API_KEY" w = Some "k1"
  /\ "k1" <> EmptyString
  /\ @Tools.http_get scripted_tools url headers params false w = (Ok r, w0)
  /\ Tools.r_status r = 403%Z
  /\ @Tools.download_via_elsevier scripted_tools doi "out/a.xml" w
     = (Raise (Tools.exception
                 "Access denied by Elsevier API. Verify API key and access rights."),
        w0, [Tools.TGet url headers params false]).
Proof.
  intros doi url headers params w w0 r.
  assert (H1 : @Tools.getenv scripted_tools "ELSEVIER_API_KEY" w = Some "k1")
    by reflexivity.
  assert (H2 : "k1" <> EmptyString) by discriminate.
  assert (H3 : @Tools.http_get scripted_tools url headers params false w
               = (Ok r, w0)) by reflexivity.
  assert (H4 : Tools.r_status r = 403%Z) by reflexivity.
  split; [exact H1|]. split; [exact H2|]. split; [exact H3|].
  split; [exact H4|].
  exact (proj1 (proj2 (elsevier_by_status (W := scripted_tools) doi "out/a.xml"
                         w "k1" r w0 H1 H2 H3)) H4).
Defined.

Lemma arxiv_identifier_witness :
  contains_char "/" "arXiv.2504.00812" = false
  /\ Tools.arxiv_id ("10.48550" ++ "/" ++ "arXiv.2504.00812")
     = Tools.arxiv_id "arXiv.2504.00812"
  /\ contains_char "/" ("ARXIV:" ++ "2504.00812") = false
  /\ (Tools.lower "ARXIV:" = "arxiv." \/ Tools.lower "ARXIV:" = "arxiv:")
  /\ startswith (Tools.lower "2504.00812") "arxiv:" = false
  /\ Tools.arxiv_id ("ARXIV:" ++ "2504.00812") = "2504.00812"
  /\ startswith (Tools.lower "hep-th") "arxiv." = false
  /\ Tools.arxiv_id "hep-th" = "hep-th".
Proof.
  pose proof arxiv_identifier as (Ha & Hb & Hc).
  assert (H1 : contains_char "/" "arXiv.2504.00812" = false) by reflexivity.
  assert (H2 : contains_char "/" ("ARXIV:" ++ "2504.00812") = false)
    by reflexivity.
  assert (H3 : Tools.lower "ARXIV:" = "arxiv." \/ Tools.lower "ARXIV:" = "arxiv:")
    by (right; reflexivity).
  assert (H4 : startswith (Tools.lower "2504.00812") "arxiv:" = false)
    by reflexivity.
  assert (H5 : startswith (Tools.lower "hep-th") "arxiv." = false)
    by reflexivity.
  split; [exact H1|].
  split; [exact (Ha "10.48550" "arXiv.2504.00812" H1)|].
  split; [exact H2|]. split; [exact H3|]. split; [exact H4|].
  split; [exact (Hb "ARXIV:" "2504.00812" H2 H3 H4)|].
  split; [exact H5|].
  exact (Hc "hep-th" eq_refl H5 eq_refl).
Defined.

Lemma arxiv_request_witness :
  let doi := "10.48550/arXiv.2504.00812" in
  doi = ("10.48550" ++ "/arXiv." ++ "2504.00812")%string
  /\ contains_char "/" "2504.00812" = false
  /\ startswith (Tools.lower "2504.00812") "arxiv:" = false
  /\ Tools.arxiv_id doi = "2504.00812"
  /\ filter Tools.is_get
       (snd (@Tools.download_via_arxiv scripted_tools doi "out/a.pdf"
               (mkToolState [] [] false)))
     = [Tools.TGet "https://arxiv.org/pdf/2504.00812.pdf" None None true].
Proof.
  intros doi.
  pose proof (arxiv_request (W := scripted_tools) doi "out/a.pdf"
                (mkToolState [] [] false)) as (Ha & Hb).
  assert (H1 : doi = ("10.48550" ++ "/arXiv." ++ "2504.00812")%string)
    by reflexivity.
  assert (H2 : contains_char "/" "2504.00812" = false) by reflexivity.
  assert (H3 : startswith (Tools.lower "2504.00812") "arxiv:" = false)
    by reflexivity.
  split; [exact H1|]. split; [exact H2|]. split; [exact H3|].
  split; [exact (Hb "10.48550" "2504.00812" H1 H2 H3)|].
  exact Ha.
Defined.

Lemma wrapped_status_errors_witness :
  let doi := "10.1002/x" in
  let url := "https://api.wiley.com/onlinelibrary/tdm/v1/articles/10.1002/x" in
  let headers := Some [("Wiley-TDM-Client-Token", "k1")] in
  let w := mkToolState [("WILEY_API_KEY", "k1")] [page 500 VNone] false in
  let w0 := mkToolState [("WILEY_API_KEY", "k1")] [] false in
  let r := Tools.mkHttpResponse 500 "PDFDATA" ["PDF"; EmptyString; "DATA"] None
             (Ok VNone) in
  @Tools.getenv scripted_tools "WILEY_API_KEY" w = Some "k1"
  /\ "k1" <> EmptyString
  /\ @Tools.http_get scripted_tools url headers None true w = (Ok r, w0)
  /\ Tools.r_status r <> 200%Z
  /\ @Tools.download_via_wiley scripted_tools doi "out/a.pdf" w
     = (Raise (Tools.exception
                 "Wiley API download failed: Failed to download https://api.wiley.com/onlinelibrary/tdm/v1/articles/10.1002/x (status code: 500). Ensure your API key is correct and you have access rights."),
        w0, [Tools.TGet url headers None true]).
Proof.
  intros doi url headers w w0 r.
  assert (H1 : @Tools.getenv scripted_tools "WILEY_API_KEY" w = Some "k1")
    by reflexivity.
  assert (H2 : "k1" <> EmptyString) by discriminate.
  assert (H3 : @Tools.http_get scripted_tools url headers None true w
               = (Ok r, w0)) by reflexivity.
  assert (H4 : Tools.r_status r <> 200%Z) by discriminate.
  split; [exact H1|]. split; [exact H2|]. split; [exact H3|].
  split; [exact H4|].
  exact (proj1 (wrapped_status_errors (W := scripted_tools) doi "out/a.pdf" w)
           "k1" r w0 H1 H2 H3 H4).
Defined.

Lemma unpaywall_by_record_witness :
  let doi := "10.1234/a.b" in
  let api := "https://api.unpaywall.org/v2/10.1234/a.b?email=me@x.org" in
  let u := "https://x.org/a.pdf" in
  let record := [("doi", VStr doi);
                 ("best_oa_location", VDict [("url_for_pdf", VStr u)])] in
  let env := [("UNPAYWALL_EMAIL", "me@x.org")] in
  let w := mkToolState env [page 200 (VDict record); page 200 VNone] false in
  let w0 := mkToolState env [page 200 VNone] false in
  let r := Tools.mkHttpResponse 200 "PDFDATA" ["PDF"; EmptyString; "DATA"] None
             (Ok (VDict record)) in
  @Tools.getenv scripted_tools "UNPAYWALL_EMAIL" w = Some "me@x.org"
  /\ "me@x.org" <> EmptyString
  /\ @Tools.http_get scripted_tools api None None false w = (Ok r, w0)
  /\ Tools.r_status r = 200%Z
  /\ Tools.r_json r = Ok (VDict record)
  /\ item_or_none record "best_oa_location" = VDict [("url_for_pdf", VStr u)]
  /\ oa_pdf_url record = VStr u
  /\ u <> EmptyString
  /\ @Tools.download_via_unpaywall scripted_tools doi "out/a.pdf" w
     = (Ok "out/a.pdf", mkToolState env [] false,
        [Tools.TGet api None None false; Tools.TGet u None None true;
         Tools.TOpen "out/a.pdf";
         Tools.TWrite "out/a.pdf" "PDF"; Tools.TWrite "out/a.pdf" "DATA"]).
Proof.
  intros doi api u record env w w0 r.
  assert (H1 : @Tools.getenv scripted_tools "UNPAYWALL_EMAIL" w
               = Some "me@x.org") by reflexivity.
  assert (H2 : "me@x.org" <> EmptyString) by discriminate.
  assert (H3 : @Tools.http_get scripted_tools api None None false w
               = (Ok r, w0)) by reflexivity.
  assert (H4 : Tools.r_status r = 200%Z) by reflexivity.
  assert (H5 : Tools.r_json r = Ok (VDict record)) by reflexivity.
  assert (H6 : item_or_none record "best_oa_location"
               = VDict [("url_for_pdf", VStr u)]) by reflexivity.
  assert (H7 : oa_pdf_url record = VStr u) by reflexivity.
  assert (H8 : u <> EmptyString) by discriminate.
  repeat (split; [assumption|]).
  exact (proj2 (unpaywall_by_record (W := scripted_tools) doi "out/a.pdf" w
                  "me@x.org" r w0 record H1 H2 H3 H4 H5
                  (or_introl (ex_intro _ _ H6)))
           u H7 H8).
Defined.

Lemma crossref_by_links_witness :
  let doi := "10.1234/a.b" in
  let api := "https://api.crossref.org/works/10.1234/a.b" in
  let u := "https://x.org/a.pdf" in
  let links := [[("content-type", VStr "text/html");
                 ("URL", VStr "https://x.org/a.html")];
                [("URL", VStr "https://x.org/untyped")];
                [("content-type", VStr "application/pdf; charset=binary");
                 ("URL", VStr u)]] in
  let message := [("link", VList (map VDict links))] in
  let body := [("status", VStr "ok"); ("message", VDict message)] in
  let w := mkToolState [] [page 200 (VDict body); page 200 VNone] false in
  let w0 := mkToolState [] [page 200 VNone] false in
  let r := Tools.mkHttpResponse 200 "PDFDATA" ["PDF"; EmptyString; "DATA"] None
             (Ok (VDict body)) in
  @Tools.http_get scripted_tools api None None false w = (Ok r, w0)
  /\ Tools.r_status r = 200%Z
  /\ Tools.r_json r = Ok (VDict body)
  /\ dict_get body "message" = Some (VDict message)
  /\ dict_get message "link" = Some (VList (map VDict links))
  /\ forallb typed_link links = true
  /\ tdm_pdf_url links = VStr u
  /\ u <> EmptyString
  /\ @Tools.download_via_crossref_tdm scripted_tools doi "out/a.pdf" w
     = (Ok "out/a.pdf", mkToolState [] [] false,
        [Tools.TGet api None None false; Tools.TGet u None None true;
         Tools.TOpen "out/a.pdf";
         Tools.TWrite "out/a.pdf" "PDF"; Tools.TWrite "out/a.pdf" "DATA"]).
Proof.
  intros doi api u links message body w w0 r.
  assert (H1 : @Tools.http_get scripted_tools api None None false w
               = (Ok r, w0)) by reflexivity.
  assert (H2 : Tools.r_status r = 200%Z) by reflexivity.
  assert (H3 : Tools.r_json r = Ok (VDict body)) by reflexivity.
  assert (H4 : dict_get body "message" = Some (VDict message)) by reflexivity.
  assert (H5 : dict_get message "link" = Some (VList (map VDict links)))
    by reflexivity.
  assert (H6 : forallb typed_link links = true) by reflexivity.
  assert (H7 : tdm_pdf_url links = VStr u) by reflexivity.
  assert (H8 : u <> EmptyString) by discriminate.
  repeat (split; [assumption|]).
  exact (proj2 (crossref_by_links (W := scripted_tools) doi "out/a.pdf" w r w0
                  body message links H1 H2 H3 H4 H5 H6)
           u H7 H8).
Defined.

Lemma loop_outcomes_witness :
  let doi := "10.1234/a.b" in
  let tools := Some ["unpaywall"; "crossref_tdm"; "arxiv"] in
  let s := fresh [Some not_found; None] in
  @prepare scripted doi "out" tools None s
    = (Ok ["unpaywall"; "crossref_tdm"; "arxiv"], s, [EvMakedirs "out"])
  /\ ((exists pre tool post s1 last1 p s2 ev evs,
          ["unpaywall"; "crossref_tdm"; "arxiv"] = pre ++ tool :: post
          /\ @all_fail scripted doi "out" None pre s None s1 last1
          /\ @attempt scripted doi tool
               (candidate_path doi "out" None tool) s1 = (Ok p, s2, ev)
          /\ @download_article scripted doi "out" None tools None s
             = (Ok p, s2, evs))
      \/ (exists s1 last1 evs,
             @all_fail scripted doi "out" None
               ["unpaywall"; "crossref_tdm"; "arxiv"] s None s1 last1
             /\ @download_article scripted doi "out" None tools None s
                = (Raise (Exception_ "Exception" (error_msg doi last1)),
                   s1, evs))).
Proof.
  intros doi tools s.
  assert (H : @prepare scripted doi "out" tools None s
              = (Ok ["unpaywall"; "crossref_tdm"; "arxiv"], s,
                 [EvMakedirs "out"])) by reflexivity.
  split; [exact H|].
  exact (loop_outcomes (X := scripted) doi "out" None tools None s
           ["unpaywall"; "crossref_tdm"; "arxiv"] s [EvMakedirs "out"] H).
Defined.

Lemma cli_exit_code_witness :
  let doi := "10.1234/a.b" in
  let s := fresh [Some not_found; Some not_found] in
  let e := Exception_ "Exception"
             ("All download methods failed for DOI 10.1234/a.b. Last error: "
                ++ str not_found) in
  exists evs,
    @Cli.main scripted doi "out" None s = (1%Z, fresh [], evs)
    /\ ((1 = 0
         /\ exists p,
             outcome_of (@download_article scripted doi "out" None None None s)
             = Ok p
             /\ filter Cli.is_print_call evs
                = [Cli.Run (EvPrint ("Successfully downloaded " ++ doi
                                       ++ " to " ++ p))]
             /\ filter Cli.is_stderr evs = [])
        \/ (1 = 1
            /\ exists e,
                outcome_of (@download_article scripted doi "out" None None None s)
                = Raise e
                /\ filter Cli.is_print_call evs = []
                /\ filter Cli.is_stderr evs
                   = [Cli.Stderr ("Error downloading " ++ doi ++ ": " ++ str e)]))%Z.
Proof.
  intros doi s e. eexists. split; [reflexivity|].
  eapply (cli_exit_code (X := scripted)). reflexivity.
Defined.

Lemma first_definition_wins_witness :
  let lines := ["# keys of the downloader";
                "  ELSEVIER_API_KEY = abc  ";
                EmptyString;
                "ELSEVIER_API_KEY=other";
                "WILEY_API_KEY=";
                "WILEY_API_KEY=w1";
                "HOME=/tmp";
                "no assignment here"] in
  let environ := [("HOME", "/root")] in
  forallb Keys.accepted (Keys.settings lines) = true
  /\ Keys.settings lines
     = [("ELSEVIER_API_KEY", "abc"); ("ELSEVIER_API_KEY", "other");
        ("WILEY_API_KEY", "w1"); ("HOME", "/tmp")]
  /\ exists environ',
      Keys._load_api_keys (Keys.Lines lines None) environ
        = (Ok tt, environ', [])
      /\ forall k,
          dict_get environ' k
          = match dict_get environ k with
            | Some v => Some v
            | None => dict_get (Keys.settings lines) k
            end.
Proof.
  intros lines environ.
  assert (H : forallb Keys.accepted (Keys.settings lines) = true)
    by reflexivity.
  split; [exact H|]. split; [reflexivity|].
  exact (first_definition_wins lines environ H).
Defined.

Lemma configure_writes_known_keys_witness :
  let config := Keys.Lines ["ELSEVIER_API_KEY=old"; "OTHER_KEY=1"] None in
  let typed := [EmptyString; "  s-key "; EmptyString; "me@x.org"] in
  exists evs,
    @Configure.main scripted_terminal config typed = (Ok tt, [], evs)
    /\ Configure.written evs
       = [("ELSEVIER_API_KEY=old" ++ String (ascii_of_nat 10) EmptyString)%string;
          ("SPRINGER_API_KEY=s-key" ++ String (ascii_of_nat 10) EmptyString)%string;
          ("UNPAYWALL_EMAIL=me@x.org" ++ String (ascii_of_nat 10) EmptyString)%string]
    /\ exists keys n,
        Configure.written evs = firstn n (map Configure.key_line keys)
        /\ (@Configure.saved scripted_terminal evs = true ->
            Configure.written evs = map Configure.key_line keys)
        /\ map fst keys
           = filter (dict_mem keys) (map fst Configure.key_prompts)
        /\ Forall (fun kv => snd kv <> EmptyString
                             /\ strip (snd kv) = snd kv) keys.
Proof.
  intros config typed.
  exists (snd (@Configure.main scripted_terminal config typed)).
  assert (H : @Configure.main scripted_terminal config typed
              = (Ok tt, [], snd (@Configure.main scripted_terminal config typed)))
    by reflexivity.
  split; [exact H|]. split; [reflexivity|].
  exact (configure_writes_known_keys (U := scripted_terminal) config typed
           (Ok tt) [] _ H).
Defined.


(** ** Attempt entries with and without a log file *)

(** C1 at K = 2, with a log file: unpaywall finds nothing, "nosuch" is
    no tool name, crossref_tdm succeeds, arxiv is never reached; three
    attempt-started entries are recorded. *)
Lemma first_success_wins_witness :
  let doi := "10.1234/a.b" in
  let tools := Some ["unpaywall"; "nosuch"; "crossref_tdm"; "arxiv"] in
  let logging w :=
    @mkEnv scripted w [FileHandler "/work/run.log"] (Some INFO) in
  @prepare scripted doi "out" tools (Some "run.log")
      (fresh [Some not_found; None])
    = (Ok (["unpaywall"; "nosuch"] ++ "crossref_tdm" :: ["arxiv"]),
       logging [Some not_found; None],
       [EvOpenLog "/work/run.log"; EvMakedirs "out"])
  /\ isEnabledFor INFO (logging [Some not_found; None]) = true
  /\ @all_fail scripted doi "out" None ["unpaywall"; "nosuch"]
       (logging [Some not_found; None]) None
       (logging [None]) (Some (KeyError "nosuch"))
  /\ exists evs,
      @download_article scripted doi "out" None tools (Some "run.log")
        (fresh [Some not_found; None])
        = (Ok "out/10.1234_a.b.pdf", logging [], evs)
      /\ filter (is_attempt_record (logging [Some not_found; None])) evs
         = map (attempt_entry doi) (["unpaywall"; "nosuch"] ++ ["crossref_tdm"])
      /\ List.length
           (filter (is_attempt_record (logging [Some not_found; None])) evs)
         = 3%nat
      /\ filter is_call evs
         = flat_map (@call_of doi "out" None)
             (["unpaywall"; "nosuch"] ++ ["crossref_tdm"]).
Proof.
  intros doi tools logging.
  assert (H1 : @prepare scripted doi "out" tools (Some "run.log")
                 (fresh [Some not_found; None])
               = (Ok (["unpaywall"; "nosuch"] ++ "crossref_tdm" :: ["arxiv"]),
                  logging [Some not_found; None],
                  [EvOpenLog "/work/run.log"; EvMakedirs "out"]))
    by reflexivity.
  assert (H2 : isEnabledFor INFO (logging [Some not_found; None]) = true)
    by reflexivity.
  assert (H3 : @all_fail scripted doi "out" None ["unpaywall"; "nosuch"]
                 (logging [Some not_found; None]) None
                 (logging [None]) (Some (KeyError "nosuch"))).
  { eapply all_fail_cons; [reflexivity|].
    eapply all_fail_cons; [reflexivity|].
    apply all_fail_nil. }
  split; [exact H1|]. split; [exact H2|]. split; [exact H3|].
  destruct (first_success_wins (X := scripted) doi "out" None tools
              (Some "run.log") (fresh [Some not_found; None])
              ["unpaywall"; "nosuch"] "crossref_tdm" ["arxiv"]
              (logging [Some not_found; None])
              [EvOpenLog "/work/run.log"; EvMakedirs "out"]
              (logging [None]) (Some (KeyError "nosuch"))
              "out/10.1234_a.b.pdf" (logging []) _ H1 H3 eq_refl)
    as (evs & Hrun & Hcalls & _ & _ & Hrec & _ & _).
  exists evs. destruct (Hrec H2) as (Hentries & Hlen).
  repeat split; assumption.
Defined.

(** Without a log file, from a fresh logger, the first tool succeeds and
    no attempt-started entry is recorded: every INFO call is dropped. *)
Lemma first_success_wins_counterexample :
  let doi := "10.1234/a.b" in
  let run := @download_article scripted doi "out" None (Some ["unpaywall"])
               None (fresh [None]) in
  outcome_of run = Ok "out/10.1234_a.b.pdf"
  /\ filter is_call (events_of run)
     = [EvCall download_via_unpaywall doi "out/10.1234_a.b.pdf"]
  /\ isEnabledFor INFO (state_of run) = false
  /\ filter is_attempt_entry (events_of run)
     = [EvLog INFO "Attempting DOI 10.1234/a.b with tool: unpaywall"]
  /\ filter (recorded (state_of run)) (events_of run) = []
  /\ List.length (filter (is_attempt_record (state_of run)) (events_of run))
     <> 1%nat.
Proof.
  intros doi run. repeat split; try reflexivity. cbn. discriminate.
Qed.
